(** * Egress cost optimizer: detection, enrichment and remediation lambdas

    A shallow embedding of the Python sources of the repository:

    - [Remediation] : application_logic/lambda_functions/remediation_orchestrator/index.py
    - [Trigger]     : application_logic/lambda_functions/anomaly_detector_trigger/index.py
    - [Analyzer]    : application_logic/lambda_functions/bedrock_analyzer/index.py
    - [Inference]   : ml_models/anomaly_detection/inference_script.py
    - [Training]    : ml_models/anomaly_detection/training_script.py
    - [FeatureEngineering] :
        data_processing_scripts/sagemaker_processing_scripts/feature_engineering.py

    Python exceptions are values of [exn]; a computation that may raise
    returns a [result].  Calls to AWS go through an explicit world or
    environment, and every call that is issued is recorded in a call log,
    so that "no call is made" is a statement about that log.  Logging
    statements of the sources have a counterpart only where building
    the logged text can raise. *)

From Stdlib Require Import ZArith.
From Stdlib Require QArith.
From stdpp Require Import base strings gmap list.

Local Open Scope string_scope.
Local Open Scope Z_scope.

(** ** Python values shared by the modules *)

(** Exceptions.  [ClientError] is botocore's; it carries
    [e.response['Error']['Code']] and [e.response['Error']['Message']].
    Every other exception is kept by the name of its class. *)
Inductive exn :=
| ClientError (code message : string)
| PyError (cls detail : string).

Definition exn_class (e : exn) : string :=
  match e with
  | ClientError _ _ => "ClientError"
  | PyError cls _ => cls
  end.

Definition ValueError (detail : string) : exn := PyError "ValueError" detail.
Definition AttributeError (detail : string) : exn := PyError "AttributeError" detail.
Definition IndexError (detail : string) : exn := PyError "IndexError" detail.
Definition KeyError (detail : string) : exn := PyError "KeyError" detail.
Definition NameError (detail : string) : exn := PyError "NameError" detail.

Inductive result (A : Type) :=
| Ok (a : A)
| Raise (e : exn).
Arguments Ok {A} a.
Arguments Raise {A} e.

(** Sequencing of steps that may raise. *)
Definition result_bind {A B} (r : result A) (k : A -> result B) : result B :=
  match r with
  | Ok a => k a
  | Raise e => Raise e
  end.

Notation "x <~ r ;; k" := (result_bind r (fun x => k))
  (at level 100, r at next level, right associativity).

(** A list comprehension whose element expression may raise: the first
    exception ends it. *)
Fixpoint traverse {A B} (f : A -> result B) (xs : list A) : result (list B) :=
  match xs with
  | [] => Ok []
  | x :: rest =>
      y <~ f x ;;
      ys <~ traverse f rest ;;
      Ok (y :: ys)
  end.

(** JSON-like values, as they arrive in a Lambda event. *)
#[local] Set Warnings "-register-all".
Inductive pyval :=
| PyNone
| PyBool (b : bool)
| PyInt (n : Z)
| PyStr (s : string)
| PyList (items : list pyval)
| PyDict (entries : list (string * pyval)).

(** Python truthiness, as used by [not x] and [all([...])]. *)
Definition truthy (v : pyval) : bool :=
  match v with
  | PyNone => false
  | PyBool b => b
  | PyInt n => negb (n =? 0)
  | PyStr s => negb (String.eqb s "")
  | PyList items => match items with [] => false | _ => true end
  | PyDict entries => match entries with [] => false | _ => true end
  end.

(** [v == "literal"] for a string literal. *)
Definition is_str (v : pyval) (lit : string) : bool :=
  match v with
  | PyStr s => String.eqb s lit
  | _ => false
  end.

(** [os.environ.get(name)]: [None] when unset, else a string. *)
Definition env_truthy (v : option string) : bool :=
  match v with
  | None => false
  | Some s => negb (String.eqb s "")
  end.

(** [d.get(key)] and [d.get(key, default)] on an event. *)
Definition dict_get (d : gmap string pyval) (key : string) : pyval :=
  default PyNone (d !! key).

Definition dict_get_default (d : gmap string pyval) (key : string) (dflt : pyval) : pyval :=
  default dflt (d !! key).

(** An f-string is kept as the list of its pieces: literal text and the
    values that are formatted into it.  [json.dumps] is not rendered. *)
Inductive frag :=
| Lit (s : string)
| Fmt (v : pyval)
| FmtExn (e : exn)
| Dumps (v : pyval) (indent : option nat)
| DumpsEvent (event : gmap string pyval).

Definition text := list frag.

(** The newline of ["\n"]. *)
Definition nl : string := String (Ascii.ascii_of_nat 10) "".

(** [s.split(sep)] for a non-empty separator: matches are taken left to
    right and do not overlap.  [skip] counts the characters of a matched
    separator that are still to be dropped. *)
Fixpoint split_go (sep s : string) (skip : nat) (cur : string) : list string :=
  match s with
  | EmptyString => [cur]
  | String c s' =>
      match skip with
      | S k => split_go sep s' k cur
      | O =>
          if String.prefix sep s
          then cur :: split_go sep s' (String.length sep - 1) ""
          else split_go sep s' 0 (cur +:+ String c "")
      end
  end.

Definition split (sep s : string) : list string := split_go sep s 0 "".

(** [xs[-1]] on the result of a split, which is never empty. *)
Definition last_part (parts : list string) : string := List.last parts "".

Definition upper_ascii (c : Ascii.ascii) : Ascii.ascii :=
  let n := Ascii.nat_of_ascii c in
  if ((97 <=? n) && (n <=? 122))%nat then Ascii.ascii_of_nat (n - 32) else c.

(** [s.upper()] on ASCII text. *)
Fixpoint upper (s : string) : string :=
  match s with
  | EmptyString => EmptyString
  | String c s' => String (upper_ascii c) (upper s')
  end.

(** ** Computations against AWS *)

(** What a lambda runs against: the [state] of the services it talks to,
    a schedule of injected [faults], and the log of the [calls] issued so
    far, oldest first.  Every call consumes the head of the schedule, and
    a [Some e] there makes the call raise [e] before it reaches the
    service. *)
Record World (St Call : Type) := {
  state : St;
  faults : list (option exn);
  calls : list Call
}.
Arguments state {St Call} w.
Arguments faults {St Call} w.
Arguments calls {St Call} w.

(** Computations read and change the world and may raise.  The world
    reached before a raise is kept, as side effects are in Python. *)
Definition Comp (W A : Type) : Type := W -> result A * W.

Section Monad.
Context {W : Type}.

Definition ret {A} (a : A) : Comp W A := fun w => (Ok a, w).

Definition raise {A} (e : exn) : Comp W A := fun w => (Raise e, w).

Definition bind {A B} (m : Comp W A) (k : A -> Comp W B) : Comp W B :=
  fun w =>
    match m w with
    | (Ok a, w') => k a w'
    | (Raise e, w') => (Raise e, w')
    end.

(** [try: body  except Exception as e: handler e] *)
Definition try_except {A} (body : Comp W A) (handler : exn -> Comp W A) : Comp W A :=
  fun w =>
    match body w with
    | (Ok a, w') => (Ok a, w')
    | (Raise e, w') => handler e w'
    end.

(** [try: body  except ClientError as e: handler e]; any other
    exception passes through. *)
Definition try_except_ClientError {A} (body : Comp W A)
    (handler : string -> string -> Comp W A) : Comp W A :=
  fun w =>
    match body w with
    | (Raise (ClientError code message), w') => handler code message w'
    | other => other
    end.

(** Lift a pure step that may raise. *)
Definition lift {A} (r : result A) : Comp W A := fun w => (r, w).
End Monad.

Notation "x <- m ;; k" := (bind m (fun x => k))
(at level 100, m at next level, right associativity).
Notation "m ;;; k" := (bind m (fun _ => k))
(at level 100, right associativity).

Section Calls.
Context {St Call : Type}.

Definition logged (c : Call) (rest : list (option exn)) (w : World St Call) : World St Call :=
  {| state := state w; faults := rest; calls := (calls w ++ [c])%list |}.

(** A call to a service: it is logged, then the next scheduled fault
    decides whether it reaches the [service], which answers from the
    state and may change it. *)
Definition aws {A} (c : Call) (service : St -> result A * St) : Comp (World St Call) A :=
  fun w =>
    match faults w with
    | Some e :: rest => (Raise e, logged c rest w)
    | rest =>
        let w' := logged c (tail rest) w in
        let '(r, st) := service (state w') in
        (r, {| state := st; faults := faults w'; calls := calls w' |})
    end.
End Calls.

(** ** Remediation orchestrator *)
Module Remediation.

(** The four flags of [PublicAccessBlockConfiguration]. *)
Record PublicAccessBlock := {
  BlockPublicAcls : bool;
  IgnorePublicAcls : bool;
  BlockPublicPolicy : bool;
  RestrictPublicBuckets : bool
}.

(** One entry of [IpRanges]; [CidrIp] is read with [.get]. *)
Record IpRange := {
  CidrIp : option string;
  Description : option string
}.

(** One entry of [IpPermissions] as [describe_security_groups] returns
    it.  [IpRanges] is optional because the source tests
    ['IpRanges' in ip_permission]. *)
Record IpPermission := {
  IpProtocol : string;
  FromPort : option Z;
  ToPort : option Z;
  IpRanges : option (list IpRange);
  Ipv6Ranges : list string;
  UserIdGroupPairs : list string
}.

#[global] Instance PublicAccessBlock_eq_dec : EqDecision PublicAccessBlock.
Proof. solve_decision. Defined.
#[global] Instance IpRange_eq_dec : EqDecision IpRange.
Proof. solve_decision. Defined.
#[global] Instance IpPermission_eq_dec : EqDecision IpPermission.
Proof. solve_decision. Defined.

(** Calls made through the boto3 clients of the module. *)
Inductive call :=
| PutPublicAccessBlock (bucket : string) (cfg : PublicAccessBlock)
| DescribeSecurityGroups (group_ids : list string)
| RevokeSecurityGroupIngress (group_id : string) (perms : list IpPermission)
| SnsPublish (topic : string) (subject message : text).

(** The calls that change infrastructure. *)
Definition mutating (c : call) : bool :=
  match c with
  | PutPublicAccessBlock _ _ => true
  | RevokeSecurityGroupIngress _ _ => true
  | DescribeSecurityGroups _ => false
  | SnsPublish _ _ _ => false
  end.

(** The part of the AWS account the lambda acts on. *)
Record account := {
  buckets : gmap string (option PublicAccessBlock);
  security_groups : gmap string (list IpPermission)
}.

Abbreviation world := (World account call).
Abbreviation M := (Comp world).

(** [s3_client.put_public_access_block]: replaces the configuration of an
    existing bucket. *)
Definition put_public_access_block (bucket : string) (cfg : PublicAccessBlock) : M unit :=
  aws (PutPublicAccessBlock bucket cfg)
    (fun acct =>
       match buckets acct !! bucket with
       | Some _ =>
           (Ok tt, {| buckets := <[bucket := Some cfg]> (buckets acct);
                      security_groups := security_groups acct |})
       | None =>
           (Raise (ClientError "NoSuchBucket" "The specified bucket does not exist"), acct)
       end).

(** [ec2_client.describe_security_groups(GroupIds=[...])['SecurityGroups']]:
    the [IpPermissions] of each group, or [InvalidGroup.NotFound]. *)
Fixpoint lookup_groups (g : gmap string (list IpPermission)) (ids : list string)
  : option (list (list IpPermission)) :=
  match ids with
  | [] => Some []
  | id :: rest =>
      match g !! id, lookup_groups g rest with
      | Some perms, Some more => Some (perms :: more)
      | _, _ => None
      end
  end.

Definition describe_security_groups (group_ids : list string) : M (list (list IpPermission)) :=
  aws (DescribeSecurityGroups group_ids)
    (fun acct =>
       match lookup_groups (security_groups acct) group_ids with
       | Some groups => (Ok groups, acct)
       | None =>
           (Raise (ClientError "InvalidGroup.NotFound" "The security group does not exist"), acct)
       end).

(** EC2 keeps one rule per protocol, port range and source.  A revoke
    request names rules by listing sources under a protocol and port
    range; every source listed there is removed from the stored entry
    with the same protocol and port range, and an entry left without a
    source disappears. *)
Definition same_ports (p q : IpPermission) : bool :=
  bool_decide (IpProtocol p = IpProtocol q) &&
  bool_decide (FromPort p = FromPort q) &&
  bool_decide (ToPort p = ToPort q).

Definition ranges_of (p : IpPermission) : list IpRange := default [] (IpRanges p).

Definition asks_cidr (req : list IpPermission) (p : IpPermission) (r : IpRange) : bool :=
  existsb (fun q => same_ports p q &&
                    existsb (fun r' => bool_decide (CidrIp r' = CidrIp r)) (ranges_of q)) req.

Definition asks_cidr6 (req : list IpPermission) (p : IpPermission) (c : string) : bool :=
  existsb (fun q => same_ports p q && bool_decide (c ∈ Ipv6Ranges q)) req.

Definition asks_group (req : list IpPermission) (p : IpPermission) (g : string) : bool :=
  existsb (fun q => same_ports p q && bool_decide (g ∈ UserIdGroupPairs q)) req.

Definition revoke_from (req : list IpPermission) (p : IpPermission) : IpPermission :=
  {| IpProtocol := IpProtocol p;
     FromPort := FromPort p;
     ToPort := ToPort p;
     IpRanges := List.filter (fun r => negb (asks_cidr req p r)) <$> IpRanges p;
     Ipv6Ranges := List.filter (fun c => negb (asks_cidr6 req p c)) (Ipv6Ranges p);
     UserIdGroupPairs := List.filter (fun g => negb (asks_group req p g)) (UserIdGroupPairs p) |}.

Definition has_source (p : IpPermission) : bool :=
  match ranges_of p, Ipv6Ranges p, UserIdGroupPairs p with
  | [], [], [] => false
  | _, _, _ => true
  end.

Definition ec2_revoke (req perms : list IpPermission) : list IpPermission :=
  List.filter has_source (List.map (revoke_from req) perms).

(** [ec2_client.revoke_security_group_ingress] *)
Definition revoke_security_group_ingress (group_id : string) (perms : list IpPermission) : M unit :=
  aws (RevokeSecurityGroupIngress group_id perms)
    (fun acct =>
       match security_groups acct !! group_id with
       | Some stored =>
           (Ok tt, {| buckets := buckets acct;
                      security_groups :=
                        <[group_id := ec2_revoke perms stored]> (security_groups acct) |})
       | None =>
           (Raise (ClientError "InvalidGroup.NotFound" "The security group does not exist"), acct)
       end).

(** [sns_client.publish] *)
Definition sns_publish (topic : string) (subject message : text) : M unit :=
  aws (SnsPublish topic subject message) (fun acct => (Ok tt, acct)).

(** [{"status": ..., "message": ...}] *)
Record remediation_result := {
  status : string;
  message : text
}.

(** The argument of [json.dumps] in a response body. *)
Inductive body_val :=
| BodyStr (s : string)
| BodyResult (r : remediation_result).

Record response := {
  statusCode : Z;
  body : body_val
}.

(** [resource_id.split(sep)[-1]]; a value that is not a [str] has no
    [split]. *)
Definition split_last (resource_id : pyval) (sep : string) : M string :=
  match resource_id with
  | PyStr s => ret (last_part (split sep s))
  | _ => raise (AttributeError "object has no attribute 'split'")
  end.

Definition block_all : PublicAccessBlock :=
  {| BlockPublicAcls := true; IgnorePublicAcls := true;
     BlockPublicPolicy := true; RestrictPublicBuckets := true |}.

Definition remediate_s3_public_access (resource_id : pyval) : M remediation_result :=
  bucket_name <- split_last resource_id ":::" ;;
  try_except
    (put_public_access_block bucket_name block_all ;;;
     ret {| status := "success";
            message := [Lit "Blocked public access for S3 bucket "; Lit bucket_name; Lit "."] |})
    (fun e => raise e).

Definition unrestricted : string := "0.0.0.0/0".

(** The two nested [for] loops: one copy of the permission is appended
    for every range of it whose [CidrIp] is ['0.0.0.0/0']. *)
Definition matches_of (ip_permission : IpPermission) : list IpPermission :=
  match IpRanges ip_permission with
  | Some ranges =>
      flat_map (fun ip_range =>
                  if bool_decide (CidrIp ip_range = Some unrestricted)
                  then [ip_permission] else []) ranges
  | None => []
  end.

Definition ingress_rules_to_revoke (ip_permissions : list IpPermission) : list IpPermission :=
  flat_map matches_of ip_permissions.

Definition remediate_security_group (resource_id : pyval) : M remediation_result :=
  sg_id <- split_last resource_id "/" ;;
  try_except
    (groups <- describe_security_groups [sg_id] ;;
     match groups with
     | [] => raise (IndexError "list index out of range")
     | ip_permissions :: _ =>
         match ingress_rules_to_revoke ip_permissions with
         | [] =>
             ret {| status := "no_action";
                    message := [Lit "No overly permissive rules found for SG "; Lit sg_id; Lit "."] |}
         | to_revoke =>
             revoke_security_group_ingress sg_id to_revoke ;;;
             ret {| status := "success";
                    message := [Lit "Revoked overly permissive ingress rules from SG ";
                                Lit sg_id; Lit "."] |}
         end
     end)
    (fun e => raise e).

(** The dispatch on [action] in [lambda_handler] (the [if]/[elif]/[else]
    that assigns [remediation_result]). *)
Definition remediate (action resource_id : pyval) : M remediation_result :=
  if is_str action "remediate_s3_public_access"
  then remediate_s3_public_access resource_id
  else if is_str action "remediate_security_group"
  then remediate_security_group resource_id
  else ret {| status := "skipped";
              message := [Lit "Unknown action '"; Fmt action; Lit "'."] |}.

Definition status_subject (r : remediation_result) (action resource_id : pyval) : text :=
  [Lit "Egress Remediation Status: "; Lit (upper (status r)); Lit " for "; Fmt action;
   Lit " on "; Fmt resource_id].

Definition status_message (r : remediation_result) (action resource_id anomaly_details : pyval) : text :=
  ([Lit "Remediation Action: "; Fmt action;
    Lit (nl +:+ "Resource ID: "); Fmt resource_id;
    Lit (nl +:+ "Status: "); Lit (status r);
    Lit (nl +:+ "Message: ")]
   ++ message r
   ++ [Lit (nl +:+ "Anomaly Details: "); Dumps anomaly_details (Some 2%nat)])%list.

Definition error_message (action resource_id : pyval) (e : exn) : text :=
  [Lit "Remediation failed for action '"; Fmt action; Lit "' on '"; Fmt resource_id;
   Lit "'. Error: "; FmtExn e].

(** [lambda_handler(event, context)]; [topic_arn] is the module global
    [SNS_ANOMALY_TOPIC_ARN]. *)
Definition lambda_handler (topic_arn : option string) (event : gmap string pyval) : M response :=
  if negb (env_truthy topic_arn)
  then ret {| statusCode := 500;
              body := BodyStr "Configuration error: Missing SNS_ANOMALY_TOPIC_ARN." |}
  else
    let topic := default "" topic_arn in
    let action := dict_get event "action" in
    let resource_id := dict_get event "resourceId" in
    let anomaly_details := dict_get_default event "anomalyDetails" (PyDict []) in
    if negb (truthy action) || negb (truthy resource_id)
    then ret {| statusCode := 400;
                body := BodyStr "Bad Request: Missing action or resourceId." |}
    else
      try_except
        (remediation_result <- remediate action resource_id ;;
         sns_publish topic
           (status_subject remediation_result action resource_id)
           (status_message remediation_result action resource_id anomaly_details) ;;;
         ret {| statusCode := 200; body := BodyResult remediation_result |})
        (fun e =>
           let failed := {| status := "failed"; message := error_message action resource_id e |} in
           sns_publish topic
             [Lit "CRITICAL: Egress Remediation Failed for "; Fmt action; Lit " on "; Fmt resource_id]
             (error_message action resource_id e
              ++ [Lit (nl +:+ "Full event: "); DumpsEvent event])%list ;;;
           ret {| statusCode := 500; body := BodyResult failed |}).

End Remediation.

(** ** Data frames *)

Abbreviation Q := QArith_base.Q.

(** A cell of a pandas frame.  Floats are carried as rationals: the
    lambdas and scripts pass them on and compare them, the arithmetic on
    them is numpy's and scikit-learn's. *)
Inductive cell :=
| CNull
| CInt (n : Z)
| CFloat (q : Q)
| CStr (s : string).

#[global] Instance Q_eq_dec : EqDecision Q.
Proof. solve_decision. Defined.
#[global] Instance cell_eq_dec : EqDecision cell.
Proof. solve_decision. Defined.

(** One JSON object of [orient='records'], one row with its column
    names. *)
Definition record : Type := list (string * cell).

Fixpoint field (key : string) (r : record) : option cell :=
  match r with
  | [] => None
  | (k, v) :: rest => if String.eqb k key then Some v else field key rest
  end.

Inductive dtype := Numeric | Object.

#[global] Instance dtype_eq_dec : EqDecision dtype.
Proof. solve_decision. Defined.

(** A frame: named, typed columns and the rows under them. *)
Record DataFrame := {
  columns : list (string * dtype);
  rows : list (list cell)
}.

Definition names (df : DataFrame) : list string := (columns df).*1.

(** Every row of a frame has one cell per column. *)
Definition rectangular (df : DataFrame) : Prop :=
  Forall (fun row => length row = length (columns df)) (rows df).

(** [len(df)] *)
Definition len (df : DataFrame) : nat := length (rows df).

(** [df.empty]: true when either axis has length zero. *)
Definition empty (df : DataFrame) : bool :=
  match columns df, rows df with
  | [], _ => true
  | _, [] => true
  | _, _ => false
  end.

(** The rows of a frame as records: every cell under the name of its
    column. *)
Definition to_records (df : DataFrame) : list record :=
  List.map (fun r => zip (names df) r) (rows df).

(** A cell as [to_json] writes it.  A float is written with
    [double_precision] decimals, 10 unless the caller asks otherwise;
    [double_precision] is that rendering of a float.  Integers, strings
    and nulls are written as they are. *)
Definition render_cell (double_precision : Q -> Q) (c : cell) : cell :=
  match c with
  | CFloat q => CFloat (double_precision q)
  | _ => c
  end.

(** A record as [to_json] writes it. *)
Definition render (double_precision : Q -> Q) (r : record) : record :=
  List.map (fun kv => (kv.1, render_cell double_precision kv.2)) r.

(** [df.to_json(orient='records')], read as JSON; the names of the
    columns have to be distinct. *)
Definition to_json (double_precision : Q -> Q) (df : DataFrame) : result (list record) :=
  if bool_decide (NoDup (names df))
  then Ok (List.map (render double_precision) (to_records df))
  else Raise (ValueError "DataFrame columns must be unique for orient='records'.").

(** The dtype pandas infers for a column of JSON values. *)
Inductive column_kind :=
| IntColumn
| FloatColumn
| ObjectColumn.

Definition cell_is_str (c : cell) : bool :=
  match c with
  | CStr _ => true
  | _ => false
  end.

Definition cell_is_null (c : cell) : bool :=
  match c with
  | CNull => true
  | _ => false
  end.

Definition cell_is_int (c : cell) : bool :=
  match c with
  | CInt _ => true
  | _ => false
  end.

(** An integer that does not fit [int64] keeps a column from being
    numeric. *)
Definition fits_int64 (c : cell) : bool :=
  match c with
  | CInt n => (- 2 ^ 63 <=? n) && (n <? 2 ^ 63)
  | _ => true
  end.

(** A string makes the column [object], and so does a column of nulls
    only; integers alone give [int64]; numbers with a float or a null
    among them give [float64]. *)
Definition column_kind_of (values : list cell) : column_kind :=
  if existsb cell_is_str values then ObjectColumn
  else if forallb cell_is_null values then ObjectColumn
  else if negb (forallb fits_int64 values) then ObjectColumn
  else if forallb cell_is_int values then IntColumn
  else FloatColumn.

(** A value as the column holds it: an integer of a [float64] column is
    a float. *)
Definition as_kind (k : column_kind) (c : cell) : cell :=
  match k, c with
  | FloatColumn, CInt n => CFloat (QArith_base.inject_Z n)
  | _, _ => c
  end.

(** Keys of a list of records in order of first appearance. *)
Fixpoint add_keys (seen : list string) (r : record) : list string :=
  match r with
  | [] => seen
  | (k, _) :: rest =>
      add_keys (if bool_decide (k ∈ seen) then seen else (seen ++ [k])%list) rest
  end.

Definition union_keys (rs : list record) : list string := fold_left add_keys rs [].

(** [pd.DataFrame(records)]: the columns are the union of the keys, a
    key missing in a record gives a null cell. *)
Definition from_records (rs : list record) : DataFrame :=
  let keys := union_keys rs in
  let kind := fun k => column_kind_of (List.map (fun r => default CNull (field k r)) rs) in
  {| columns :=
       List.map (fun k => (k, match kind k with
                              | ObjectColumn => Object
                              | _ => Numeric
                              end)) keys;
     rows :=
       List.map (fun r => List.map (fun k => as_kind (kind k) (default CNull (field k r))) keys)
                rs |}.

(** [x == 1] on a cell. *)
Definition is_one (c : cell) : bool :=
  match c with
  | CInt n => n =? 1
  | CFloat q => QArith_base.Qeq_bool q (QArith_base.Qmake 1 1)
  | _ => false
  end.

(** Keep the entries of [xs] whose position is marked in [mask]. *)
Fixpoint keep {A} (mask : list bool) (xs : list A) : list A :=
  match mask, xs with
  | true :: m, x :: rest => x :: keep m rest
  | false :: m, _ :: rest => keep m rest
  | _, _ => []
  end.

(** [df.select_dtypes(include=np.number)]: a new frame with the numeric
    columns. *)
Definition select_dtypes_number (df : DataFrame) : DataFrame :=
  let mask := List.map (fun c => bool_decide (c.2 = Numeric)) (columns df) in
  {| columns := keep mask (columns df);
     rows := List.map (keep mask) (rows df) |}.

(** Position of a column. *)
Fixpoint position (name : string) (cols : list (string * dtype)) : option nat :=
  match cols with
  | [] => None
  | (n, _) :: rest => if String.eqb n name then Some O else S <$> position name rest
  end.

(** [df[name] = values]: the column is replaced where it exists and
    added at the end otherwise; the values have to be as many as the
    rows. *)
Definition assign (df : DataFrame) (name : string) (dt : dtype) (values : list cell)
  : result DataFrame :=
  if negb (length values =? len df)%nat
  then Raise (ValueError "Length of values does not match length of index")
  else
    match position name (columns df) with
    | Some i =>
        Ok {| columns := <[i := (name, dt)]> (columns df);
              rows := zip_with (fun row v => <[i := v]> row) (rows df) values |}
    | None =>
        Ok {| columns := (columns df ++ [(name, dt)])%list;
              rows := zip_with (fun row v => (row ++ [v])%list) (rows df) values |}
    end.

(** Columns of [pd.concat(frames)]: the union of the columns, numeric
    where every frame that has the column has it numeric. *)
Definition merge_column (acc : list (string * dtype)) (c : string * dtype)
  : list (string * dtype) :=
  match position c.1 acc with
  | Some i =>
      match c.2 with
      | Numeric => acc
      | Object => <[i := (c.1, Object)]> acc
      end
  | None => (acc ++ [c])%list
  end.

Definition concat_columns (frames : list DataFrame) : list (string * dtype) :=
  fold_left (fun acc df => fold_left merge_column (columns df) acc) frames [].

(** [pd.concat(frames)]: the rows of the frames one after the other, a
    column a frame lacks filled with nulls. *)
Definition concat (frames : list DataFrame) : DataFrame :=
  let cols := concat_columns frames in
  {| columns := cols;
     rows := flat_map (fun df =>
                         List.map (fun r => List.map (fun c => default CNull (field c.1 r)) cols)
                                  (to_records df)) frames |}.

(** ** Detection trigger *)
Module Trigger.

(** The module's globals: the four environment variables read at import
    time, and whether the name [io] is bound.  The module uses
    [io.BytesIO] and has no [import io]; see [source_globals]. *)
Record globals := {
  SAGEMAKER_ENDPOINT_NAME : option string;
  PROCESSED_DATA_BUCKET : option string;
  SNS_ANOMALY_TOPIC_ARN : option string;
  STEP_FUNCTION_ARN : option string;
  io_bound : bool
}.

(** The Lambda context object. *)
Record lambda_context := {
  function_name : string;
  invoked_function_arn : string
}.

Inductive s3_object :=
| Parquet (df : DataFrame)
| Blob (raw : string).

(** The decoded body of an endpoint response. *)
Inductive json_body :=
| JsonRecords (rs : list record)
| NotJson (raw : string).

(** The input of one Step Functions execution. *)
Record step_function_input := {
  anomalyType : string;
  resourceId : cell;
  costImpact : cell;
  anomalyScore : cell;
  timestamp : cell;
  details : record
}.

Inductive call :=
| S3GetObject (bucket key : string)
| InvokeEndpoint (endpoint_name content_type accept : string) (payload : list record)
| StartExecution (state_machine_arn : string) (input : step_function_input)
| SnsPublish (topic : string) (subject message : text).

(** The services behind the clients: the objects of each bucket and the
    deployed endpoints; and what the libraries read from their
    environment: the rendering of a float by [to_json], and the clock of
    [pd.Timestamp.now()] rendered by [str], reading [clock n] when it is
    read for the [n]-th time. *)
Record services := {
  objects : gmap string (gmap string s3_object);
  endpoints : gmap string (list record -> json_body);
  double_precision : Q -> Q;
  clock : nat -> string;
  ticks : nat
}.

Abbreviation world := (World services call).
Abbreviation M := (Comp world).

Record response := {
  statusCode : Z;
  body : text
}.

(** [s3.get_object(Bucket=..., Key=...)] *)
Definition s3_get_object (bucket key : string) : M s3_object :=
  aws (S3GetObject bucket key)
    (fun sv =>
       match objects sv !! bucket with
       | None => (Raise (ClientError "NoSuchBucket" "The specified bucket does not exist"), sv)
       | Some keys =>
           match keys !! key with
           | None => (Raise (ClientError "NoSuchKey" "The specified key does not exist."), sv)
           | Some obj => (Ok obj, sv)
           end
       end).

(** [pd.read_parquet(io.BytesIO(response['Body'].read()))]: the argument
    is evaluated first, and [io] has to be bound for that. *)
Definition read_parquet (g : globals) (obj : s3_object) : result DataFrame :=
  if io_bound g then
    match obj with
    | Parquet df => Ok df
    | Blob _ => Raise (PyError "ArrowInvalid" "Parquet magic bytes not found")
    end
  else Raise (NameError "name 'io' is not defined").

(** [sagemaker_runtime.invoke_endpoint(...)] followed by reading the
    body. *)
Definition invoke_endpoint (endpoint_name : string) (payload : list record) : M json_body :=
  aws (InvokeEndpoint endpoint_name "application/json" "application/json" payload)
    (fun sv =>
       match endpoints sv !! endpoint_name with
       | None => (Raise (ClientError "ValidationError" "Endpoint not found"), sv)
       | Some serve => (Ok (serve payload), sv)
       end).

(** [json.loads] *)
Definition json_loads (b : json_body) : result (list record) :=
  match b with
  | JsonRecords rs => Ok rs
  | NotJson _ => Raise (PyError "JSONDecodeError" "Expecting value")
  end.

(** [stepfunctions.start_execution] *)
Definition start_execution (arn : string) (input : step_function_input) : M unit :=
  aws (StartExecution arn input) (fun sv => (Ok tt, sv)).

(** [boto3.client('sns').publish] *)
Definition sns_publish (topic : string) (subject message : text) : M unit :=
  aws (SnsPublish topic subject message) (fun sv => (Ok tt, sv)).

(** The services after [n] more readings of the clock. *)
Definition after_readings (n : nat) (sv : services) : services :=
  {| objects := objects sv;
     endpoints := endpoints sv;
     double_precision := double_precision sv;
     clock := clock sv;
     ticks := (ticks sv + n)%nat |}.

(** [str(pd.Timestamp.now())]: every reading moves the clock on. *)
Definition timestamp_now : M string :=
  fun w =>
    (Ok (clock (state w) (ticks (state w))),
     {| state := after_readings 1 (state w); faults := faults w; calls := calls w |}).

(** [df_latest_features.to_json(orient='records')] *)
Definition inference_payload_of (df : DataFrame) : M (list record) :=
  fun w => (to_json (double_precision (state w)) df, w).

Definition latest_data_key : string :=
  "processed_egress_costs/processed_features/latest_features.parquet".

(** The inner [try] of step 1.  [inl] is the early [return] taken when
    the object does not exist. *)
Definition fetch_latest_features (g : globals) (bucket : string) : M (response + DataFrame) :=
  try_except_ClientError
    (obj <- s3_get_object bucket latest_data_key ;;
     df_latest_features <- lift (read_parquet g obj) ;;
     ret (inr df_latest_features))
    (fun code message =>
       if String.eqb code "NoSuchKey"
       then ret (inl {| statusCode := 200; body := [Lit "No new data for inference."] |})
       else raise (ClientError code message)).

(** [df[df['is_anomaly'] == 1]]: the rows whose flag is 1 under the
    columns of the frame; a frame without that column raises
    [KeyError]. *)
Definition anomalies_of (df : DataFrame) : result DataFrame :=
  if bool_decide ("is_anomaly" ∈ names df)
  then Ok {| columns := columns df;
             rows := List.filter
                       (fun row => is_one (default CNull (field "is_anomaly"
                                                            (zip (names df) row))))
                       (rows df) |}
  else Raise (KeyError "'is_anomaly'").

(** The dtype of a row that [iterrows] yields: the common dtype of the
    columns. *)
Inductive series_dtype :=
| int64
| float64
| object.

(** In a frame built from records a numeric column holds integers only
    or floats only, so a row shows the dtypes of its columns: [object]
    with an [object] column, [int64] when every column is, [float64]
    otherwise. *)
Definition series_dtype_of (cols : list (string * dtype)) (row : list cell) : series_dtype :=
  if existsb (fun c => bool_decide (c.2 = Object)) cols then object
  else if forallb cell_is_int row then int64
  else float64.

(** [anomalies.iterrows()]: every row as a Series of one dtype, an
    integer among floats being upcast to a float. *)
Definition iterrows (df : DataFrame) : list (series_dtype * record) :=
  List.map (fun row =>
              let dt := series_dtype_of (columns df) row in
              (dt, zip (names df)
                       (match dt with
                        | float64 => List.map (as_kind FloatColumn) row
                        | _ => row
                        end)))
           (rows df).

(** [anomaly.get(key, default)] on a row of [iterrows]. *)
Definition row_get (row : record) (key : string) (dflt : cell) : cell :=
  default dflt (field key row).

(** The keys the loop reads with [anomaly.get]. *)
Definition read_keys : list string :=
  ["resource_id"; "daily_egress_cost_usd"; "anomaly_score"; "usage_date"].

(** Whether [json.dumps] takes the input built from a row.  A value read
    with [anomaly.get] from a row of dtype [int64] is a numpy integer,
    which [json] refuses; a numpy float is a Python float, and the values
    of an [object] row and those of [anomaly.to_dict()] are Python
    values. *)
Definition serializable (dt : series_dtype) (anomaly : record) : bool :=
  match dt with
  | int64 => negb (existsb (fun key => bool_decide (is_Some (field key anomaly))) read_keys)
  | _ => true
  end.

(** [json.dumps(step_function_input)] *)
Definition json_dumps (dt : series_dtype) (anomaly : record) (input : step_function_input)
  : result step_function_input :=
  if serializable dt anomaly then Ok input
  else Raise (PyError "TypeError" "Object of type int64 is not JSON serializable").

Definition input_for (anomaly : record) (now_str : string) : step_function_input :=
  {| anomalyType := "EgressCostSpike";
     resourceId := row_get anomaly "resource_id" (CStr "unknown");
     costImpact := row_get anomaly "daily_egress_cost_usd" (CInt 0);
     anomalyScore := row_get anomaly "anomaly_score" (CInt 0);
     timestamp := row_get anomaly "usage_date" (CStr now_str);
     details := anomaly |}.

(** The [for index, anomaly in anomalies.iterrows()] loop: the input is
    built, the clock being read for the default of its timestamp; it is
    serialised, for the log line first; the execution is started. *)
Fixpoint dispatch (arn : string) (anomalies : list (series_dtype * record)) : M unit :=
  match anomalies with
  | [] => ret tt
  | (dt, anomaly) :: rest =>
      now_str <- timestamp_now ;;
      input <- lift (json_dumps dt anomaly (input_for anomaly now_str)) ;;
      start_execution arn input ;;;
      dispatch arn rest
  end.

(** The executions a loop over [anomalies] starts when every row is
    serialised and every start is accepted, the clock having been read
    [t] times before. *)
Fixpoint executions (arn : string) (clock : nat -> string) (t : nat)
    (anomalies : list (series_dtype * record)) : list call :=
  match anomalies with
  | [] => []
  | (_, anomaly) :: rest =>
      StartExecution arn (input_for anomaly (clock t)) :: executions arn clock (S t) rest
  end.

(** The body of the outer [try]. *)
Definition detection_cycle (g : globals) : M response :=
  let endpoint_name := default "" (SAGEMAKER_ENDPOINT_NAME g) in
  let bucket := default "" (PROCESSED_DATA_BUCKET g) in
  let arn := default "" (STEP_FUNCTION_ARN g) in
  fetched <- fetch_latest_features g bucket ;;
  match fetched with
  | inl early => ret early
  | inr df_latest_features =>
      inference_payload <- inference_payload_of df_latest_features ;;
      sagemaker_body <- invoke_endpoint endpoint_name inference_payload ;;
      result <- lift (json_loads sagemaker_body) ;;
      let df_inference_results := from_records result in
      anomalies <- lift (anomalies_of df_inference_results) ;;
      dispatch arn (iterrows anomalies) ;;;
      ret {| statusCode := 200; body := [Lit "Anomaly detection process completed."] |}
  end.

Definition failure_subject (context : lambda_context) : text :=
  [Lit "CRITICAL: Egress Anomaly Detector Trigger Failed in "; Lit (function_name context)].

(** The two [except] clauses of the outer [try]. *)
Definition on_error (g : globals) (context : lambda_context) (e : exn) : M response :=
  let topic := default "" (SNS_ANOMALY_TOPIC_ARN g) in
  match e with
  | ClientError code message =>
      sns_publish topic (failure_subject context)
        [Lit "An AWS client error occurred: "; Lit message;
         Lit (nl +:+ "Function ARN: "); Lit (invoked_function_arn context)] ;;;
      ret {| statusCode := 500; body := [Lit "AWS Client Error: "; Lit message] |}
  | _ =>
      sns_publish topic (failure_subject context)
        [Lit "An unexpected error occurred: "; FmtExn e;
         Lit (nl +:+ "Function ARN: "); Lit (invoked_function_arn context)] ;;;
      ret {| statusCode := 500; body := [Lit "Internal Server Error: "; FmtExn e] |}
  end.

(** [all([SAGEMAKER_ENDPOINT_NAME, PROCESSED_DATA_BUCKET,
          SNS_ANOMALY_TOPIC_ARN, STEP_FUNCTION_ARN])] *)
Definition configured (g : globals) : bool :=
  env_truthy (SAGEMAKER_ENDPOINT_NAME g) && env_truthy (PROCESSED_DATA_BUCKET g) &&
  env_truthy (SNS_ANOMALY_TOPIC_ARN g) && env_truthy (STEP_FUNCTION_ARN g).

Definition lambda_handler (g : globals) (context : lambda_context) : M response :=
  if negb (configured g)
  then ret {| statusCode := 500;
              body := [Lit "Configuration error: Missing environment variables."] |}
  else try_except (detection_cycle g) (on_error g context).

End Trigger.

(** ** Bedrock analyzer *)
Module Analyzer.

(** The environment variables read at import time. *)
Record globals := {
  BEDROCK_MODEL_ID : option string;
  SNS_ANOMALY_TOPIC_ARN : option string;
  PROCESSED_DATA_BUCKET : option string
}.

Definition PROMPT_TEMPLATE_KEY : string := "bedrock_prompts/egress_root_cause_prompt.txt".

(** A format string as [str.format] reads it: literal text and
    replacement fields. *)
Inductive tpiece :=
| TLit (s : string)
| TField (name : string).

(** An item of [get_resource_config_history], as far as the lambda reads
    it.  The items of the API have no member [changeType]. *)
Record ConfigurationItem := {
  configurationItemCaptureTime : string;
  configurationItemStatus : string
}.

(** An event of [lookup_events]; [Username] is not in every event. *)
Record TrailEvent := {
  EventTime : string;
  EventName : string;
  Username : option string
}.

(** An entry of [ResultsByTime]: the start of its period and, where the
    answer carries it, the amount and unit of [Total]['BlendedCost'];
    the request groups the costs, and in a grouped answer [Total] can be
    empty. *)
Record CostResult := {
  period_start : string;
  blended_cost : option (string * string)
}.

(** A time passed to a service: a value of the event handed on as it is,
    or an instant in seconds. *)
Inductive time_arg :=
| Given (v : pyval)
| At (seconds : Z).

Inductive call :=
| S3GetObject (bucket key : string)
| GetResourceConfigHistory (resource_id : string) (later_time : time_arg)
| LookupEvents (resource_name resource_type : string) (start_time end_time : Z)
| GetCostAndUsage (start_day end_day : Z)
| InvokeModel (model_id : string) (prompt : text)
| SnsPublish (topic : string) (subject message : text).

(** The services behind the clients.  A lookup that knows nothing about
    a resource answers with an empty list. *)
Record services := {
  templates : gmap string (gmap string (list tpiece));
  config_history : string -> list ConfigurationItem;
  trail_events : string -> string -> list TrailEvent;
  cost_results : list CostResult;
  models : gmap string (text -> option string);
  parse_timestamp : pyval -> option Z;
  timestamp_param : pyval -> bool;
  now : Z
}.

Abbreviation world := (World services call).
Abbreviation M := (Comp world).

Record response := {
  statusCode : Z;
  body : text;
  llm_analysis : option string
}.

Definition day : Z := 86400.

(** [d.get(key)] on the [details] of the event, which has to be a dict. *)
Definition details_get (anomaly_details : pyval) (key : string) : result (option pyval) :=
  match anomaly_details with
  | PyDict entries => Ok (snd <$> List.find (fun kv => String.eqb (fst kv) key) entries)
  | _ => Raise (AttributeError "object has no attribute 'get'")
  end.

(** A [str] parameter of a boto3 call, of length one at least: botocore
    validates the parameters before it sends anything. *)
Definition param_nonempty (s : string) : result string :=
  if String.eqb s ""
  then Raise (PyError "ParamValidationError" "Parameter validation failed")
  else Ok s.

Definition param_str (v : pyval) : result string :=
  match v with
  | PyStr s => param_nonempty s
  | _ => Raise (PyError "ParamValidationError" "Parameter validation failed")
  end.

(** [v.split('/')] *)
Definition split_slash (v : pyval) : result (list string) :=
  match v with
  | PyStr s => Ok (split "/" s)
  | _ => Raise (AttributeError "object has no attribute 'split'")
  end.

(** [parts[i]] *)
Definition index (parts : list string) (i : nat) : result string :=
  match parts !! i with
  | Some p => Ok p
  | None => Raise (IndexError "list index out of range")
  end.

(** [pd.Timestamp(anomaly_details.get('timestamp', pd.Timestamp.now()))] *)
Definition anomaly_time (anomaly_details : pyval) : M Z :=
  ts <- lift (details_get anomaly_details "timestamp") ;;
  fun w =>
    match ts with
    | None => (Ok (now (state w)), w)
    | Some v =>
        match parse_timestamp (state w) v with
        | Some t => (Ok t, w)
        | None => (Raise (ValueError "could not convert string to Timestamp"), w)
        end
    end.

(** A timestamp parameter of a boto3 call: a datetime, or a value that
    botocore can read as one. *)
Definition param_time (t : time_arg) : M time_arg :=
  fun w =>
    match t with
    | At _ => (Ok t, w)
    | Given v =>
        if timestamp_param (state w) v then (Ok t, w)
        else (Raise (PyError "ParamValidationError" "Parameter validation failed"), w)
    end.

Definition get_resource_config_history (resource_id : string) (later_time : time_arg)
  : M (list ConfigurationItem) :=
  aws (GetResourceConfigHistory resource_id later_time)
    (fun sv => (Ok (take 5 (config_history sv resource_id)), sv)).

Definition lookup_events (resource_name resource_type : string) (start_time end_time : Z)
  : M (list TrailEvent) :=
  aws (LookupEvents resource_name resource_type start_time end_time)
    (fun sv => (Ok (trail_events sv resource_name resource_type), sv)).

Definition get_cost_and_usage (start_day end_day : Z) : M (list CostResult) :=
  aws (GetCostAndUsage start_day end_day) (fun sv => (Ok (cost_results sv), sv)).

Definition s3_get_object (bucket key : string) : M (list tpiece) :=
  aws (S3GetObject bucket key)
    (fun sv =>
       match templates sv !! bucket ≫= (fun keys => keys !! key) with
       | Some template => (Ok template, sv)
       | None => (Raise (ClientError "NoSuchKey" "The specified key does not exist."), sv)
       end).

Definition invoke_model (model_id : string) (prompt : text) : M (option string) :=
  aws (InvokeModel model_id prompt)
    (fun sv =>
       match models sv !! model_id with
       | Some generate => (Ok (generate prompt), sv)
       | None => (Raise (ClientError "ValidationException" "The provided model identifier is invalid."), sv)
       end).

Definition sns_publish (topic : string) (subject message : text) : M unit :=
  aws (SnsPublish topic subject message) (fun sv => (Ok tt, sv)).

(** The line of an item: [item['changeType']] raises before anything is
    appended. *)
Definition config_line (item : ConfigurationItem) : result string :=
  Raise (KeyError "'changeType'").

Definition trail_line (event : TrailEvent) : result string :=
  match Username event with
  | Some user =>
      Ok ("EventTime: " +:+ EventTime event +:+ ", EventName: " +:+ EventName event
          +:+ ", User: " +:+ user)
  | None => Raise (KeyError "'Username'")
  end.

Definition cost_line (entry : CostResult) : result string :=
  match blended_cost entry with
  | Some (amount, unit_) =>
      Ok ("Date: " +:+ period_start entry +:+ ", Total Cost: " +:+ amount +:+ " " +:+ unit_)
  | None => Raise (KeyError "'BlendedCost'")
  end.

(** The lines one source contributes: nothing when it found nothing. *)
Definition section (header : string) (lines : list string) : list string :=
  match lines with
  | [] => []
  | _ => (header :: lines ++ [""])%list
  end.

(** Step 1 of [get_contextual_data]: AWS Config.  The arguments are
    evaluated first, then the client validates them and makes the
    call. *)
Definition config_evidence (resource_id anomaly_details : pyval) : M (list string) :=
  try_except_ClientError
    (ts <- lift (details_get anomaly_details "timestamp") ;;
     later <- (fun w => (Ok (match ts with
                             | Some v => Given v
                             | None => At (now (state w) - day)
                             end), w)) ;;
     rid <- lift (param_str resource_id) ;;
     later <- param_time later ;;
     items <- get_resource_config_history rid later ;;
     lines <- lift (traverse config_line items) ;;
     ret (section "--- AWS Config Recent Changes ---" lines))
    (fun _ _ => ret []).

(** Step 2: CloudTrail.  The arguments are evaluated inside the [try],
    before the call. *)
Definition trail_evidence (resource_id anomaly_details : pyval) : M (list string) :=
  try_except_ClientError
    (parts <- lift (split_slash resource_id) ;;
     let resource_name := last_part parts in
     resource_type <- lift (index parts 6) ;;
     start <- anomaly_time anomaly_details ;;
     finish <- anomaly_time anomaly_details ;;
     resource_name <- lift (param_nonempty resource_name) ;;
     resource_type <- lift (param_nonempty resource_type) ;;
     events <- lookup_events resource_name resource_type (start - day) finish ;;
     lines <- lift (traverse trail_line (take 5 events)) ;;
     ret (section "--- AWS CloudTrail Recent Events ---" lines))
    (fun _ _ => ret []).

(** Step 3: Cost Explorer. *)
Definition cost_evidence (anomaly_details : pyval) : M (list string) :=
  try_except_ClientError
    (_ <- lift (details_get anomaly_details "service_code") ;;
     start <- anomaly_time anomaly_details ;;
     finish <- anomaly_time anomaly_details ;;
     results <- get_cost_and_usage (start - 2 * day) (finish + day) ;;
     lines <- lift (traverse cost_line results) ;;
     ret (section "--- AWS Cost Explorer Snapshot ---" lines))
    (fun _ _ => ret []).

(** ["\n".join(lines)] *)
Fixpoint join_lines (lines : list string) : string :=
  match lines with
  | [] => ""
  | [l] => l
  | l :: rest => l +:+ nl +:+ join_lines rest
  end.

Definition get_contextual_data (resource_id anomaly_details : pyval) : M string :=
  from_config <- config_evidence resource_id anomaly_details ;;
  from_trail <- trail_evidence resource_id anomaly_details ;;
  from_cost <- cost_evidence anomaly_details ;;
  ret (join_lines (from_config ++ from_trail ++ from_cost)%list).

Definition load_prompt_template (bucket_name key : string) : M (list tpiece) :=
  try_except (s3_get_object bucket_name key) (fun e => raise e).

(** [template.format(...)] with keyword arguments *)
Fixpoint format (template : list tpiece) (kwargs : list (string * text)) : result text :=
  match template with
  | [] => Ok []
  | TLit s :: rest =>
      match format rest kwargs with
      | Ok t => Ok (Lit s :: t)
      | Raise e => Raise e
      end
  | TField name :: rest =>
      match List.find (fun kv => String.eqb (fst kv) name) kwargs with
      | None => Raise (KeyError name)
      | Some (_, value) =>
          match format rest kwargs with
          | Ok t => Ok (value ++ t)%list
          | Raise e => Raise e
          end
      end
  end.

Definition invoke_bedrock_llm (model_id : string) (prompt : text) : M (option string) :=
  try_except
    (invoke_model model_id
       ([Lit (nl +:+ nl +:+ "Human: ")] ++ prompt ++ [Lit (nl +:+ nl +:+ "Assistant:")])%list)
    (fun e => raise e).

Definition publish_enriched_alert (g : globals) (subject message : text) : M unit :=
  try_except
    (sns_publish (default "" (SNS_ANOMALY_TOPIC_ARN g)) subject message)
    (fun e => raise e).

Definition configured (g : globals) : bool :=
  env_truthy (BEDROCK_MODEL_ID g) && env_truthy (SNS_ANOMALY_TOPIC_ARN g) &&
  env_truthy (PROCESSED_DATA_BUCKET g).

Definition alert_subject (anomaly_type resource_id : pyval) : text :=
  [Lit "Egress Anomaly Detected: "; Fmt anomaly_type; Lit " on "; Fmt resource_id].

Definition alert_message (anomaly_type resource_id cost_impact anomaly_details : pyval)
    (llm_response_text : string) : text :=
  [Lit ("An egress cost anomaly has been detected." +:+ nl +:+ nl);
   Lit "Anomaly Type: "; Fmt anomaly_type; Lit nl;
   Lit "Resource ID: "; Fmt resource_id; Lit nl;
   Lit "Cost Impact: $"; Fmt cost_impact; Lit (nl +:+ nl);
   Lit ("--- AI-Powered Root Cause Analysis & Recommendations ---" +:+ nl);
   Lit llm_response_text; Lit (nl +:+ nl);
   Lit ("--- Raw Anomaly Details ---" +:+ nl);
   Dumps anomaly_details (Some 2%nat)].

(** The body of the [try] in [lambda_handler]. *)
Definition analysis (g : globals) (event : gmap string pyval) : M response :=
  let resource_id := dict_get_default event "resourceId" (PyStr "N/A") in
  let anomaly_type := dict_get_default event "anomalyType" (PyStr "EgressCostSpike") in
  let cost_impact := dict_get_default event "costImpact" (PyStr "N/A") in
  let anomaly_details := dict_get_default event "details" (PyDict []) in
  prompt_template <-
    load_prompt_template (default "" (PROCESSED_DATA_BUCKET g)) PROMPT_TEMPLATE_KEY ;;
  match prompt_template with
  | [] => raise (PyError "Exception" "Failed to load Bedrock prompt template.")
  | _ =>
      context_data <- get_contextual_data resource_id anomaly_details ;;
      full_prompt <-
        lift (format prompt_template
                [("anomaly_type", [Fmt anomaly_type]);
                 ("resource_id", [Fmt resource_id]);
                 ("cost_impact", [Fmt cost_impact]);
                 ("anomaly_details", [Dumps anomaly_details (Some 2%nat)]);
                 ("context_data", [Lit context_data])]) ;;
      completion <- invoke_bedrock_llm (default "" (BEDROCK_MODEL_ID g)) full_prompt ;;
      match completion with
      | None => raise (PyError "TypeError" "'NoneType' object is not subscriptable")
      | Some llm_response_text =>
          publish_enriched_alert g
            (alert_subject anomaly_type resource_id)
            (alert_message anomaly_type resource_id cost_impact anomaly_details
               llm_response_text) ;;;
          ret {| statusCode := 200;
                 body := [Lit "Bedrock analysis completed and alert sent."];
                 llm_analysis := Some llm_response_text |}
      end
  end.

Definition failure_subject (resource_id : pyval) : text :=
  [Lit "CRITICAL: Bedrock Analyzer Failed for "; Fmt resource_id].

Definition failure_message (event : gmap string pyval) (e : exn) : text :=
  [Lit "Bedrock analysis failed for anomaly on resource ";
   Fmt (dict_get_default event "resourceId" (PyStr "N/A"));
   Lit " (Type: "; Fmt (dict_get_default event "anomalyType" (PyStr "EgressCostSpike"));
   Lit "). Error: "; FmtExn e; Lit (nl +:+ "Full event: "); DumpsEvent event].

Definition lambda_handler (g : globals) (event : gmap string pyval) : M response :=
  if negb (configured g)
  then ret {| statusCode := 500;
              body := [Lit "Configuration error: Missing environment variables."];
              llm_analysis := None |}
  else
    try_except (analysis g event)
      (fun e =>
         publish_enriched_alert g
           (failure_subject (dict_get_default event "resourceId" (PyStr "N/A")))
           (failure_message event e) ;;;
         ret {| statusCode := 500;
                body := [Lit "Internal Server Error: "; FmtExn e];
                llm_analysis := None |}).

End Analyzer.

(** ** Inference script *)
Module Inference.

(** The model loaded by [model_fn], as [predict_fn] uses it: both
    methods take the feature frame and answer with one value per row, or
    raise. *)
Record Model := {
  predict : DataFrame -> result (list Z);
  decision_function : DataFrame -> result (list Q)
}.

Definition predict_fn (input_data : DataFrame) (model : Model) : result DataFrame :=
  let features_for_prediction := select_dtypes_number input_data in
  if empty features_for_prediction
  then Raise (ValueError
                "No numerical features found in input data for prediction. Check input schema.")
  else
    predictions <~ predict model features_for_prediction ;;
    let is_anomaly := List.map (fun p => CInt (if p =? -1 then 1 else 0)) predictions in
    with_flag <~ assign input_data "is_anomaly" Numeric is_anomaly ;;
    scores <~ decision_function model features_for_prediction ;;
    assign with_flag "anomaly_score" Numeric (List.map CFloat scores).

(** What [output_fn] serializes: the records of [to_json], or the header
    and lines of [to_csv(index=False)]. *)
Inductive serialized :=
| Json (rs : list record)
| Csv (header : list string) (lines : list (list cell)).

Section Serialization.
(** The rendering of a float by [to_json]. *)
Context (double_precision : Q -> Q).

Definition output_fn (prediction_output : DataFrame) (accept_content_type : string)
  : result (serialized * string) :=
  if String.eqb accept_content_type "application/json"
  then
    records <~ to_json double_precision prediction_output ;;
    Ok (Json records, accept_content_type)
  else if String.eqb accept_content_type "text/csv"
  then Ok (Csv (names prediction_output) (rows prediction_output), accept_content_type)
  else Raise (ValueError "Unsupported accept type").

(** One scoring request after [input_fn]: [predict_fn], then
    [output_fn]. *)
Definition score (input_data : DataFrame) (model : Model) (accept_content_type : string)
  : result (serialized * string) :=
  prediction_output <~ predict_fn input_data model ;;
  output_fn prediction_output accept_content_type.
End Serialization.

End Inference.

(** ** Training script *)
Module Training.

Record hyperparameters := {
  n_estimators : Z;
  contamination : Q;
  random_state : Z
}.

(** [--n_estimators 100 --contamination 0.01 --random_state 42] *)
Definition defaults : hyperparameters :=
  {| n_estimators := 100; contamination := QArith_base.Qmake 1 100; random_state := 42 |}.

(** [metrics.json] *)
Record metrics := {
  training_status : string;
  num_features : nat
}.

Section Script.
(** The trained estimator, and [IsolationForest(...).fit(features)]. *)
Context {Model : Type}.
Context (IsolationForest_fit : hyperparameters -> DataFrame -> result Model).

(** The [__main__] block.  [input_files] are the files of the training
    channel with what [pd.read_parquet] makes of each; the result is what
    the script writes: [model.joblib] and [metrics.json]. *)
Definition main (args : hyperparameters) (input_files : list (string * result DataFrame))
  : result (Model * metrics) :=
  match input_files with
  | [] => Raise (ValueError
                   "No input files found in the training channel. Ensure data is correctly passed.")
  | _ =>
      frames <~ traverse snd input_files ;;
      let df := concat frames in
      let features := select_dtypes_number df in
      if empty features
      then Raise (ValueError
                    "No numerical features found in the training data. Check feature engineering output.")
      else
        model <~ IsolationForest_fit args features ;;
        Ok (model, {| training_status := "success";
                      num_features := length (columns features) |})
  end.
End Script.

End Training.

(** ** Feature engineering script *)
Module FeatureEngineering.

Definition categorical_features : list string :=
  ["service_code"; "region"; "usage_type"; "day_of_week"; "month"].

Definition numerical_features : list string :=
  ["daily_egress_cost_usd"; "daily_egress_usage_amount"].

(** The [handle_unknown] parameter of scikit-learn's [OneHotEncoder]. *)
Inductive handle_unknown :=
| error
| ignore.

(** A fitted [StandardScaler]: [mean_] and [scale_], one per column. *)
Record StandardScaler := {
  mean_ : list Q;
  scale_ : list Q
}.

(** A fitted [OneHotEncoder]: its policy and [categories_], one
    vocabulary per column. *)
Record OneHotEncoder := {
  policy : handle_unknown;
  categories_ : list (list cell)
}.

(** The fitted [ColumnTransformer] of the script: the ['num'] scaler over
    [numerical_features] and the ['cat'] encoder over
    [categorical_features]. *)
Record ColumnTransformer := {
  num : StandardScaler;
  cat : OneHotEncoder
}.

(** What the [.dt] accessors read off a parsed date. *)
Record date_parts := {
  dayofweek : Z;
  day_of_month : Z;
  month_of_year : Z;
  isoweek : Z
}.

(** A name of [all_feature_names]: a numerical feature, or the pair that
    [get_feature_names_out] renders as [feature_category]. *)
Inductive feature_name :=
| Plain (feature : string)
| OneHot (feature : string) (category : cell).

(** What the script writes: [processed_features.parquet] as names and
    rows, and [preprocessor.joblib]. *)
Record processed := {
  all_feature_names : list feature_name;
  transformed_data : list (list cell);
  preprocessor : ColumnTransformer
}.

(** [df[name]] *)
Definition column (df : DataFrame) (name : string) : result (list cell) :=
  match position name (columns df) with
  | Some i => Ok (List.map (fun row => default CNull (row !! i)) (rows df))
  | None => Raise (KeyError name)
  end.

(** The columns a transformer of the [ColumnTransformer] is given. *)
Definition select (features : list string) (row : record) : result (list cell) :=
  traverse (fun name =>
              match field name row with
              | Some v => Ok v
              | None => Raise (ValueError "A given column is not a column of the dataframe")
              end) features.

(** Conversion of a numerical column to floats; a null is a NaN. *)
Definition to_float (c : cell) : result (option Q) :=
  match c with
  | CInt n => Ok (Some (QArith_base.inject_Z n))
  | CFloat q => Ok (Some q)
  | CNull => Ok None
  | CStr _ => Raise (ValueError "could not convert string to float")
  end.

(** [(x - mean) / scale]; a NaN stays a NaN. *)
Definition standardize (x : option Q) (mean scale : Q) : cell :=
  match x with
  | Some q => CFloat (QArith_base.Qdiv (QArith_base.Qminus q mean) scale)
  | None => CNull
  end.

(** [StandardScaler.transform] on one row. *)
Definition scale_row (scaler : StandardScaler) (row : record) : result (list cell) :=
  values <~ select numerical_features row ;;
  floats <~ traverse to_float values ;;
  Ok (zip_with (fun x ms => standardize x ms.1 ms.2) floats
        (zip (mean_ scaler) (scale_ scaler))).

(** The indicator columns of one value under one vocabulary. *)
Definition onehot (categories : list cell) (v : cell) : list cell :=
  List.map (fun c => CFloat (QArith_base.inject_Z (if bool_decide (c = v) then 1 else 0)))
           categories.

(** One column of [OneHotEncoder.transform]: a value outside the
    vocabulary raises under ['error'] and is encoded like any other
    under ['ignore']. *)
Definition encode (p : handle_unknown) (categories : list cell) (v : cell)
  : result (list cell) :=
  if bool_decide (v ∈ categories) then Ok (onehot categories v)
  else
    match p with
    | error => Raise (ValueError "Found unknown categories during transform")
    | ignore => Ok (onehot categories v)
    end.

(** [OneHotEncoder.transform] on one row: one block per column. *)
Definition encode_row (encoder : OneHotEncoder) (row : record) : result (list (list cell)) :=
  values <~ select categorical_features row ;;
  traverse (fun cv => encode (policy encoder) cv.1 cv.2) (zip (categories_ encoder) values).

(** [preprocessor.transform] on one row: the scaled numbers, then the
    indicator blocks. *)
Definition transform (ct : ColumnTransformer) (row : record) : result (list cell) :=
  scaled <~ scale_row (num ct) row ;;
  blocks <~ encode_row (cat ct) row ;;
  Ok (scaled ++ List.concat blocks)%list.

(** Order of the values of a column, for the sorted vocabulary; the
    missing value comes last. *)
Definition cell_leb (a b : cell) : bool :=
  match a, b with
  | _, CNull => true
  | CNull, _ => false
  | CInt x, CInt y => x <=? y
  | CInt x, CFloat y => QArith_base.Qle_bool (QArith_base.inject_Z x) y
  | CFloat x, CInt y => QArith_base.Qle_bool x (QArith_base.inject_Z y)
  | CFloat x, CFloat y => QArith_base.Qle_bool x y
  | CStr x, CStr y => String.leb x y
  | CStr _, _ => false
  | _, CStr _ => true
  end.

Fixpoint insert_sorted (v : cell) (sorted : list cell) : list cell :=
  match sorted with
  | [] => [v]
  | c :: rest =>
      if bool_decide (c = v) then sorted
      else if cell_leb v c then v :: sorted
      else c :: insert_sorted v rest
  end.

(** The vocabulary of a column: its distinct values in order. *)
Definition unique (values : list cell) : list cell :=
  fold_left (fun sorted v => insert_sorted v sorted) values [].

Section Script.
(** numpy's mean and standard deviation of a column, and the parsing of
    a date by [pd.to_datetime]. *)
Context (column_stats : list Q -> Q * Q).
Context (to_datetime : cell -> result date_parts).

(** Step 1, the time-based features. *)
Definition add_time_features (df : DataFrame) : result DataFrame :=
  usage_date <~ column df "usage_date" ;;
  parts <~ traverse to_datetime usage_date ;;
  df <~ assign df "date" Object usage_date ;;
  df <~ assign df "day_of_week" Numeric (List.map (fun p => CInt (dayofweek p)) parts) ;;
  df <~ assign df "day_of_month" Numeric (List.map (fun p => CInt (day_of_month p)) parts) ;;
  df <~ assign df "month" Numeric (List.map (fun p => CInt (month_of_year p)) parts) ;;
  df <~ assign df "week_of_year" Numeric (List.map (fun p => CInt (isoweek p)) parts) ;;
  assign df "is_weekend" Numeric
    (List.map (fun p => CInt (if (dayofweek p =? 5) || (dayofweek p =? 6) then 1 else 0)) parts).

(** The column a transformer is fitted on. *)
Definition feature_column (df : DataFrame) (name : string) : result (list cell) :=
  match column df name with
  | Ok values => Ok values
  | Raise _ => Raise (ValueError "A given column is not a column of the dataframe")
  end.

(** [StandardScaler.fit]: it refuses a frame without rows; NaNs are left
    out of the statistics. *)
Definition fit_scaler (df : DataFrame) : result StandardScaler :=
  cols <~ traverse (feature_column df) numerical_features ;;
  floats <~ traverse (traverse to_float) cols ;;
  match rows df with
  | [] => Raise (ValueError "Found array with 0 sample(s) while a minimum of 1 is required by StandardScaler.")
  | _ =>
      let stats := List.map (fun col => column_stats (omap id col)) floats in
      Ok {| mean_ := stats.*1; scale_ := stats.*2 |}
  end.

(** [OneHotEncoder(handle_unknown=p).fit] *)
Definition fit_encoder (p : handle_unknown) (df : DataFrame) : result OneHotEncoder :=
  cols <~ traverse (feature_column df) categorical_features ;;
  Ok {| policy := p; categories_ := List.map unique cols |}.

(** [ColumnTransformer([('num', StandardScaler(), numerical_features),
      ('cat', OneHotEncoder(handle_unknown='ignore'), categorical_features)]).fit] *)
Definition fit (df : DataFrame) : result ColumnTransformer :=
  scaler <~ fit_scaler df ;;
  encoder <~ fit_encoder ignore df ;;
  Ok {| num := scaler; cat := encoder |}.

Definition fit_transform (df : DataFrame) : result (ColumnTransformer * list (list cell)) :=
  ct <~ fit df ;;
  matrix <~ traverse (transform ct) (to_records df) ;;
  Ok (ct, matrix).

(** [numerical_features + list(ohe_feature_names)] *)
Definition feature_names (ct : ColumnTransformer) : list feature_name :=
  (List.map Plain numerical_features
   ++ List.concat (zip_with (fun f cats => List.map (OneHot f) cats)
                            categorical_features (categories_ (cat ct))))%list.

(** The [__main__] block; [input_files] are the files of the input
    directory with what [pd.read_parquet] makes of each. *)
Definition main (input_files : list (string * result DataFrame)) : result processed :=
  match input_files with
  | [] => Raise (ValueError "No input files found for processing.")
  | _ =>
      frames <~ traverse snd input_files ;;
      df <~ add_time_features (concat frames) ;;
      fitted <~ fit_transform df ;;
      Ok {| all_feature_names := feature_names fitted.1;
            transformed_data := fitted.2;
            preprocessor := fitted.1 |}
  end.
End Script.

End FeatureEngineering.

(** ** Concrete accounts, events and frames

    The inputs on which the theorems below are instantiated. *)
Module Scenarios.

Definition topic_arn : string := "arn:aws:sns:eu-west-1:111122223333:egress-anomalies".

(** *** Remediation *)

Definition open_range : Remediation.IpRange :=
  {| Remediation.CidrIp := Some "0.0.0.0/0"; Remediation.Description := None |}.

Definition office_range : Remediation.IpRange :=
  {| Remediation.CidrIp := Some "10.0.0.0/8"; Remediation.Description := Some "office" |}.

(** SSH from anywhere and from the office network: EC2 reports the two
    sources of port 22 in one permission. *)
Definition ssh_rule : Remediation.IpPermission :=
  {| Remediation.IpProtocol := "tcp";
     Remediation.FromPort := Some 22;
     Remediation.ToPort := Some 22;
     Remediation.IpRanges := Some [open_range; office_range];
     Remediation.Ipv6Ranges := [];
     Remediation.UserIdGroupPairs := [] |}.

Definition sg_arn : string :=
  "arn:aws:ec2:eu-west-1:111122223333:security-group/sg-0a1b2c3d".

Definition bucket_arn : string := "arn:aws:s3:::egress-exports".

Definition account : Remediation.account :=
  {| Remediation.buckets := {[ "egress-exports" := None ]};
     Remediation.security_groups := {[ "sg-0a1b2c3d" := [ssh_rule] ]} |}.

Definition quiet_account : Remediation.world :=
  {| state := account; faults := []; calls := [] |}.

Definition s3_task : gmap string pyval :=
  {[ "action" := PyStr "remediate_s3_public_access"; "resourceId" := PyStr bucket_arn ]}.

Definition rotate_keys_task : gmap string pyval :=
  {[ "action" := PyStr "rotate_access_keys"; "resourceId" := PyStr bucket_arn ]}.

Definition task_without_resource : gmap string pyval :=
  {[ "action" := PyStr "remediate_security_group" ]}.

(** *** Detection trigger *)

Definition trigger_context : Trigger.lambda_context :=
  {| Trigger.function_name := "anomaly-detector-trigger";
     Trigger.invoked_function_arn :=
       "arn:aws:lambda:eu-west-1:111122223333:function:anomaly-detector-trigger" |}.

(** The module as it is in the repository: [io] is not imported. *)
Definition source_globals : Trigger.globals :=
  {| Trigger.SAGEMAKER_ENDPOINT_NAME := Some "egress-anomaly-endpoint";
     Trigger.PROCESSED_DATA_BUCKET := Some "egress-processed";
     Trigger.SNS_ANOMALY_TOPIC_ARN := Some topic_arn;
     Trigger.STEP_FUNCTION_ARN :=
       Some "arn:aws:states:eu-west-1:111122223333:stateMachine:egress-remediation";
     Trigger.io_bound := false |}.

(** The same module with [import io] added. *)
Definition globals_with_io : Trigger.globals :=
  {| Trigger.SAGEMAKER_ENDPOINT_NAME := Trigger.SAGEMAKER_ENDPOINT_NAME source_globals;
     Trigger.PROCESSED_DATA_BUCKET := Trigger.PROCESSED_DATA_BUCKET source_globals;
     Trigger.SNS_ANOMALY_TOPIC_ARN := Trigger.SNS_ANOMALY_TOPIC_ARN source_globals;
     Trigger.STEP_FUNCTION_ARN := Trigger.STEP_FUNCTION_ARN source_globals;
     Trigger.io_bound := true |}.

Definition latest_features : DataFrame :=
  {| columns := [("daily_egress_cost_usd", Numeric); ("daily_egress_usage_amount", Numeric)];
     rows := [[CFloat (QArith_base.Qmake 3 2); CInt 1200];
              [CFloat (QArith_base.Qmake 95 1); CInt 880000]] |}.

(** An endpoint that flags the rows costing more than 50. *)
Definition flag_costly (payload : list record) : Trigger.json_body :=
  Trigger.JsonRecords
    (List.map (fun r =>
                 (r ++ [("is_anomaly",
                         match field "daily_egress_cost_usd" r with
                         | Some (CFloat q) =>
                             CInt (if QArith_base.Qle_bool q (QArith_base.Qmake 50 1) then 0 else 1)
                         | _ => CInt 0
                         end);
                        ("anomaly_score", CFloat (QArith_base.Qmake (-1) 10))])%list)
              payload).

(** A rendering of floats with ten decimals, to the nearest. *)
Definition ten_decimals (q : Q) : Q :=
  QArith_base.Qmake
    ((2 * QArith_base.Qnum q * 10 ^ 10 + Zpos (QArith_base.Qden q))
       / (2 * Zpos (QArith_base.Qden q)))
    (10 ^ 10)%positive.

Definition trigger_services (objects : gmap string Trigger.s3_object) : Trigger.services :=
  {| Trigger.objects := {[ "egress-processed" := objects ]};
     Trigger.endpoints := {[ "egress-anomaly-endpoint" := flag_costly ]};
     Trigger.double_precision := ten_decimals;
     Trigger.clock := fun _ => "2024-05-01 00:00:00";
     Trigger.ticks := 0 |}.

(** An endpoint that answers with integers only: one flagged row with
    the score 0. *)
Definition integer_reply (_ : list record) : Trigger.json_body :=
  Trigger.JsonRecords [[("is_anomaly", CInt 1); ("anomaly_score", CInt 0)]].

(** The features are there and the endpoint is [serve]. *)
Definition served_by (serve : list record -> Trigger.json_body) : Trigger.world :=
  {| state := {| Trigger.objects :=
                   {[ "egress-processed" :=
                        {[ Trigger.latest_data_key := Trigger.Parquet latest_features ]} ]};
                 Trigger.endpoints := {[ "egress-anomaly-endpoint" := serve ]};
                 Trigger.double_precision := ten_decimals;
                 Trigger.clock := fun _ => "2024-05-01 00:00:00";
                 Trigger.ticks := 0 |};
     faults := []; calls := [] |}.

(** A bucket without the latest features. *)
Definition no_features : Trigger.world :=
  {| state := trigger_services ∅; faults := []; calls := [] |}.

(** The features are there; [schedule] injects faults. *)
Definition with_features (schedule : list (option exn)) : Trigger.world :=
  {| state := trigger_services {[ Trigger.latest_data_key := Trigger.Parquet latest_features ]};
     faults := schedule; calls := [] |}.

Definition throttled : exn := ClientError "ThrottlingException" "Rate exceeded".

Definition sink_denied : exn :=
  ClientError "AuthorizationError" "User is not authorized to perform SNS:Publish".

(** *** Bedrock analyzer *)

Definition analyzer_globals : Analyzer.globals :=
  {| Analyzer.BEDROCK_MODEL_ID := Some "anthropic.claude-v2";
     Analyzer.SNS_ANOMALY_TOPIC_ARN := Some topic_arn;
     Analyzer.PROCESSED_DATA_BUCKET := Some "egress-processed" |}.

Definition prompt_template : list Analyzer.tpiece :=
  [Analyzer.TLit "Explain the "; Analyzer.TField "anomaly_type";
   Analyzer.TLit " on "; Analyzer.TField "resource_id";
   Analyzer.TLit ". Context: "; Analyzer.TField "context_data"].

(** Services that know nothing about any resource; the model answers. *)
Definition analyzer_services : Analyzer.services :=
  {| Analyzer.templates :=
       {[ "egress-processed" := {[ Analyzer.PROMPT_TEMPLATE_KEY := prompt_template ]} ]};
     Analyzer.config_history := fun _ => [];
     Analyzer.trail_events := fun _ _ => [];
     Analyzer.cost_results := [];
     Analyzer.models := {[ "anthropic.claude-v2" := fun _ => Some "Likely cause: a public bucket." ]};
     Analyzer.parse_timestamp := fun _ => Some 1714521600;
     Analyzer.timestamp_param := fun _ => true;
     Analyzer.now := 1714608000 |}.

Definition no_evidence : Analyzer.world :=
  {| state := analyzer_services; faults := []; calls := [] |}.

(** The anomaly as the trigger sends it: the processed features carry no
    [resource_id], so the resource is ['unknown']. *)
Definition anomaly_event : gmap string pyval :=
  {[ "anomalyType" := PyStr "EgressCostSpike";
     "resourceId" := PyStr "unknown";
     "costImpact" := PyInt 95;
     "details" := PyDict [("timestamp", PyStr "2024-05-01")] ]}.

(** An instance named by its ARN. *)
Definition instance_event : gmap string pyval :=
  {[ "anomalyType" := PyStr "EgressCostSpike";
     "resourceId" := PyStr "arn:aws:ec2:eu-west-1:111122223333:instance/i-0abc";
     "costImpact" := PyInt 95;
     "details" := PyDict [("timestamp", PyStr "2024-05-01")] ]}.

(** A resource id with seven slash-separated parts. *)
Definition deep_event : gmap string pyval :=
  {[ "resourceId" := PyStr "a/b/c/d/e/f/AWS::EC2::Instance/i-0abc";
     "details" := PyDict [] ]}.

(** *** Inference, training and feature engineering *)

(** A model that flags the rows whose first feature exceeds 50. *)
Definition threshold_model : Inference.Model :=
  {| Inference.predict := fun features =>
       Ok (List.map (fun row =>
                       match row with
                       | CFloat q :: _ =>
                           if QArith_base.Qle_bool q (QArith_base.Qmake 50 1) then 1 else -1
                       | _ => 1
                       end) (rows features));
     Inference.decision_function := fun features =>
       Ok (List.map (fun row =>
                       match row with
                       | CFloat q :: _ => QArith_base.Qminus (QArith_base.Qmake 50 1) q
                       | _ => QArith_base.Qmake 0 1
                       end) (rows features)) |}.

(** Two rows with a label column that is not numeric. *)
Definition labelled_features : DataFrame :=
  {| columns := [("daily_egress_cost_usd", Numeric); ("region", Object)];
     rows := [[CFloat (QArith_base.Qmake 3 2); CStr "eu-west-1"];
              [CFloat (QArith_base.Qmake 95 1); CStr "us-east-1"]] |}.

(** One row whose cost has eleven decimals: 0.12345678901. *)
Definition precise_features : DataFrame :=
  {| columns := [("daily_egress_cost_usd", Numeric)];
     rows := [[CFloat (QArith_base.Qmake 12345678901 100000000000)]] |}.

(** The frame of a request with zero rows. *)
Definition no_rows : DataFrame :=
  {| columns := [("daily_egress_cost_usd", Numeric); ("daily_egress_usage_amount", Numeric)];
     rows := [] |}.

(** A training stand-in that keeps the width of the frame it is
    fitted on. *)
Definition fit_width (_ : Training.hyperparameters) (features : DataFrame) : result nat :=
  Ok (length (columns features)).

(** Column statistics and date parsing stand-ins for the feature
    script. *)
Definition unit_stats (_ : list Q) : Q * Q := (QArith_base.Qmake 0 1, QArith_base.Qmake 1 1).

Definition first_of_may (_ : cell) : result FeatureEngineering.date_parts :=
  Ok {| FeatureEngineering.dayofweek := 2; FeatureEngineering.day_of_month := 1;
        FeatureEngineering.month_of_year := 5; FeatureEngineering.isoweek := 18 |}.

Definition usage_rows : DataFrame :=
  {| columns := [("usage_date", Object); ("service_code", Object); ("region", Object);
                 ("usage_type", Object); ("daily_egress_cost_usd", Numeric);
                 ("daily_egress_usage_amount", Numeric)];
     rows := [[CStr "2024-05-01"; CStr "AmazonS3"; CStr "eu-west-1"; CStr "DataTransfer-Out-Bytes";
               CFloat (QArith_base.Qmake 3 2); CInt 1200];
              [CStr "2024-05-01"; CStr "AmazonEC2"; CStr "eu-west-1"; CStr "DataTransfer-Out-Bytes";
               CFloat (QArith_base.Qmake 95 1); CInt 880000]] |}.

Definition usage_without_rows : DataFrame :=
  {| columns := columns usage_rows; rows := [] |}.

(** An observation from a region and a service the fit has not seen. *)
Definition new_region_row : record :=
  [("service_code", CStr "AmazonS3"); ("region", CStr "ap-south-1");
   ("usage_type", CStr "DataTransfer-Out-Bytes"); ("day_of_week", CInt 2); ("month", CInt 5);
   ("daily_egress_cost_usd", CFloat (QArith_base.Qmake 7 1));
   ("daily_egress_usage_amount", CInt 5000)].

End Scenarios.

(** * Properties

    First the facts about calls and frames that the modules share, then
    one module of facts per source file. *)

Local Open Scope list_scope.

Section CallFacts.
Context {St Call : Type}.
Implicit Types (w : World St Call) (c : Call).

Lemma aws_fault {A} c (service : St -> result A * St) w e rest :
  faults w = Some e :: rest -> aws c service w = (Raise e, logged c rest w).
Proof. intros H. unfold aws. rewrite H. reflexivity. Qed.

Lemma aws_served {A} c (service : St -> result A * St) w :
  hd None (faults w) = None ->
  aws c service w =
    ((service (state w)).1,
     {| state := (service (state w)).2; faults := tail (faults w);
        calls := calls w ++ [c] |}).
Proof.
  intros H. unfold aws, logged. destruct (faults w) as [|[e|] rest]; simpl in *;
    try discriminate; destruct (service (state w)); reflexivity.
Qed.

Lemma aws_calls {A} c (service : St -> result A * St) w :
  calls (aws c service w).2 = calls w ++ [c].
Proof.
  unfold aws, logged. destruct (faults w) as [|[e|] rest]; simpl;
    try reflexivity; destruct (service (state w)); reflexivity.
Qed.

Lemma aws_ok {A} c (service : St -> result A * St) w a w' :
  aws c service w = (Ok a, w') ->
  hd None (faults w) = None /\
  service (state w) = (Ok a, state w') /\
  faults w' = tail (faults w) /\
  calls w' = calls w ++ [c].
Proof.
  unfold aws, logged. destruct (faults w) as [|[e|] rest]; simpl;
    try discriminate; destruct (service (state w)) as [r st];
    intros [= -> <-]; auto.
Qed.
End CallFacts.

(** ** Lists, results and frames *)

Lemma lookup_map {A B} (f : A -> B) (l : list A) i :
  List.map f l !! i = f <$> l !! i.
Proof. apply (list_lookup_fmap f l i). Qed.

Lemma traverse_length {A B} (f : A -> result B) xs ys :
  traverse f xs = Ok ys -> length ys = length xs.
Proof.
  revert ys. induction xs as [|x xs IH]; intros ys; simpl.
  - by intros [= <-].
  - destruct (f x); simpl; [|done]. destruct (traverse f xs) as [zs|]; simpl; [|done].
    intros [= <-]. simpl. f_equal. by apply IH.
Qed.

Lemma position_None name cols :
  name ∉ cols.*1 -> position name cols = None.
Proof.
  induction cols as [|[n dt] cols IH]; [done|]. simpl. intros Hnot.
  apply not_elem_of_cons in Hnot as [Hne Hnot].
  destruct (String.eqb_spec n name) as [->|_]; [done|]. by rewrite IH.
Qed.

Lemma assign_new df name dt values :
  name ∉ names df -> length values = len df ->
  assign df name dt values =
    Ok {| columns := columns df ++ [(name, dt)];
          rows := zip_with (fun row v => row ++ [v]) (rows df) values |}.
Proof.
  intros Hnew Hlen. unfold assign. rewrite Hlen, Nat.eqb_refl. simpl.
  by rewrite position_None.
Qed.

Lemma empty_no_rows df : rows df = [] -> empty df = true.
Proof. intros H. unfold empty. rewrite H. by destruct (columns df). Qed.

Lemma select_no_rows df : rows df = [] -> rows (select_dtypes_number df) = [].
Proof. intros H. unfold select_dtypes_number. simpl. by rewrite H. Qed.

Lemma concat_no_rows frames :
  Forall (fun df => rows df = []) frames -> rows (concat frames) = [].
Proof.
  intros Hall. unfold concat. simpl. generalize (concat_columns frames). intros cols.
  induction Hall as [|df frames Hdf _ IH]; [done|].
  simpl. unfold to_records at 1. rewrite Hdf. simpl. exact IH.
Qed.

Lemma assign_no_rows df name dt :
  rows df = [] -> exists df', assign df name dt [] = Ok df' /\ rows df' = [].
Proof.
  intros H. unfold assign, len. rewrite H. simpl.
  destruct (position name (columns df)); eexists; (split; [reflexivity|done]).
Qed.

(** ** Remediation orchestrator *)
Module RemediationFacts.
Import Remediation.

Lemma sns_publish_quiet topic subject msg (w : world) :
  state (sns_publish topic subject msg w).2 = state w /\
  calls (sns_publish topic subject msg w).2 = calls w ++ [SnsPublish topic subject msg].
Proof.
  unfold sns_publish, aws, logged.
  destruct (faults w) as [|[e|] rest]; simpl; auto.
Qed.

(** Claim C10.  With the topic configured, a request that lacks [action]
    or lacks [resourceId] is answered with 400 "Bad Request".  The world
    comes back as it was given: nothing was added to the call log, so
    neither a mutating call nor a publish was issued, and the dispatch
    was not reached. *)
Theorem missing_field_bad_request topic (event : gmap string pyval) (w : world) :
  env_truthy topic = true ->
  event !! "action" = None \/ event !! "resourceId" = None ->
  lambda_handler topic event w =
    (Ok {| statusCode := 400;
           body := BodyStr "Bad Request: Missing action or resourceId." |}, w).
Proof.
  intros Htopic Hmissing. unfold lambda_handler. rewrite Htopic. simpl.
  unfold dict_get.
  destruct Hmissing as [-> | ->]; simpl.
  - reflexivity.
  - rewrite orb_true_r. reflexivity.
Qed.

Lemma missing_field_bad_request_witness :
  env_truthy (Some Scenarios.topic_arn) = true
  /\ (Scenarios.task_without_resource !! "action" = None
      \/ Scenarios.task_without_resource !! "resourceId" = None)
  /\ lambda_handler (Some Scenarios.topic_arn) Scenarios.task_without_resource
       Scenarios.quiet_account =
       (Ok {| statusCode := 400;
              body := BodyStr "Bad Request: Missing action or resourceId." |},
        Scenarios.quiet_account).
Proof.
  split; [reflexivity|]. split; [right; reflexivity|].
  apply missing_field_bad_request; [reflexivity | right; reflexivity].
Defined.

(** A falsy value in either field is rejected the same way. *)
Lemma falsy_field_bad_request topic (event : gmap string pyval) (w : world) :
  env_truthy topic = true ->
  truthy (dict_get event "action") = false \/ truthy (dict_get event "resourceId") = false ->
  lambda_handler topic event w =
    (Ok {| statusCode := 400;
           body := BodyStr "Bad Request: Missing action or resourceId." |}, w).
Proof.
  intros Htopic Hfalsy. unfold lambda_handler. rewrite Htopic. simpl.
  destruct Hfalsy as [-> | ->]; simpl; [done|]. by rewrite orb_true_r.
Qed.

Lemma remediate_unknown action resource_id (w : world) :
  is_str action "remediate_s3_public_access" = false ->
  is_str action "remediate_security_group" = false ->
  remediate action resource_id w =
    (Ok {| status := "skipped";
           message := [Lit "Unknown action '"; Fmt action; Lit "'."] |}, w).
Proof. intros H1 H2. unfold remediate. rewrite H1, H2. reflexivity. Qed.

(** Claim C2.  For an [action] that is neither
    ["remediate_s3_public_access"] nor ["remediate_security_group"], the
    dispatch yields [skipped] with a message that names the action, and
    issues no call at all (the world is unchanged).  Around it, the
    handler leaves buckets and security groups as they were in every
    world, whatever faults are scheduled, and every call it adds to the
    log is a call that does not mutate. *)
Theorem unknown_action_skipped action resource_id topic (event : gmap string pyval) (w : world) :
  is_str action "remediate_s3_public_access" = false ->
  is_str action "remediate_security_group" = false ->
  dict_get event "action" = action ->
  remediate action resource_id w =
    (Ok {| status := "skipped";
           message := [Lit "Unknown action '"; Fmt action; Lit "'."] |}, w)
  /\ state (lambda_handler topic event w).2 = state w
  /\ exists published,
       calls (lambda_handler topic event w).2 = calls w ++ published
       /\ Forall (fun c => mutating c = false) published.
Proof.
  intros H1 H2 Hact. split; [by apply remediate_unknown|].
  unfold lambda_handler. rewrite Hact.
  destruct (negb (env_truthy topic)).
  { simpl. split; [done|]. exists []. by rewrite app_nil_r. }
  destruct (negb (truthy action) || negb (truthy (dict_get event "resourceId"))).
  { simpl. split; [done|]. exists []. by rewrite app_nil_r. }
  unfold try_except, bind. rewrite remediate_unknown by done.
  match goal with |- context [sns_publish ?t ?s ?m w] =>
    pose proof (sns_publish_quiet t s m w) as [Hst Hcalls];
    destruct (sns_publish t s m w) as [[[]|e] w1] eqn:Hpub end; simpl in *.
  - split; [done|]. eexists. split; [exact Hcalls|]. by repeat constructor.
  - match goal with |- context [sns_publish ?t ?s ?m w1] =>
      pose proof (sns_publish_quiet t s m w1) as [Hst' Hcalls'];
      destruct (sns_publish t s m w1) as [[[]|e'] w2] eqn:Hpub' end; simpl in *.
    + split; [congruence|]. eexists. split.
      * rewrite Hcalls', Hcalls, <- app_assoc. reflexivity.
      * by repeat constructor.
    + split; [congruence|]. eexists. split.
      * rewrite Hcalls', Hcalls, <- app_assoc. reflexivity.
      * by repeat constructor.
Qed.

Lemma unknown_action_skipped_witness :
  is_str (PyStr "rotate_access_keys") "remediate_s3_public_access" = false
  /\ is_str (PyStr "rotate_access_keys") "remediate_security_group" = false
  /\ dict_get Scenarios.rotate_keys_task "action" = PyStr "rotate_access_keys"
  /\ (remediate (PyStr "rotate_access_keys") (PyStr Scenarios.bucket_arn)
        Scenarios.quiet_account =
        (Ok {| status := "skipped";
               message := [Lit "Unknown action '"; Fmt (PyStr "rotate_access_keys");
                           Lit "'."] |}, Scenarios.quiet_account)
      /\ state (lambda_handler (Some Scenarios.topic_arn) Scenarios.rotate_keys_task
                  Scenarios.quiet_account).2 = state Scenarios.quiet_account
      /\ exists published,
           calls (lambda_handler (Some Scenarios.topic_arn) Scenarios.rotate_keys_task
                    Scenarios.quiet_account).2 = calls Scenarios.quiet_account ++ published
           /\ Forall (fun c => mutating c = false) published).
Proof.
  split; [reflexivity|]. split; [reflexivity|]. split; [reflexivity|].
  apply unknown_action_skipped; reflexivity.
Defined.

(** When the sink accepts the status, the handler hands the [skipped]
    outcome back with 200. *)
Lemma unknown_action_reported topic (event : gmap string pyval) (w : world) :
  env_truthy topic = true ->
  truthy (dict_get event "action") = true ->
  truthy (dict_get event "resourceId") = true ->
  is_str (dict_get event "action") "remediate_s3_public_access" = false ->
  is_str (dict_get event "action") "remediate_security_group" = false ->
  hd None (faults w) = None ->
  (lambda_handler topic event w).1 =
    Ok {| statusCode := 200;
          body := BodyResult
                    {| status := "skipped";
                       message := [Lit "Unknown action '"; Fmt (dict_get event "action");
                                   Lit "'."] |} |}.
Proof.
  intros Htopic Ha Hr H1 H2 Hf. unfold lambda_handler. rewrite Htopic, Ha, Hr. simpl.
  unfold try_except, bind. rewrite remediate_unknown by done.
  unfold sns_publish. by rewrite aws_served.
Qed.

(** *** What is revoked *)

Lemma same_ports_refl p : same_ports p p = true.
Proof. unfold same_ports. by rewrite !bool_decide_eq_true_2. Qed.

Lemma matches_of_In p q : In q (matches_of p) ->
  q = p /\ exists r, In r (ranges_of p) /\ CidrIp r = Some unrestricted.
Proof.
  unfold matches_of, ranges_of. destruct (IpRanges p) as [ranges|]; [|done]. simpl.
  rewrite in_flat_map. intros (r & Hr & Hq).
  case_bool_decide; [|done]. destruct Hq as [<-|[]]. eauto.
Qed.

Lemma In_matches_of p r :
  In r (ranges_of p) -> CidrIp r = Some unrestricted -> In p (matches_of p).
Proof.
  unfold matches_of, ranges_of. destruct (IpRanges p) as [ranges|]; [|done]. simpl.
  intros Hr Hc. apply in_flat_map. exists r. split; [done|].
  rewrite bool_decide_eq_true_2 by done. by left.
Qed.

Lemma to_revoke_nil perms :
  ingress_rules_to_revoke perms = [] <->
  forall p r, In p perms -> In r (ranges_of p) -> CidrIp r <> Some unrestricted.
Proof.
  unfold ingress_rules_to_revoke. split.
  - intros Hnil p r Hp Hr Hc.
    assert (In p (flat_map matches_of perms)) as Hin.
    { apply in_flat_map. exists p. split; [done|]. by eapply In_matches_of. }
    rewrite Hnil in Hin. destruct Hin.
  - intros Hall. destruct (flat_map matches_of perms) as [|q rest] eqn:E; [done|].
    assert (In q (flat_map matches_of perms)) as Hin by (rewrite E; by left).
    apply in_flat_map in Hin as (p & Hp & Hq).
    apply matches_of_In in Hq as (_ & r & Hr & Hc). by destruct (Hall p r).
Qed.

(** After the revoke the lambda asks for, no stored range is
    ['0.0.0.0/0']. *)
Lemma revoke_clears perms :
  ingress_rules_to_revoke (ec2_revoke (ingress_rules_to_revoke perms) perms) = [].
Proof.
  apply to_revoke_nil. intros p' r Hp' Hr Hc.
  unfold ec2_revoke in Hp'. apply filter_In in Hp' as [Hp' _].
  apply in_map_iff in Hp' as (p & <- & Hp).
  unfold ranges_of, revoke_from in Hr. simpl in Hr.
  destruct (IpRanges p) as [ranges|] eqn:Eranges; simpl in Hr; [|done].
  apply filter_In in Hr as [Hr Hasks].
  apply negb_true_iff in Hasks.
  assert (In r (ranges_of p)) as Hr' by (unfold ranges_of; by rewrite Eranges).
  assert (asks_cidr (ingress_rules_to_revoke perms) p r = true) as Hyes.
  { unfold asks_cidr. apply existsb_exists. exists p. split.
    - unfold ingress_rules_to_revoke. apply in_flat_map. exists p. split; [done|].
      by eapply In_matches_of.
    - rewrite same_ports_refl. simpl. apply existsb_exists. exists r.
      split; [done|]. by apply bool_decide_eq_true_2. }
  congruence.
Qed.

(** The request holds the permissions that have a range
    ['0.0.0.0/0'], each of them whole. *)
Lemma to_revoke_In perms q :
  In q (ingress_rules_to_revoke perms) <->
  In q perms /\ exists r, In r (ranges_of q) /\ CidrIp r = Some unrestricted.
Proof.
  unfold ingress_rules_to_revoke. rewrite in_flat_map. split.
  - intros (p & Hp & Hq). apply matches_of_In in Hq as (-> & Hr). auto.
  - intros (Hq & r & Hr & Hc). exists q. split; [done|]. by eapply In_matches_of.
Qed.

Lemma split_last_ok rid sep (w w' : world) s :
  split_last rid sep w = (Ok s, w') ->
  w' = w /\ exists id, rid = PyStr id /\ s = last_part (split sep id).
Proof.
  destruct rid; simpl; try discriminate. intros [= <- <-]. eauto.
Qed.

Lemma s3_served id (w : world) old :
  hd None (faults w) = None ->
  buckets (state w) !! last_part (split ":::" id) = Some old ->
  remediate_s3_public_access (PyStr id) w =
    (Ok {| status := "success";
           message := [Lit "Blocked public access for S3 bucket ";
                       Lit (last_part (split ":::" id)); Lit "."] |},
     {| state := {| buckets := <[last_part (split ":::" id) := Some block_all]> (buckets (state w));
                    security_groups := security_groups (state w) |};
        faults := tail (faults w);
        calls := calls w ++ [PutPublicAccessBlock (last_part (split ":::" id)) block_all] |}).
Proof.
  intros Hf Hb. unfold remediate_s3_public_access, bind, try_except, split_last, ret.
  unfold put_public_access_block. rewrite aws_served by done. simpl. rewrite Hb. reflexivity.
Qed.

Lemma s3_ok rid (w w1 : world) r1 :
  remediate_s3_public_access rid w = (Ok r1, w1) ->
  exists id old, rid = PyStr id /\ hd None (faults w) = None /\
    buckets (state w) !! last_part (split ":::" id) = Some old.
Proof.
  unfold remediate_s3_public_access, bind, try_except, split_last.
  destruct rid as [| | |id| |]; simpl; try discriminate.
  unfold put_public_access_block.
  destruct (aws _ _ w) as [[[]|e] w'] eqn:Hput; simpl; [|discriminate].
  intros _. apply aws_ok in Hput as (Hf & Hsvc & _).
  destruct (buckets (state w) !! last_part (split ":::" id)) as [old|] eqn:Hb; [|discriminate].
  eauto.
Qed.

Lemma sg_describe_served sg (w : world) perms :
  hd None (faults w) = None ->
  security_groups (state w) !! sg = Some perms ->
  describe_security_groups [sg] w =
    (Ok [perms], {| state := state w; faults := tail (faults w);
                    calls := calls w ++ [DescribeSecurityGroups [sg]] |}).
Proof.
  intros Hf Hg. unfold describe_security_groups. rewrite aws_served by done.
  simpl. rewrite Hg. reflexivity.
Qed.

Lemma sg_nothing_to_revoke id (w : world) perms :
  hd None (faults w) = None ->
  security_groups (state w) !! last_part (split "/" id) = Some perms ->
  ingress_rules_to_revoke perms = [] ->
  remediate_security_group (PyStr id) w =
    (Ok {| status := "no_action";
           message := [Lit "No overly permissive rules found for SG ";
                       Lit (last_part (split "/" id)); Lit "."] |},
     {| state := state w; faults := tail (faults w);
        calls := calls w ++ [DescribeSecurityGroups [last_part (split "/" id)]] |}).
Proof.
  intros Hf Hg Hnil. unfold remediate_security_group, bind, try_except, split_last, ret.
  rewrite (sg_describe_served _ _ perms) by done. rewrite Hnil. reflexivity.
Qed.

Lemma sg_ok rid (w w1 : world) r1 :
  remediate_security_group rid w = (Ok r1, w1) ->
  exists id perms,
    rid = PyStr id /\ hd None (faults w) = None /\
    security_groups (state w) !! last_part (split "/" id) = Some perms /\
    ((ingress_rules_to_revoke perms = [] /\ state w1 = state w) \/
     (status r1 = "success" /\
      state w1 = {| buckets := buckets (state w);
                    security_groups :=
                      <[last_part (split "/" id) :=
                          ec2_revoke (ingress_rules_to_revoke perms) perms]>
                        (security_groups (state w)) |})).
Proof.
  unfold remediate_security_group, bind, try_except, split_last, raise.
  destruct rid as [| | |id| |]; simpl; try discriminate.
  set (sg := last_part (split "/" id)).
  destruct (describe_security_groups [sg] w) as [[groups|e] w'] eqn:Hdesc; [|discriminate].
  unfold describe_security_groups in Hdesc.
  apply aws_ok in Hdesc as (Hf & Hsvc & Hfaults & Hcalls). simpl in Hsvc.
  destruct (security_groups (state w) !! sg) as [perms|] eqn:Hg; [|discriminate].
  injection Hsvc as <- Hst.
  destruct (ingress_rules_to_revoke perms) as [|p rest] eqn:Hrev.
  - intros [= <- <-]. exists id, perms. split; [done|]. split; [done|]. split; [done|].
    left. split; [done|]. by rewrite <- Hst.
  - unfold revoke_security_group_ingress.
    destruct (aws _ _ w') as [[[]|e] w''] eqn:Hrevoke; simpl; [|intros [=]].
    intros [= <- <-]. apply aws_ok in Hrevoke as (_ & Hsvc & _). rewrite <- Hst in Hsvc.
    rewrite Hg in Hsvc. injection Hsvc as Hst'.
    exists id, perms. split; [done|]. split; [done|]. split; [done|].
    right. split; [done|]. by rewrite <- Hst', Hrev.
Qed.

(** Claim C3.  Take a first call of one of the two remediations that
    returned, and let no fault be injected afterwards.  Calling again
    with the same action and resource returns as well and leaves buckets
    and security groups exactly as the first call left them.  For
    [remediate_s3_public_access] both calls report [success] with the
    same outcome, the second call being one more
    [put_public_access_block] of the same four flags.  For
    [remediate_security_group] the second call reports [no_action] and
    issues nothing but the describe call. *)
Theorem remediation_idempotent action rid (w w1 : world) r1 :
  is_str action "remediate_s3_public_access" || is_str action "remediate_security_group" = true ->
  remediate action rid w = (Ok r1, w1) ->
  faults w1 = [] ->
  exists r2 w2,
    remediate action rid w1 = (Ok r2, w2) /\
    state w2 = state w1 /\
    if is_str action "remediate_s3_public_access"
    then status r1 = "success" /\ r2 = r1 /\
         exists bucket, calls w2 = calls w1 ++ [PutPublicAccessBlock bucket block_all]
    else status r2 = "no_action" /\
         exists sg_id, calls w2 = calls w1 ++ [DescribeSecurityGroups [sg_id]].
Proof.
  intros Haction Hfirst Hquiet. unfold remediate in *.
  destruct (is_str action "remediate_s3_public_access") eqn:Es3.
  - pose proof (s3_ok _ _ _ _ Hfirst) as (id & old & -> & Hf & Hb).
    assert (hd None (faults w1) = None) as Hf1 by (by rewrite Hquiet).
    rewrite (s3_served id w old) in Hfirst by done. injection Hfirst as <- <-.
    eexists _, _. split.
    + apply (s3_served id _ (Some block_all)); [exact Hf1|].
      simpl. apply lookup_insert_eq.
    + simpl. rewrite insert_insert_eq. repeat split; eauto.
  - simpl in Haction. rewrite Haction in *.
    pose proof (sg_ok _ _ _ _ Hfirst) as (id & perms & -> & Hf & Hg & Hcase).
    assert (hd None (faults w1) = None) as Hf1 by (by rewrite Hquiet).
    destruct Hcase as [[Hnil Hst] | [_ Hst]].
    + eexists _, _. split.
      * apply (sg_nothing_to_revoke id w1 perms); [done| by rewrite Hst | done].
      * simpl. repeat split; eauto.
    + eexists _, _. split.
      * apply (sg_nothing_to_revoke id w1
                 (ec2_revoke (ingress_rules_to_revoke perms) perms)); [done| |].
        -- rewrite Hst. simpl. apply lookup_insert_eq.
        -- apply revoke_clears.
      * simpl. repeat split; eauto.
Qed.

Lemma remediation_idempotent_witness :
  (is_str (PyStr "remediate_s3_public_access") "remediate_s3_public_access"
   || is_str (PyStr "remediate_s3_public_access") "remediate_security_group" = true
   /\ remediate (PyStr "remediate_s3_public_access") (PyStr Scenarios.bucket_arn)
        Scenarios.quiet_account =
        (Ok {| status := "success";
               message := [Lit "Blocked public access for S3 bucket ";
                           Lit "egress-exports"; Lit "."] |},
         (remediate (PyStr "remediate_s3_public_access") (PyStr Scenarios.bucket_arn)
            Scenarios.quiet_account).2)
   /\ faults (remediate (PyStr "remediate_s3_public_access") (PyStr Scenarios.bucket_arn)
                Scenarios.quiet_account).2 = []
   /\ exists r2 w2,
        remediate (PyStr "remediate_s3_public_access") (PyStr Scenarios.bucket_arn)
          (remediate (PyStr "remediate_s3_public_access") (PyStr Scenarios.bucket_arn)
             Scenarios.quiet_account).2 = (Ok r2, w2)
        /\ status r2 = "success")
  /\ (is_str (PyStr "remediate_security_group") "remediate_s3_public_access"
      || is_str (PyStr "remediate_security_group") "remediate_security_group" = true
      /\ remediate (PyStr "remediate_security_group") (PyStr Scenarios.sg_arn)
           Scenarios.quiet_account =
           (Ok {| status := "success";
                  message := [Lit "Revoked overly permissive ingress rules from SG ";
                              Lit "sg-0a1b2c3d"; Lit "."] |},
            (remediate (PyStr "remediate_security_group") (PyStr Scenarios.sg_arn)
               Scenarios.quiet_account).2)
      /\ faults (remediate (PyStr "remediate_security_group") (PyStr Scenarios.sg_arn)
                   Scenarios.quiet_account).2 = []
      /\ exists r2 w2,
           remediate (PyStr "remediate_security_group") (PyStr Scenarios.sg_arn)
             (remediate (PyStr "remediate_security_group") (PyStr Scenarios.sg_arn)
                Scenarios.quiet_account).2 = (Ok r2, w2)
           /\ status r2 = "no_action").
Proof.
  split.
  - assert (remediate (PyStr "remediate_s3_public_access") (PyStr Scenarios.bucket_arn)
              Scenarios.quiet_account =
            (Ok {| status := "success";
                   message := [Lit "Blocked public access for S3 bucket ";
                               Lit "egress-exports"; Lit "."] |},
             (remediate (PyStr "remediate_s3_public_access") (PyStr Scenarios.bucket_arn)
                Scenarios.quiet_account).2)) as Hfirst by (vm_compute; reflexivity).
    split; [reflexivity|]. split; [exact Hfirst|]. split; [reflexivity|].
    destruct (remediation_idempotent (PyStr "remediate_s3_public_access")
                (PyStr Scenarios.bucket_arn) Scenarios.quiet_account _ _
                eq_refl Hfirst eq_refl)
      as (r2 & w2 & Hsecond & _ & _ & -> & _).
    eexists _, w2. split; [exact Hsecond | reflexivity].
  - assert (remediate (PyStr "remediate_security_group") (PyStr Scenarios.sg_arn)
              Scenarios.quiet_account =
            (Ok {| status := "success";
                   message := [Lit "Revoked overly permissive ingress rules from SG ";
                               Lit "sg-0a1b2c3d"; Lit "."] |},
             (remediate (PyStr "remediate_security_group") (PyStr Scenarios.sg_arn)
                Scenarios.quiet_account).2)) as Hfirst by (vm_compute; reflexivity).
    split; [reflexivity|]. split; [exact Hfirst|]. split; [reflexivity|].
    destruct (remediation_idempotent (PyStr "remediate_security_group")
                (PyStr Scenarios.sg_arn) Scenarios.quiet_account _ _
                eq_refl Hfirst eq_refl)
      as (r2 & w2 & Hsecond & _ & Hstatus & _).
    exists r2, w2. split; [exact Hsecond | exact Hstatus].
Defined.

(** Claim C1.  On a security group whose port 22 is open to
    ['0.0.0.0/0'] and to the office network ['10.0.0.0/8'], which EC2
    reports as one permission with two ranges, the lambda reports
    [success] after asking EC2 to revoke that permission whole: the
    request carries the office range too, and afterwards the group has
    no rule left.  The range that is not ['0.0.0.0/0'] has been
    revoked. *)
Theorem revoke_takes_the_whole_permission :
  remediate_security_group (PyStr Scenarios.sg_arn) Scenarios.quiet_account =
    (Ok {| status := "success";
           message := [Lit "Revoked overly permissive ingress rules from SG ";
                       Lit "sg-0a1b2c3d"; Lit "."] |},
     {| state := {| buckets := buckets Scenarios.account;
                    security_groups := {[ "sg-0a1b2c3d" := [] ]} |};
        faults := [];
        calls := [DescribeSecurityGroups ["sg-0a1b2c3d"];
                  RevokeSecurityGroupIngress "sg-0a1b2c3d" [Scenarios.ssh_rule]] |})
  /\ In Scenarios.office_range (ranges_of Scenarios.ssh_rule)
  /\ CidrIp Scenarios.office_range = Some "10.0.0.0/8"
  /\ security_groups (state Scenarios.quiet_account) !! "sg-0a1b2c3d"
     = Some [Scenarios.ssh_rule].
Proof.
  split; [vm_compute; reflexivity|]. split; [right; left; reflexivity|].
  split; reflexivity.
Qed.

(** The part of C1 that holds in general: without a range
    ['0.0.0.0/0'] the lambda reports [no_action] and issues the describe
    call only; see [sg_nothing_to_revoke]. *)
Lemma no_open_range_no_revoke id (w : world) perms :
  hd None (faults w) = None ->
  security_groups (state w) !! last_part (split "/" id) = Some perms ->
  (forall p r, In p perms -> In r (ranges_of p) -> CidrIp r <> Some unrestricted) ->
  exists r w',
    remediate_security_group (PyStr id) w = (Ok r, w')
    /\ status r = "no_action"
    /\ state w' = state w
    /\ calls w' = calls w ++ [DescribeSecurityGroups [last_part (split "/" id)]].
Proof.
  intros Hf Hg Hnone. eexists _, _. split.
  - apply (sg_nothing_to_revoke id w perms); [done|done|]. by apply to_revoke_nil.
  - done.
Qed.

End RemediationFacts.

(** ** Detection trigger *)
Module TriggerFacts.
Import Trigger.

(** Claim C8.  When the fetch of the latest features reports the object
    missing ([ClientError] with code ["NoSuchKey"]), the handler returns
    200 with "No new data for inference.": a success, not a failure.  The
    call log has grown by the [get_object] call alone, so the endpoint
    was not invoked, no execution was started and nothing was
    published. *)
Theorem no_new_data g context (w w1 : world) message :
  configured g = true ->
  s3_get_object (default "" (PROCESSED_DATA_BUCKET g)) latest_data_key w =
    (Raise (ClientError "NoSuchKey" message), w1) ->
  lambda_handler g context w =
    (Ok {| statusCode := 200; body := [Lit "No new data for inference."] |}, w1)
  /\ calls w1 =
       calls w ++ [S3GetObject (default "" (PROCESSED_DATA_BUCKET g)) latest_data_key].
Proof.
  intros Hcfg Hget. split.
  - unfold lambda_handler. rewrite Hcfg. simpl.
    unfold try_except, detection_cycle, bind, fetch_latest_features,
      try_except_ClientError, bind.
    rewrite Hget. reflexivity.
  - unfold s3_get_object in Hget.
    match type of Hget with aws ?c ?svc w = _ =>
      pose proof (aws_calls c svc w) as Hcalls end.
    by rewrite Hget in Hcalls.
Qed.

Lemma no_new_data_witness :
  configured Scenarios.source_globals = true
  /\ s3_get_object (default "" (PROCESSED_DATA_BUCKET Scenarios.source_globals))
       latest_data_key Scenarios.no_features =
       (Raise (ClientError "NoSuchKey" "The specified key does not exist."),
        (s3_get_object (default "" (PROCESSED_DATA_BUCKET Scenarios.source_globals))
           latest_data_key Scenarios.no_features).2)
  /\ (lambda_handler Scenarios.source_globals Scenarios.trigger_context
         Scenarios.no_features).1 =
       Ok {| statusCode := 200; body := [Lit "No new data for inference."] |}
  /\ calls (lambda_handler Scenarios.source_globals Scenarios.trigger_context
              Scenarios.no_features).2 =
       [S3GetObject "egress-processed" latest_data_key].
Proof.
  assert (s3_get_object (default "" (PROCESSED_DATA_BUCKET Scenarios.source_globals))
            latest_data_key Scenarios.no_features =
          (Raise (ClientError "NoSuchKey" "The specified key does not exist."),
           (s3_get_object (default "" (PROCESSED_DATA_BUCKET Scenarios.source_globals))
              latest_data_key Scenarios.no_features).2)) as Hget
    by (vm_compute; reflexivity).
  split; [reflexivity|]. split; [exact Hget|].
  destruct (no_new_data Scenarios.source_globals Scenarios.trigger_context
              Scenarios.no_features _ _ eq_refl Hget) as [Hrun Hcalls].
  rewrite Hrun. split; [reflexivity | exact Hcalls].
Defined.

Lemma sns_publish_served topic subject msg (w : world) :
  hd None (faults w) = None ->
  sns_publish topic subject msg w =
    (Ok tt, {| state := state w; faults := tail (faults w);
               calls := calls w ++ [SnsPublish topic subject msg] |}).
Proof. intros Hf. unfold sns_publish. by rewrite aws_served. Qed.

(** Claim C7, as amended.  Let the body of the detection cycle raise:
    any exception that leaves the outer [try], a scorer error among
    them; the missing object of claim C8 is not one, it ends the cycle
    with 200.  Then the handler publishes one alert to the topic, and
    when the sink accepts it the handler returns a response with status
    500 instead of raising.  [failed_cycle_alert_refused] is the other
    case: when the publish itself raises, that exception leaves the
    handler. *)
Theorem failed_cycle_alerts g context (w w1 : world) e :
  configured g = true ->
  detection_cycle g w = (Raise e, w1) ->
  hd None (faults w1) = None ->
  exists resp message,
    lambda_handler g context w =
      (Ok resp,
       {| state := state w1; faults := tail (faults w1);
          calls := calls w1 ++ [SnsPublish (default "" (SNS_ANOMALY_TOPIC_ARN g))
                                  (failure_subject context) message] |})
    /\ statusCode resp = 500.
Proof.
  intros Hcfg Hcycle Hsink. unfold lambda_handler. rewrite Hcfg. simpl.
  unfold try_except. rewrite Hcycle. unfold on_error, bind.
  destruct e as [code message | cls detail];
    rewrite sns_publish_served by done; eexists _, _; split; reflexivity.
Qed.

Lemma failed_cycle_alerts_witness :
  configured Scenarios.globals_with_io = true
  /\ detection_cycle Scenarios.globals_with_io
       (Scenarios.with_features [None; Some Scenarios.throttled]) =
       (Raise Scenarios.throttled,
        (detection_cycle Scenarios.globals_with_io
           (Scenarios.with_features [None; Some Scenarios.throttled])).2)
  /\ hd None (faults (detection_cycle Scenarios.globals_with_io
                        (Scenarios.with_features [None; Some Scenarios.throttled])).2) = None
  /\ exists resp w',
       lambda_handler Scenarios.globals_with_io Scenarios.trigger_context
         (Scenarios.with_features [None; Some Scenarios.throttled]) = (Ok resp, w')
       /\ statusCode resp = 500.
Proof.
  assert (detection_cycle Scenarios.globals_with_io
            (Scenarios.with_features [None; Some Scenarios.throttled]) =
          (Raise Scenarios.throttled,
           (detection_cycle Scenarios.globals_with_io
              (Scenarios.with_features [None; Some Scenarios.throttled])).2)) as Hcycle
    by (vm_compute; reflexivity).
  split; [reflexivity|]. split; [exact Hcycle|]. split; [reflexivity|].
  destruct (failed_cycle_alerts Scenarios.globals_with_io Scenarios.trigger_context
              (Scenarios.with_features [None; Some Scenarios.throttled]) _ _
              eq_refl Hcycle eq_refl) as (resp & message & Hrun & Hstatus).
  eexists resp, _. split; [exact Hrun | exact Hstatus].
Defined.

(** When the sink refuses the alert, the exception of the publish leaves
    the handler. *)
Lemma failed_cycle_alert_refused g context (w w1 : world) e e' rest :
  configured g = true ->
  detection_cycle g w = (Raise e, w1) ->
  faults w1 = Some e' :: rest ->
  exists w2, lambda_handler g context w = (Raise e', w2).
Proof.
  intros Hcfg Hcycle Hsink. unfold lambda_handler. rewrite Hcfg. simpl.
  unfold try_except. rewrite Hcycle. unfold on_error, bind, sns_publish.
  destruct e as [code message | cls detail];
    erewrite aws_fault by exact Hsink; eauto.
Qed.

(** Counterexample to claim C7 as stated.  The features are there, the
    endpoint is throttled, and the topic refuses the publish: the cycle
    fails, and the handler raises instead of returning a failure
    result. *)
Lemma alert_refused_handler_raises :
  configured Scenarios.globals_with_io = true
  /\ (detection_cycle Scenarios.globals_with_io
        (Scenarios.with_features
           [None; Some Scenarios.throttled; Some Scenarios.sink_denied])).1
     = Raise Scenarios.throttled
  /\ (lambda_handler Scenarios.globals_with_io Scenarios.trigger_context
        (Scenarios.with_features
           [None; Some Scenarios.throttled; Some Scenarios.sink_denied])).1
     = Raise Scenarios.sink_denied.
Proof. split; [reflexivity|]. split; vm_compute; reflexivity. Qed.

(** The module as it is in the repository has no [import io]: once the
    object has been fetched, building the frame raises [NameError], the
    endpoint is never invoked, and the cycle ends in the failure path. *)
Lemma fetched_features_hit_NameError g (w w1 : world) obj :
  io_bound g = false ->
  s3_get_object (default "" (PROCESSED_DATA_BUCKET g)) latest_data_key w = (Ok obj, w1) ->
  detection_cycle g w = (Raise (NameError "name 'io' is not defined"), w1).
Proof.
  intros Hio Hget.
  unfold detection_cycle, bind, fetch_latest_features, try_except_ClientError, bind.
  rewrite Hget. unfold lift, read_parquet. rewrite Hio. reflexivity.
Qed.

End TriggerFacts.

(** ** Bedrock analyzer *)
Module AnalyzerFacts.
Import Analyzer.

(** A resource id with fewer than seven parts between slashes makes the
    CloudTrail step raise [IndexError] while it builds its arguments; no
    call is made, and [except ClientError] does not catch it. *)
Lemma trail_evidence_short_id id anomaly_details (w : world) :
  (length (split "/" id) <= 6)%nat ->
  trail_evidence (PyStr id) anomaly_details w =
    (Raise (IndexError "list index out of range"), w).
Proof.
  intros Hshort. unfold trail_evidence, try_except_ClientError, bind, lift. simpl.
  unfold index. rewrite (lookup_ge_None_2 (split "/" id) 6) by lia. reflexivity.
Qed.

(** With such an id the body of the handler never returns. *)
Lemma analysis_short_id_raises g (event : gmap string pyval) id (w : world) :
  event !! "resourceId" = Some (PyStr id) ->
  (length (split "/" id) <= 6)%nat ->
  exists e w1, analysis g event w = (Raise e, w1).
Proof.
  intros Hid Hshort. unfold analysis, dict_get_default. rewrite Hid. simpl.
  unfold bind at 1.
  destruct (load_prompt_template _ _ w) as [[[|piece template]|e] w1]; [by eauto| |by eauto].
  unfold get_contextual_data. unfold bind at 1. unfold bind at 1.
  destruct (config_evidence _ _ w1) as [[lines|e] w2]; [|by eauto].
  unfold bind at 1. rewrite trail_evidence_short_id by done. eauto.
Qed.

(** So the handler answers 500 or raises, whatever the services hold. *)
Lemma short_id_never_enriched g (event : gmap string pyval) id (w w' : world) resp :
  configured g = true ->
  event !! "resourceId" = Some (PyStr id) ->
  (length (split "/" id) <= 6)%nat ->
  lambda_handler g event w = (Ok resp, w') ->
  statusCode resp = 500.
Proof.
  intros Hcfg Hid Hshort. unfold lambda_handler. rewrite Hcfg. simpl.
  unfold try_except.
  destruct (analysis_short_id_raises g event id w Hid Hshort) as (e & w1 & ->).
  unfold bind. destruct (publish_enriched_alert _ _ _ w1) as [[[]|e'] w2]; [|done].
  by intros [= <- _].
Qed.

(** Claim C9.  The anomaly the trigger sends names the resource
    ['unknown']; the three sources know nothing, no call fails, and the
    model would answer.  The handler nevertheless ends in its failure
    path: after the prompt template and the AWS Config lookup, the
    CloudTrail step raises [IndexError], the model is never invoked, the
    alert that goes out is the "CRITICAL: Bedrock Analyzer Failed" one,
    and the answer is 500. *)
Theorem lookups_empty_analysis_fails :
  lambda_handler Scenarios.analyzer_globals Scenarios.anomaly_event Scenarios.no_evidence =
    (Ok {| statusCode := 500;
           body := [Lit "Internal Server Error: ";
                    FmtExn (IndexError "list index out of range")];
           llm_analysis := None |},
     {| state := Scenarios.analyzer_services;
        faults := [];
        calls := [S3GetObject "egress-processed" PROMPT_TEMPLATE_KEY;
                  GetResourceConfigHistory "unknown" (Given (PyStr "2024-05-01"));
                  SnsPublish Scenarios.topic_arn
                    (failure_subject (PyStr "unknown"))
                    (failure_message Scenarios.anomaly_event
                       (IndexError "list index out of range"))] |}).
Proof. vm_compute. reflexivity. Qed.

(** The same happens for an instance named by its ARN. *)
Lemma instance_arn_analysis_fails :
  (lambda_handler Scenarios.analyzer_globals Scenarios.instance_event
     Scenarios.no_evidence).1 =
    Ok {| statusCode := 500;
          body := [Lit "Internal Server Error: ";
                   FmtExn (IndexError "list index out of range")];
          llm_analysis := None |}.
Proof. vm_compute. reflexivity. Qed.

(** With seven parts in the id the degradation is as intended: empty
    context, the model is invoked, 200. *)
Lemma deep_id_analysis_degrades :
  (lambda_handler Scenarios.analyzer_globals Scenarios.deep_event
     Scenarios.no_evidence).1 =
    Ok {| statusCode := 200;
          body := [Lit "Bedrock analysis completed and alert sent."];
          llm_analysis := Some "Likely cause: a public bucket." |}
  /\ (get_contextual_data (PyStr "a/b/c/d/e/f/AWS::EC2::Instance/i-0abc") (PyDict [])
        Scenarios.no_evidence).1 = Ok "".
Proof. split; vm_compute; reflexivity. Qed.

End AnalyzerFacts.

(** ** Inference script *)
Module InferenceFacts.
Import Inference.

(** Claim C4, as amended.  Let the request frame be rectangular with
    distinct column names, pass the guard of [predict_fn] (a numeric
    column and a row exist) and have no column named [is_anomaly] or
    [anomaly_score], and let the model answer both calls with one value
    per row.  Then [predict_fn] returns a frame with the columns of the
    request followed by [is_anomaly] and [anomaly_score] and with as
    many rows as the request, in its order: row [i] is row [i] of the
    request, every cell as it was, followed by the flag (1 when the
    prediction is -1, else 0) and the value of the decision function.
    [score] returns the records of that frame as [to_json] writes them:
    as many, in the same order, every float written with
    [double_precision] decimals and every other value as it is. *)
Theorem score_keeps_rows_in_order double_precision input_data model predictions scores :
  rectangular input_data ->
  NoDup (names input_data) ->
  empty (select_dtypes_number input_data) = false ->
  "is_anomaly" ∉ names input_data ->
  "anomaly_score" ∉ names input_data ->
  predict model (select_dtypes_number input_data) = Ok predictions ->
  decision_function model (select_dtypes_number input_data) = Ok scores ->
  length predictions = len input_data ->
  length scores = len input_data ->
  exists frame out,
    predict_fn input_data model = Ok frame
    /\ names frame = names input_data ++ ["is_anomaly"; "anomaly_score"]
    /\ len frame = len input_data
    /\ (forall i row p s,
          rows input_data !! i = Some row ->
          predictions !! i = Some p ->
          scores !! i = Some s ->
          rows frame !! i = Some (row ++ [CInt (if p =? -1 then 1 else 0); CFloat s]))
    /\ score double_precision input_data model "application/json"
       = Ok (Json out, "application/json")
    /\ length out = len input_data
    /\ forall i row p s,
         to_records input_data !! i = Some row ->
         predictions !! i = Some p ->
         scores !! i = Some s ->
         out !! i =
           Some (render double_precision
                   (row ++ [("is_anomaly", CInt (if p =? -1 then 1 else 0));
                            ("anomaly_score", CFloat s)])).
Proof.
  intros Hrect Hnodup Hfeat Hflag Hscore Hpred Hdec Hlenp Hlens.
  assert (predict_fn input_data model =
          Ok {| columns := (columns input_data ++ [("is_anomaly", Numeric)])
                           ++ [("anomaly_score", Numeric)];
                rows := zip_with (fun row v => row ++ [v])
                          (zip_with (fun row v => row ++ [v]) (rows input_data)
                             (List.map (fun p => CInt (if p =? -1 then 1 else 0)) predictions))
                          (List.map CFloat scores) |}) as Hrun.
  { unfold predict_fn. rewrite Hfeat. cbn [result_bind]. rewrite Hpred. cbn [result_bind].
    rewrite assign_new by (by rewrite ?length_map). cbn [result_bind].
    rewrite Hdec. cbn [result_bind].
    rewrite assign_new; [done| |].
    - unfold names. simpl. rewrite fmap_app. simpl.
      rewrite not_elem_of_app, not_elem_of_cons. split; [done|]. split; [done|].
      apply not_elem_of_nil.
    - unfold len. simpl. rewrite length_map, length_zip_with, length_map.
      unfold len in *. lia. }
  set (frame := {| columns := (columns input_data ++ [("is_anomaly", Numeric)])
                              ++ [("anomaly_score", Numeric)];
                   rows := zip_with (fun row v => row ++ [v])
                             (zip_with (fun row v => row ++ [v]) (rows input_data)
                                (List.map (fun p => CInt (if p =? -1 then 1 else 0))
                                   predictions))
                             (List.map CFloat scores) |}) in *.
  assert (names frame = names input_data ++ ["is_anomaly"; "anomaly_score"]) as Hnames.
  { unfold names. simpl. rewrite !fmap_app, <- app_assoc. reflexivity. }
  assert (forall i row p s,
            rows input_data !! i = Some row ->
            predictions !! i = Some p ->
            scores !! i = Some s ->
            rows frame !! i = Some (row ++ [CInt (if p =? -1 then 1 else 0); CFloat s]))
    as Hrows.
  { intros i row p s Hrow Hp Hs. simpl.
    rewrite !lookup_zip_with, Hrow. simpl. rewrite !lookup_map, Hp, Hs. simpl.
    by rewrite <- app_assoc. }
  assert (NoDup (names frame)) as Hnodup'.
  { rewrite Hnames. apply NoDup_app. split; [done|]. split.
    - intros n Hn. rewrite !elem_of_cons. intros [->|[->|Hnil]]; [done|done|].
      by apply not_elem_of_nil in Hnil.
    - apply (bool_decide_unpack _). vm_compute. exact I. }
  exists frame, (List.map (render double_precision) (to_records frame)).
  split; [exact Hrun|]. split; [exact Hnames|]. split.
  { unfold len. simpl. rewrite !length_zip_with, !length_map. unfold len in *. lia. }
  split; [exact Hrows|]. split.
  { unfold score. rewrite Hrun. cbn [result_bind]. unfold output_fn. cbn [String.eqb].
    unfold to_json. by rewrite bool_decide_eq_true_2. }
  split.
  { unfold to_records, len. simpl.
    rewrite !length_map, !length_zip_with, !length_map. unfold len in *. lia. }
  intros i row p s Hrow Hp Hs. unfold to_records in Hrow. rewrite lookup_map in Hrow.
  destruct (rows input_data !! i) as [cells|] eqn:Hcells; [|done].
  injection Hrow as <-.
  unfold to_records. rewrite !lookup_map, (Hrows i cells p s Hcells Hp Hs).
  simpl. do 2 f_equal. rewrite Hnames.
  rewrite zip_with_app; [done|].
  unfold names. rewrite length_fmap. symmetry.
  eapply (Forall_lookup_1 _ _ _ _ Hrect Hcells).
Qed.

Lemma score_keeps_rows_in_order_witness :
  rectangular Scenarios.labelled_features
  /\ NoDup (names Scenarios.labelled_features)
  /\ empty (select_dtypes_number Scenarios.labelled_features) = false
  /\ ("is_anomaly" ∉ names Scenarios.labelled_features)
  /\ ("anomaly_score" ∉ names Scenarios.labelled_features)
  /\ predict Scenarios.threshold_model (select_dtypes_number Scenarios.labelled_features)
     = Ok [1; -1]
  /\ decision_function Scenarios.threshold_model
       (select_dtypes_number Scenarios.labelled_features)
     = Ok [QArith_base.Qmake 97 2; QArith_base.Qmake (-45) 1]
  /\ length [1; -1] = len Scenarios.labelled_features
  /\ length [QArith_base.Qmake 97 2; QArith_base.Qmake (-45) 1]
     = len Scenarios.labelled_features
  /\ exists frame out,
       predict_fn Scenarios.labelled_features Scenarios.threshold_model = Ok frame
       /\ len frame = 2%nat
       /\ score Scenarios.ten_decimals Scenarios.labelled_features Scenarios.threshold_model
            "application/json" = Ok (Json out, "application/json")
       /\ length out = 2%nat.
Proof.
  assert (rectangular Scenarios.labelled_features) as Hrect
    by (repeat constructor).
  assert ("is_anomaly" ∉ names Scenarios.labelled_features) as Hflag
    by (apply (bool_decide_unpack _); vm_compute; exact I).
  assert ("anomaly_score" ∉ names Scenarios.labelled_features) as Hscore
    by (apply (bool_decide_unpack _); vm_compute; exact I).
  assert (NoDup (names Scenarios.labelled_features)) as Hnodup
    by (apply (bool_decide_unpack _); vm_compute; exact I).
  split; [exact Hrect|]. split; [exact Hnodup|]. split; [reflexivity|].
  split; [exact Hflag|].
  split; [exact Hscore|]. split; [reflexivity|]. split; [reflexivity|].
  split; [reflexivity|]. split; [reflexivity|].
  destruct (score_keeps_rows_in_order Scenarios.ten_decimals Scenarios.labelled_features
              Scenarios.threshold_model
              [1; -1] [QArith_base.Qmake 97 2; QArith_base.Qmake (-45) 1]
              Hrect Hnodup eq_refl Hflag Hscore eq_refl eq_refl eq_refl eq_refl)
    as (frame & out & Hrun & _ & Hlen & _ & Hscored & Hout & _).
  exists frame, out. split; [exact Hrun|]. split; [exact Hlen|].
  split; [exact Hscored | exact Hout].
Defined.

(** Counterexample to claim C4 as stated.  A request with one row whose
    cost has eleven decimals is scored with floats written to ten
    decimals: the record that [score] returns is not the row with its
    fields unchanged, its cost is the rounded one. *)
Lemma long_float_is_rounded :
  to_records Scenarios.precise_features =
    [[("daily_egress_cost_usd",
       CFloat (QArith_base.Qmake 12345678901 100000000000))]]
  /\ exists record,
       score Scenarios.ten_decimals Scenarios.precise_features Scenarios.threshold_model
         "application/json" = Ok (Json [record], "application/json")
       /\ field "daily_egress_cost_usd" record =
            Some (CFloat (QArith_base.Qmake 1234567890 10000000000))
       /\ field "daily_egress_cost_usd" record <>
            Some (CFloat (QArith_base.Qmake 12345678901 100000000000)).
Proof.
  split; [reflexivity|]. eexists. split; [vm_compute; reflexivity|].
  split; [reflexivity | discriminate].
Qed.

End InferenceFacts.

(** ** Feature engineering and training scripts *)
Module FeatureEngineeringFacts.
Import FeatureEngineering.

Lemma onehot_unseen categories v :
  v ∉ categories ->
  onehot categories v = replicate (length categories) (CFloat (QArith_base.inject_Z 0)).
Proof.
  induction categories as [|c categories IH]; [done|].
  intros Hnot. apply not_elem_of_cons in Hnot as [Hne Hnot]. simpl.
  rewrite bool_decide_eq_false_2 by congruence. f_equal. by apply IH.
Qed.

Lemma encode_ignore categories v : encode ignore categories v = Ok (onehot categories v).
Proof. unfold encode. by case_bool_decide. Qed.

Lemma encode_error_unseen categories v :
  v ∉ categories -> exists d, encode error categories v = Raise (ValueError d).
Proof. intros H. unfold encode. rewrite bool_decide_eq_false_2 by done. eauto. Qed.

Lemma encode_all_ignore (pairs : list (list cell * cell)) :
  traverse (fun cv => encode ignore cv.1 cv.2) pairs =
    Ok (List.map (fun cv => onehot cv.1 cv.2) pairs).
Proof.
  induction pairs as [|cv pairs IH]; [done|]. simpl.
  rewrite encode_ignore. simpl. by rewrite IH.
Qed.

Lemma fit_inv stats df ct :
  fit stats df = Ok ct ->
  policy (cat ct) = ignore /\
  length (categories_ (cat ct)) = length categorical_features.
Proof.
  unfold fit. destruct (fit_scaler stats df) as [scaler|]; simpl; [|done].
  unfold fit_encoder.
  destruct (traverse (feature_column df) categorical_features) as [cols|] eqn:Hcols;
    simpl; [|done].
  intros [= <-]. simpl. split; [done|].
  rewrite length_map. by apply traverse_length in Hcols.
Qed.

(** Under ['error'] the same value makes the encoder raise. *)
Lemma encode_row_error_unseen encoder (row : record) values i v cats :
  policy encoder = error ->
  length (categories_ encoder) = length values ->
  select categorical_features row = Ok values ->
  values !! i = Some v ->
  categories_ encoder !! i = Some cats ->
  v ∉ cats ->
  exists e, encode_row encoder row = Raise e.
Proof.
  intros Hpolicy Hlen Hvalues Hv Hcats Hunseen. unfold encode_row.
  rewrite Hvalues, Hpolicy. simpl. clear Hvalues Hpolicy.
  revert values i Hlen Hv Hcats.
  induction (categories_ encoder) as [|c cs IH]; intros [|w ws] i Hlen Hv Hcats;
    try done.
  destruct i as [|i]; simpl in *.
  - injection Hv as ->. injection Hcats as ->.
    destruct (encode_error_unseen cats v Hunseen) as [d ->]. simpl. eauto.
  - destruct (encode error c w); simpl; [|by eauto].
    destruct (IH ws i) as [e ->]; [lia|done|done|]. simpl. eauto.
Qed.

(** Claim C6.  Take the preprocessor that the script fits (its encoder
    is built with [handle_unknown='ignore']) and an observation whose
    numerical columns scale and that carries every categorical field.
    If its value in one categorical field is not in the vocabulary
    fitted for that field, the transform still returns: the scaled
    numbers followed by one block per categorical field, where the block
    of that field is all zeros, as wide as its vocabulary, and every
    block is the indicator of the field's own value, as for any other
    observation. *)
Theorem unseen_category_all_zero stats df ct (row : record) scaled values i v cats :
  fit stats df = Ok ct ->
  scale_row (num ct) row = Ok scaled ->
  select categorical_features row = Ok values ->
  values !! i = Some v ->
  categories_ (cat ct) !! i = Some cats ->
  v ∉ cats ->
  exists blocks,
    transform ct row = Ok (scaled ++ List.concat blocks)
    /\ length blocks = length categorical_features
    /\ blocks !! i = Some (replicate (length cats) (CFloat (QArith_base.inject_Z 0)))
    /\ forall j w cats',
         values !! j = Some w ->
         categories_ (cat ct) !! j = Some cats' ->
         blocks !! j = Some (onehot cats' w).
Proof.
  intros Hfit Hscaled Hvalues Hv Hcats Hunseen.
  apply fit_inv in Hfit as [Hpolicy Hwidth].
  exists (List.map (fun cv => onehot cv.1 cv.2) (zip (categories_ (cat ct)) values)).
  assert (forall j w cats',
            values !! j = Some w -> categories_ (cat ct) !! j = Some cats' ->
            List.map (fun cv => onehot cv.1 cv.2) (zip (categories_ (cat ct)) values) !! j
            = Some (onehot cats' w)) as Hblock.
  { intros j w cats' Hw Hc. rewrite lookup_map.
    rewrite lookup_zip_with, Hc, Hw. reflexivity. }
  split; [|split; [|split]].
  - unfold transform, encode_row. rewrite Hscaled, Hvalues, Hpolicy. simpl.
    by rewrite encode_all_ignore.
  - rewrite length_map, length_zip_with, Hwidth.
    apply traverse_length in Hvalues. lia.
  - rewrite (Hblock i v cats) by done. by rewrite onehot_unseen.
  - exact Hblock.
Qed.

Lemma column_no_rows df name :
  rows df = [] ->
  column df name = Ok [] \/ column df name = Raise (KeyError name).
Proof.
  intros H. unfold column. rewrite H.
  destruct (position name (columns df)); [by left | by right].
Qed.

Lemma feature_column_no_rows df name :
  rows df = [] ->
  feature_column df name = Ok [] \/ exists d, feature_column df name = Raise (ValueError d).
Proof.
  intros H. unfold feature_column.
  destruct (column_no_rows df name H) as [-> | ->]; [by left | right; eauto].
Qed.

Lemma fit_no_rows stats df :
  rows df = [] -> exists d, fit stats df = Raise (ValueError d).
Proof.
  intros H. unfold fit, fit_scaler, numerical_features. simpl.
  destruct (feature_column_no_rows df "daily_egress_cost_usd" H) as [-> | [d ->]];
    [|by eauto].
  destruct (feature_column_no_rows df "daily_egress_usage_amount" H) as [-> | [d ->]];
    [|by eauto].
  simpl. rewrite H. eauto.
Qed.

Lemma add_time_features_no_rows cal df :
  rows df = [] ->
  add_time_features cal df = Raise (KeyError "usage_date") \/
  exists df', add_time_features cal df = Ok df' /\ rows df' = [].
Proof.
  intros H. unfold add_time_features.
  destruct (column_no_rows df "usage_date" H) as [-> | ->]; [|by left].
  right. simpl.
  destruct (assign_no_rows df "date" Object H) as (d1 & -> & H1). simpl.
  destruct (assign_no_rows d1 "day_of_week" Numeric H1) as (d2 & -> & H2). simpl.
  destruct (assign_no_rows d2 "day_of_month" Numeric H2) as (d3 & -> & H3). simpl.
  destruct (assign_no_rows d3 "month" Numeric H3) as (d4 & -> & H4). simpl.
  destruct (assign_no_rows d4 "week_of_year" Numeric H4) as (d5 & -> & H5). simpl.
  apply (assign_no_rows d5 "is_weekend" Numeric H5).
Qed.

Lemma unseen_category_all_zero_witness :
  (exists df ct scaled values,
     add_time_features Scenarios.first_of_may Scenarios.usage_rows = Ok df
     /\ fit Scenarios.unit_stats df = Ok ct
     /\ scale_row (num ct) Scenarios.new_region_row = Ok scaled
     /\ select categorical_features Scenarios.new_region_row = Ok values
     /\ values !! 1%nat = Some (CStr "ap-south-1")
     /\ categories_ (cat ct) !! 1%nat = Some [CStr "eu-west-1"]
     /\ (CStr "ap-south-1" ∉ [CStr "eu-west-1"])
     /\ exists blocks,
          transform ct Scenarios.new_region_row = Ok (scaled ++ List.concat blocks)
          /\ blocks !! 1%nat = Some [CFloat (QArith_base.inject_Z 0)]).
Proof.
  destruct (add_time_features Scenarios.first_of_may Scenarios.usage_rows)
    as [df|] eqn:Hdf; [|discriminate Hdf].
  destruct (fit Scenarios.unit_stats df) as [ct|e] eqn:Hct.
  2: { exfalso. vm_compute in Hdf. injection Hdf as <-. vm_compute in Hct. discriminate Hct. }
  destruct (scale_row (num ct) Scenarios.new_region_row) as [scaled|e] eqn:Hscaled.
  2: { exfalso. vm_compute in Hdf. injection Hdf as <-. vm_compute in Hct.
       injection Hct as <-. vm_compute in Hscaled. discriminate Hscaled. }
  assert (categories_ (cat ct) !! 1%nat = Some [CStr "eu-west-1"]) as Hcats.
  { vm_compute in Hdf. injection Hdf as <-. vm_compute in Hct. injection Hct as <-.
    reflexivity. }
  assert (CStr "ap-south-1" ∉ [CStr "eu-west-1"]) as Hunseen
    by (apply (bool_decide_unpack _); vm_compute; exact I).
  exists df, ct, scaled,
    [CStr "AmazonS3"; CStr "ap-south-1"; CStr "DataTransfer-Out-Bytes"; CInt 2; CInt 5].
  split; [done|]. split; [exact Hct|]. split; [exact Hscaled|].
  split; [reflexivity|]. split; [reflexivity|]. split; [exact Hcats|].
  split; [exact Hunseen|].
  destruct (unseen_category_all_zero Scenarios.unit_stats df ct Scenarios.new_region_row
              scaled
              [CStr "AmazonS3"; CStr "ap-south-1"; CStr "DataTransfer-Out-Bytes"; CInt 2; CInt 5]
              1%nat (CStr "ap-south-1") [CStr "eu-west-1"]
              Hct Hscaled eq_refl eq_refl Hcats Hunseen)
    as (blocks & Hrun & _ & Hblock & _).
  exists blocks. split; [exact Hrun | exact Hblock].
Defined.

(** *** Zero rows *)

(** Claim C5, as amended.  Given zero rows, each operation fails with a
    Python built-in exception, never with an [EmptyInputError], which
    the code does not define, and none returns an empty result.
    [score] raises [ValueError] from the guard of [predict_fn].  The
    training script raises [ValueError], from its guard on the channel
    when there is no file and from its guard on the numeric features
    when the files hold no row.  The feature script, where fit and
    transform are one [fit_transform], raises [ValueError] from its guard
    when there is no file; when the files hold no row it has no guard of
    its own and fails with [KeyError] on a missing [usage_date] column
    or else with the [ValueError] of the scaler's fit. *)
Theorem zero_rows_raise_ValueError
    (double_precision : Q -> Q)
    (df : DataFrame) (model : Inference.Model) (accept : string)
    {Model : Type} (IsolationForest_fit : Training.hyperparameters -> DataFrame -> result Model)
    (args : Training.hyperparameters)
    (column_stats : list Q -> Q * Q) (to_datetime : cell -> result date_parts)
    (input_files : list (string * result DataFrame)) (frames : list DataFrame) :
  rows df = [] ->
  traverse snd input_files = Ok frames ->
  Forall (fun frame => rows frame = []) frames ->
  (exists d, Inference.score double_precision df model accept = Raise (ValueError d))
  /\ (exists d, Training.main IsolationForest_fit args input_files = Raise (ValueError d))
  /\ (exists e, FeatureEngineering.main column_stats to_datetime input_files = Raise e
              /\ (exn_class e = "ValueError" \/ exn_class e = "KeyError")).
Proof.
  intros Hdf Hread Hframes.
  pose proof (concat_no_rows frames Hframes) as Hcat.
  split; [|split].
  - unfold Inference.score, Inference.predict_fn.
    rewrite empty_no_rows by (by apply select_no_rows). simpl. eauto.
  - unfold Training.main. destruct input_files as [|file files]; [by eauto|].
    rewrite Hread. simpl.
    rewrite empty_no_rows by (by apply select_no_rows). eauto.
  - unfold FeatureEngineering.main. destruct input_files as [|file files].
    { eexists. split; [reflexivity|by left]. }
    rewrite Hread. simpl.
    destruct (add_time_features_no_rows to_datetime _ Hcat) as [-> | (df' & -> & Hrows)].
    { eexists. split; [reflexivity|by right]. }
    simpl. unfold fit_transform.
    destruct (fit_no_rows column_stats df' Hrows) as [d ->]. simpl.
    eexists. split; [reflexivity|by left].
Qed.

Lemma zero_rows_raise_ValueError_witness :
  rows Scenarios.no_rows = []
  /\ traverse snd [("part-0.parquet", Ok Scenarios.usage_without_rows)]
     = Ok [Scenarios.usage_without_rows]
  /\ Forall (fun frame => rows frame = []) [Scenarios.usage_without_rows]
  /\ (exists d, Inference.score Scenarios.ten_decimals Scenarios.no_rows
                 Scenarios.threshold_model "application/json" = Raise (ValueError d))
  /\ (exists d, Training.main Scenarios.fit_width Training.defaults
                 [("part-0.parquet", Ok Scenarios.usage_without_rows)]
               = Raise (ValueError d))
  /\ (exists e, FeatureEngineering.main Scenarios.unit_stats Scenarios.first_of_may
                 [("part-0.parquet", Ok Scenarios.usage_without_rows)] = Raise e
               /\ (exn_class e = "ValueError" \/ exn_class e = "KeyError")).
Proof.
  assert (Forall (fun frame => rows frame = []) [Scenarios.usage_without_rows]) as Hall
    by (repeat constructor).
  split; [reflexivity|]. split; [reflexivity|]. split; [exact Hall|].
  exact (zero_rows_raise_ValueError Scenarios.ten_decimals
           Scenarios.no_rows Scenarios.threshold_model
           "application/json" Scenarios.fit_width Training.defaults
           Scenarios.unit_stats Scenarios.first_of_may
           [("part-0.parquet", Ok Scenarios.usage_without_rows)]
           [Scenarios.usage_without_rows] eq_refl eq_refl Hall).
Defined.

(** Counterexample to claim C5 as stated.  A scoring request with zero
    rows, a training channel whose file holds zero rows and a feature
    job without input files each fail, and the exception is a
    [ValueError], not an [EmptyInputError]. *)
Lemma zero_rows_not_EmptyInputError :
  (exists e, Inference.score Scenarios.ten_decimals Scenarios.no_rows
               Scenarios.threshold_model "application/json" = Raise e
             /\ exn_class e = "ValueError" /\ exn_class e <> "EmptyInputError")
  /\ (exists e, Training.main Scenarios.fit_width Training.defaults
                  [("part-0.parquet", Ok Scenarios.no_rows)] = Raise e
                /\ exn_class e = "ValueError" /\ exn_class e <> "EmptyInputError")
  /\ (exists e, FeatureEngineering.main Scenarios.unit_stats Scenarios.first_of_may []
                = Raise e
                /\ exn_class e = "ValueError" /\ exn_class e <> "EmptyInputError").
Proof.
  split; [|split]; eexists; (split; [reflexivity|]); (split; [reflexivity|]);
    discriminate.
Qed.

End FeatureEngineeringFacts.

(** * Further properties

    Paths, footprints and invariants of the handlers and scripts beyond
    the claims above. *)

(** A call either meets a scheduled fault or is served. *)
Lemma aws_cases {St Call A} (c : Call) (service : St -> result A * St) (w : World St Call) :
  (exists e rest, faults w = Some e :: rest /\ aws c service w = (Raise e, logged c rest w))
  \/ (hd None (faults w) = None /\
      aws c service w =
        ((service (state w)).1,
         {| state := (service (state w)).2; faults := tail (faults w);
            calls := calls w ++ [c] |})).
Proof.
  unfold aws, logged. destruct (faults w) as [|[e|] rest]; simpl.
  - right. by destruct (service (state w)).
  - left. eauto.
  - right. by destruct (service (state w)).
Qed.


(** ** Splitting resource ids *)

Import Stdlib.Strings.Ascii.

Lemma append_cons x (a b : string) : String x a +:+ b = String x (a +:+ b).
Proof. reflexivity. Qed.

Lemma append_nil_r (a : string) : a +:+ "" = a.
Proof. induction a as [|x a IH]; [done|]. by rewrite append_cons, IH. Qed.

Lemma append_assoc (a b c : string) : (a +:+ b) +:+ c = a +:+ (b +:+ c).
Proof. induction a as [|x a IH]; [done|]. by rewrite !append_cons, IH. Qed.

Lemma prefix_empty (s : string) : String.prefix "" s = true.
Proof. by destruct s. Qed.

Lemma prefix_cons a sep c (s : string) :
  String.prefix (String a sep) (String c s) =
    if Ascii.ascii_dec a c then String.prefix sep s else false.
Proof. reflexivity. Qed.

Lemma split_go_cons sep c s cur :
  split_go sep (String c s) 0 cur =
    if String.prefix sep (String c s)
    then cur :: split_go sep s (String.length sep - 1) ""
    else split_go sep s 0 (cur +:+ String c "").
Proof. reflexivity. Qed.

Lemma split_go_nonempty sep s skip cur : split_go sep s skip cur <> [].
Proof.
  revert skip cur. induction s as [|c s IH]; intros skip cur; cbn [split_go]; [done|].
  destruct skip; [|apply IH].
  destruct (String.prefix sep (String c s)); [discriminate | apply IH].
Qed.

(** Without the first character of the separator there is nothing to
    split. *)
Lemma split_go_no_separator a sep s cur :
  (forall k, String.get k s <> Some a) ->
  split_go (String a sep) s 0 cur = [cur +:+ s].
Proof.
  revert cur. induction s as [|c s IH]; intros cur Hnone; simpl.
  - by rewrite append_nil_r.
  - destruct (Ascii.ascii_dec a c) as [->|_].
    + by destruct (Hnone 0%nat).
    + rewrite IH.
      * by rewrite append_assoc.
      * intros k. apply (Hnone (S k)).
Qed.

Lemma last_part_cons x parts : parts <> [] -> last_part (x :: parts) = last_part parts.
Proof. unfold last_part. by destruct parts. Qed.

(** What follows the last slash is the last part. *)
Lemma last_part_after_slash p id cur :
  (forall k, String.get k id <> Some "/"%char) ->
  last_part (split_go "/" (p +:+ "/" +:+ id) 0 cur) = id.
Proof.
  intros Hid. revert cur. induction p as [|c p IH]; intros cur.
  - change ("" +:+ "/" +:+ id) with (String "/" id).
    rewrite split_go_cons, prefix_cons, prefix_empty.
    destruct (Ascii.ascii_dec "/" "/") as [_|Hne]; [|done].
    change (String.length "/" - 1)%nat with 0%nat.
    rewrite split_go_no_separator by done. reflexivity.
  - rewrite append_cons, split_go_cons, prefix_cons, prefix_empty.
    change (String.length "/" - 1)%nat with 0%nat.
    destruct (Ascii.ascii_dec "/" c) as [_|_].
    + rewrite last_part_cons by apply split_go_nonempty. apply IH.
    + apply IH.
Qed.

Lemma bucket_of_arn name :
  (forall k, String.get k name <> Some ":"%char) ->
  last_part (split ":::" ("arn:aws:s3:::" +:+ name)) = name.
Proof.
  intros Hname. unfold split.
  change ("arn:aws:s3:::" +:+ name)
    with (String "a" (String "r" (String "n" (String ":" (String "a" (String "w"
          (String "s" (String ":" (String "s" (String "3" (String ":" (String ":"
          (String ":" name))))))))))))).
  simpl. rewrite prefix_empty, split_go_no_separator by done. reflexivity.
Qed.

(** ** Remediation orchestrator: targets, outcomes and frame *)
Module RemediationTargets.
Import Remediation.

(** For a resource id of the documented form [arn:aws:s3:::bucket-name]
    the one call that is issued, served or not, is the put on
    [bucket-name]. *)
Theorem s3_arn_names_the_bucket name (w : world) :
  (forall k, String.get k name <> Some ":"%char) ->
  calls (remediate_s3_public_access (PyStr ("arn:aws:s3:::" +:+ name)) w).2 =
    calls w ++ [PutPublicAccessBlock name block_all].
Proof.
  intros Hname. unfold remediate_s3_public_access, bind, try_except, split_last, ret, raise.
  rewrite bucket_of_arn by done. unfold put_public_access_block.
  match goal with |- context [aws ?c ?svc w] =>
    pose proof (aws_calls c svc w) as Hcalls; destruct (aws c svc w) as [[[]|e] w1] end;
    exact Hcalls.
Qed.

Lemma s3_arn_names_the_bucket_witness :
  (forall k, String.get k "egress-exports" <> Some ":"%char)
  /\ calls (remediate_s3_public_access (PyStr ("arn:aws:s3:::" +:+ "egress-exports"))
             Scenarios.quiet_account).2 =
     calls Scenarios.quiet_account ++ [PutPublicAccessBlock "egress-exports" block_all].
Proof.
  assert (forall k, String.get k "egress-exports" <> Some ":"%char) as Hname
    by (intros k; do 15 (destruct k as [|k]; [discriminate|]); discriminate).
  split; [exact Hname|]. exact (s3_arn_names_the_bucket _ _ Hname).
Defined.

(** For a resource id that ends in [/sg-id] the describe call names
    [sg-id], whatever precedes the slash, and a revoke, if one follows,
    names the same group. *)
Theorem sg_arn_names_the_group prefix id (w : world) :
  (forall k, String.get k id <> Some "/"%char) ->
  exists more,
    calls (remediate_security_group (PyStr (prefix +:+ "/" +:+ id)) w).2 =
      calls w ++ DescribeSecurityGroups [id] :: more
    /\ Forall (fun c => exists perms, c = RevokeSecurityGroupIngress id perms) more.
Proof.
  intros Hid.
  unfold remediate_security_group, bind, try_except, split_last, ret, raise.
  unfold split. rewrite last_part_after_slash by done.
  unfold describe_security_groups.
  match goal with |- context [aws ?c ?svc w] =>
    pose proof (aws_calls c svc w) as Hcalls;
    destruct (aws c svc w) as [[[|perms groups]|e] w1] end; simpl in *.
  - exists []. split; [exact Hcalls | constructor].
  - destruct (ingress_rules_to_revoke perms) as [|q req].
    + exists []. split; [exact Hcalls | constructor].
    + unfold revoke_security_group_ingress.
      match goal with |- context [aws ?c ?svc w1] =>
        pose proof (aws_calls c svc w1) as Hcalls';
        destruct (aws c svc w1) as [[[]|e] w2] end; simpl in *;
        (eexists [_]; split;
         [rewrite Hcalls', Hcalls, <- app_assoc; reflexivity
         | repeat constructor; eauto]).
  - exists []. split; [exact Hcalls | constructor].
Qed.

Lemma sg_arn_names_the_group_witness :
  (forall k, String.get k "sg-0a1b2c3d" <> Some "/"%char)
  /\ exists more,
       calls (remediate_security_group
                (PyStr ("arn:aws:ec2:eu-west-1:111122223333:security-group"
                        +:+ "/" +:+ "sg-0a1b2c3d")) Scenarios.quiet_account).2 =
         calls Scenarios.quiet_account ++ DescribeSecurityGroups ["sg-0a1b2c3d"] :: more.
Proof.
  assert (forall k, String.get k "sg-0a1b2c3d" <> Some "/"%char) as Hid
    by (intros k; do 12 (destruct k as [|k]; [discriminate|]); discriminate).
  split; [exact Hid|].
  destruct (sg_arn_names_the_group "arn:aws:ec2:eu-west-1:111122223333:security-group"
              "sg-0a1b2c3d" Scenarios.quiet_account Hid) as (more & Hcalls & _).
  exists more. exact Hcalls.
Defined.

End RemediationTargets.

(** ** Remediation orchestrator: outcomes *)
Module RemediationOutcomes.
Import Remediation.

(** The put acts on one bucket: after a remediation that returned, the
    bucket named by the resource id has all four flags set, every other
    bucket and every security group is as before, and the call log has
    grown by that one call. *)
Theorem s3_remediation_touches_one_bucket id (w w' : world) r :
  remediate_s3_public_access (PyStr id) w = (Ok r, w') ->
  status r = "success"
  /\ buckets (state w') !! last_part (split ":::" id) = Some (Some block_all)
  /\ (forall other, other <> last_part (split ":::" id) ->
        buckets (state w') !! other = buckets (state w) !! other)
  /\ security_groups (state w') = security_groups (state w)
  /\ calls w' = calls w ++ [PutPublicAccessBlock (last_part (split ":::" id)) block_all].
Proof.
  intros Hrun.
  destruct (RemediationFacts.s3_ok _ _ _ _ Hrun) as (id' & old & [= <-] & Hf & Hb).
  rewrite (RemediationFacts.s3_served id w old) in Hrun by done.
  injection Hrun as <- <-. simpl. split; [done|]. split; [apply lookup_insert_eq|].
  split; [|done]. intros other Hother. by apply lookup_insert_ne.
Qed.

Lemma s3_remediation_touches_one_bucket_witness :
  remediate_s3_public_access (PyStr Scenarios.bucket_arn) Scenarios.quiet_account =
    (Ok {| status := "success";
           message := [Lit "Blocked public access for S3 bucket ";
                       Lit "egress-exports"; Lit "."] |},
     (remediate_s3_public_access (PyStr Scenarios.bucket_arn) Scenarios.quiet_account).2)
  /\ buckets (state (remediate_s3_public_access (PyStr Scenarios.bucket_arn)
                      Scenarios.quiet_account).2) !! "egress-exports"
     = Some (Some block_all).
Proof.
  assert (remediate_s3_public_access (PyStr Scenarios.bucket_arn) Scenarios.quiet_account =
          (Ok {| status := "success";
                 message := [Lit "Blocked public access for S3 bucket ";
                             Lit "egress-exports"; Lit "."] |},
           (remediate_s3_public_access (PyStr Scenarios.bucket_arn)
              Scenarios.quiet_account).2)) as Hrun by (vm_compute; reflexivity).
  split; [exact Hrun|].
  exact (proj1 (proj2 (s3_remediation_touches_one_bucket _ _ _ _ Hrun))).
Defined.

(** The security-group remediation leaves every bucket and every other
    group alone, and whatever it asks EC2 to revoke is a permission of
    the group that has a range ['0.0.0.0/0']. *)
Theorem revoke_request_is_from_the_group id (w : world) group_id req :
  let w' := (remediate_security_group (PyStr id) w).2 in
  buckets (state w') = buckets (state w)
  /\ (forall other, other <> last_part (split "/" id) ->
        security_groups (state w') !! other = security_groups (state w) !! other)
  /\ (In (RevokeSecurityGroupIngress group_id req) (calls w') ->
      In (RevokeSecurityGroupIngress group_id req) (calls w)
      \/ (group_id = last_part (split "/" id)
          /\ exists stored,
               security_groups (state w) !! group_id = Some stored
               /\ forall q, In q req ->
                    In q stored
                    /\ exists r, In r (ranges_of q) /\ CidrIp r = Some unrestricted)).
Proof.
  unfold remediate_security_group, bind, try_except, split_last, ret, raise.
  set (sg := last_part (split "/" id)). unfold describe_security_groups.
  match goal with |- context [aws ?c ?svc w] =>
    destruct (aws_cases c svc w) as [(e & rest & _ & ->) | [_ ->]] end; simpl.
  { split; [done|]. split; [done|]. rewrite in_app_iff. simpl.
    intros [?|[[=]|[]]]. by left. }
  destruct (security_groups (state w) !! sg) as [stored|] eqn:Hg; simpl.
  2: { split; [done|]. split; [done|]. rewrite in_app_iff. simpl.
       intros [?|[[=]|[]]]. by left. }
  destruct (ingress_rules_to_revoke stored) as [|q0 req0] eqn:Hreq; simpl.
  { split; [done|]. split; [done|]. rewrite in_app_iff. simpl.
    intros [?|[[=]|[]]]. by left. }
  unfold revoke_security_group_ingress.
  match goal with |- context [aws ?c ?svc ?w1] =>
    destruct (aws_cases c svc w1) as [(e & rest & _ & ->) | [_ ->]] end; simpl.
  - split; [done|]. split; [done|]. rewrite !in_app_iff. simpl.
    intros [[?|[[=]|[]]]|[[= <- <-]|[]]]; [by left|]. right. split; [done|].
    exists stored. split; [done|]. intros q Hq. rewrite <- Hreq in Hq.
    by apply RemediationFacts.to_revoke_In.
  - rewrite Hg. simpl. split; [done|].
    split; [intros other Hother; by apply lookup_insert_ne|].
    rewrite !in_app_iff. simpl.
    intros [[?|[[=]|[]]]|[[= <- <-]|[]]]; [by left|]. right. split; [done|].
    exists stored. split; [done|]. intros q Hq. rewrite <- Hreq in Hq.
    by apply RemediationFacts.to_revoke_In.
Qed.

(** A remediation that raises is reported: with the sink accepting, the
    handler publishes the "CRITICAL" alert that carries the error and
    the event, and answers 500 with status [failed]. *)
Theorem failed_remediation_is_reported topic (event : gmap string pyval) (w w1 : world) e :
  env_truthy topic = true ->
  truthy (dict_get event "action") = true ->
  truthy (dict_get event "resourceId") = true ->
  remediate (dict_get event "action") (dict_get event "resourceId") w = (Raise e, w1) ->
  hd None (faults w1) = None ->
  lambda_handler topic event w =
    (Ok {| statusCode := 500;
           body := BodyResult
                     {| status := "failed";
                        message := error_message (dict_get event "action")
                                     (dict_get event "resourceId") e |} |},
     {| state := state w1; faults := tail (faults w1);
        calls := calls w1 ++
          [SnsPublish (default "" topic)
             [Lit "CRITICAL: Egress Remediation Failed for "; Fmt (dict_get event "action");
              Lit " on "; Fmt (dict_get event "resourceId")]
             (error_message (dict_get event "action") (dict_get event "resourceId") e
              ++ [Lit (nl +:+ "Full event: "); DumpsEvent event])] |}).
Proof.
  intros Htopic Ha Hr Hrun Hsink. unfold lambda_handler. rewrite Htopic, Ha, Hr. simpl.
  unfold try_except, bind. rewrite Hrun. unfold sns_publish.
  rewrite aws_served by done. reflexivity.
Qed.

Lemma failed_remediation_is_reported_witness :
  env_truthy (Some Scenarios.topic_arn) = true
  /\ truthy (dict_get Scenarios.s3_task "action") = true
  /\ truthy (dict_get Scenarios.s3_task "resourceId") = true
  /\ remediate (dict_get Scenarios.s3_task "action") (dict_get Scenarios.s3_task "resourceId")
       {| state := {| buckets := ∅; security_groups := ∅ |}; faults := []; calls := [] |} =
       (Raise (ClientError "NoSuchBucket" "The specified bucket does not exist"),
        {| state := {| buckets := ∅; security_groups := ∅ |}; faults := [];
           calls := [PutPublicAccessBlock "egress-exports" block_all] |})
  /\ (lambda_handler (Some Scenarios.topic_arn) Scenarios.s3_task
        {| state := {| buckets := ∅; security_groups := ∅ |}; faults := []; calls := [] |}).1 =
     Ok {| statusCode := 500;
           body := BodyResult
                     {| status := "failed";
                        message :=
                          error_message (dict_get Scenarios.s3_task "action")
                            (dict_get Scenarios.s3_task "resourceId")
                            (ClientError "NoSuchBucket" "The specified bucket does not exist") |} |}.
Proof.
  assert (remediate (dict_get Scenarios.s3_task "action")
            (dict_get Scenarios.s3_task "resourceId")
            {| state := {| buckets := ∅; security_groups := ∅ |}; faults := []; calls := [] |} =
          (Raise (ClientError "NoSuchBucket" "The specified bucket does not exist"),
           {| state := {| buckets := ∅; security_groups := ∅ |}; faults := [];
              calls := [PutPublicAccessBlock "egress-exports" block_all] |})) as Hrun
    by (vm_compute; reflexivity).
  split; [reflexivity|]. split; [reflexivity|]. split; [reflexivity|]. split; [exact Hrun|].
  rewrite (failed_remediation_is_reported (Some Scenarios.topic_arn) Scenarios.s3_task _ _ _
             eq_refl eq_refl eq_refl Hrun eq_refl).
  reflexivity.
Defined.

(** A status that cannot be published turns a remediation that was
    carried out into a [failed] answer: the bucket stays blocked, and
    the handler answers 500 with the error of the publish. *)
Theorem unpublished_success_is_reported_failed
    topic (event : gmap string pyval) (w w1 : world) r e rest :
  env_truthy topic = true ->
  truthy (dict_get event "action") = true ->
  truthy (dict_get event "resourceId") = true ->
  remediate (dict_get event "action") (dict_get event "resourceId") w = (Ok r, w1) ->
  faults w1 = Some e :: None :: rest ->
  exists w2,
    lambda_handler topic event w =
      (Ok {| statusCode := 500;
             body := BodyResult
                       {| status := "failed";
                          message := error_message (dict_get event "action")
                                       (dict_get event "resourceId") e |} |}, w2)
    /\ state w2 = state w1.
Proof.
  intros Htopic Ha Hr Hrun Hfaults. unfold lambda_handler. rewrite Htopic, Ha, Hr. simpl.
  unfold try_except, bind. rewrite Hrun. unfold sns_publish.
  erewrite aws_fault by exact Hfaults. rewrite aws_served by done.
  eexists. split; reflexivity.
Qed.

Lemma unpublished_success_is_reported_failed_witness :
  exists w1,
    env_truthy (Some Scenarios.topic_arn) = true
    /\ truthy (dict_get Scenarios.s3_task "action") = true
    /\ truthy (dict_get Scenarios.s3_task "resourceId") = true
    /\ remediate (dict_get Scenarios.s3_task "action")
         (dict_get Scenarios.s3_task "resourceId")
         {| state := Scenarios.account; faults := [None; Some Scenarios.sink_denied; None];
            calls := [] |} =
         (Ok {| status := "success";
                message := [Lit "Blocked public access for S3 bucket ";
                            Lit "egress-exports"; Lit "."] |}, w1)
    /\ faults w1 = [Some Scenarios.sink_denied; None]
    /\ buckets (state w1) !! "egress-exports" = Some (Some block_all)
    /\ exists w2,
         lambda_handler (Some Scenarios.topic_arn) Scenarios.s3_task
           {| state := Scenarios.account; faults := [None; Some Scenarios.sink_denied; None];
              calls := [] |} =
           (Ok {| statusCode := 500;
                  body := BodyResult
                            {| status := "failed";
                               message :=
                                 error_message (dict_get Scenarios.s3_task "action")
                                   (dict_get Scenarios.s3_task "resourceId")
                                   Scenarios.sink_denied |} |}, w2)
         /\ state w2 = state w1.
Proof.
  eexists. split; [reflexivity|]. split; [reflexivity|]. split; [reflexivity|].
  split; [vm_compute; reflexivity|]. split; [reflexivity|]. split; [reflexivity|].
  eapply (unpublished_success_is_reported_failed (Some Scenarios.topic_arn) Scenarios.s3_task);
    [reflexivity | reflexivity | reflexivity | vm_compute; reflexivity | reflexivity].
Defined.

(** An answer 200 has been published first: its body is the outcome of
    the dispatch, and the last call of the log is the publish of that
    outcome, with the status in capitals in the subject. *)
Theorem answer_200_was_published topic (event : gmap string pyval) (w w' : world) resp :
  lambda_handler topic event w = (Ok resp, w') ->
  statusCode resp = 200 ->
  exists r,
    body resp = BodyResult r
    /\ last (calls w') =
       Some (SnsPublish (default "" topic)
               (status_subject r (dict_get event "action") (dict_get event "resourceId"))
               (status_message r (dict_get event "action") (dict_get event "resourceId")
                  (dict_get_default event "anomalyDetails" (PyDict [])))).
Proof.
  unfold lambda_handler.
  destruct (negb (env_truthy topic)); [by intros [= <- _]|].
  destruct (negb _ || negb _); [by intros [= <- _]|].
  unfold try_except, bind.
  destruct (remediate _ _ w) as [[r|e] w1].
  - unfold sns_publish.
    match goal with |- context [aws ?c ?svc w1] =>
      destruct (aws_cases c svc w1) as [(e & rest & _ & ->) | [_ ->]] end; simpl.
    + match goal with |- context [aws ?c ?svc ?w2] =>
        destruct (aws c svc w2) as [[[]|e'] w3] end; simpl; [|done].
      by intros [= <- _].
    + intros [= <- <-] _. exists r. split; [done|]. simpl. apply last_snoc.
  - unfold sns_publish.
    match goal with |- context [aws ?c ?svc w1] =>
      destruct (aws c svc w1) as [[[]|e'] w3] end; simpl; [|done].
    by intros [= <- _].
Qed.

Lemma answer_200_was_published_witness :
  lambda_handler (Some Scenarios.topic_arn) Scenarios.rotate_keys_task Scenarios.quiet_account =
    (Ok {| statusCode := 200;
           body := BodyResult
                     {| status := "skipped";
                        message := [Lit "Unknown action '"; Fmt (PyStr "rotate_access_keys");
                                    Lit "'."] |} |},
     (lambda_handler (Some Scenarios.topic_arn) Scenarios.rotate_keys_task
        Scenarios.quiet_account).2)
  /\ statusCode {| statusCode := 200;
                  body := BodyResult
                            {| status := "skipped";
                               message := [Lit "Unknown action '";
                                           Fmt (PyStr "rotate_access_keys"); Lit "'."] |} |}
     = 200
  /\ exists c, last (calls (lambda_handler (Some Scenarios.topic_arn)
                              Scenarios.rotate_keys_task Scenarios.quiet_account).2) = Some c
               /\ mutating c = false.
Proof.
  assert (lambda_handler (Some Scenarios.topic_arn) Scenarios.rotate_keys_task
            Scenarios.quiet_account =
          (Ok {| statusCode := 200;
                 body := BodyResult
                           {| status := "skipped";
                              message := [Lit "Unknown action '";
                                          Fmt (PyStr "rotate_access_keys"); Lit "'."] |} |},
           (lambda_handler (Some Scenarios.topic_arn) Scenarios.rotate_keys_task
              Scenarios.quiet_account).2)) as Hrun by (vm_compute; reflexivity).
  split; [exact Hrun|]. split; [reflexivity|].
  destruct (answer_200_was_published _ _ _ _ _ Hrun eq_refl) as (r & _ & Hlast).
  eexists. split; [exact Hlast | reflexivity].
Defined.

End RemediationOutcomes.

(** ** Detection trigger: the paths of a cycle *)
Module TriggerPaths.
Import Trigger.

Lemma start_execution_served arn input (w : world) :
  hd None (faults w) = None ->
  start_execution arn input w =
    (Ok tt, {| state := state w; faults := tail (faults w);
               calls := calls w ++ [StartExecution arn input] |}).
Proof. intros Hf. unfold start_execution. by rewrite aws_served. Qed.

Lemma after_readings_0 sv : after_readings 0 sv = sv.
Proof. destruct sv. unfold after_readings. simpl. f_equal. lia. Qed.

Lemma after_readings_S n sv : after_readings n (after_readings 1 sv) = after_readings (S n) sv.
Proof. unfold after_readings. simpl. f_equal. lia. Qed.

(** One turn of the loop on a row that is serialised, the start being
    accepted. *)
Lemma dispatch_turn arn dt anomaly rest (w : world) :
  serializable dt anomaly = true ->
  hd None (faults w) = None ->
  dispatch arn ((dt, anomaly) :: rest) w =
    dispatch arn rest
      {| state := after_readings 1 (state w); faults := tail (faults w);
         calls := calls w ++
                  [StartExecution arn
                     (input_for anomaly (clock (state w) (ticks (state w))))] |}.
Proof.
  intros Hser Hf. cbn [dispatch]. unfold bind at 1. unfold timestamp_now at 1.
  cbv beta iota. unfold bind at 1. unfold lift at 1, json_dumps at 1. rewrite Hser.
  cbv beta iota. unfold bind at 1.
  rewrite start_execution_served by exact Hf. reflexivity.
Qed.

(** While every row is serialised and no fault is scheduled, the loop
    starts one execution per row, in order. *)
Lemma dispatch_started arn before after (w : world) rest :
  Forall (fun da => serializable da.1 da.2 = true) before ->
  faults w = replicate (length before) None ++ rest ->
  dispatch arn (before ++ after) w =
    dispatch arn after
      {| state := after_readings (length before) (state w); faults := rest;
         calls := calls w ++
                  executions arn (clock (state w)) (ticks (state w)) before |}.
Proof.
  revert w. induction before as [|[dt anomaly] before IH]; intros w Hser Hfaults.
  - simpl. rewrite app_nil_r, after_readings_0. destruct w. simpl in *. by subst.
  - apply Forall_cons in Hser as [Hrow Hser]. simpl in Hfaults.
    change (((dt, anomaly) :: before) ++ after) with ((dt, anomaly) :: (before ++ after)).
    rewrite dispatch_turn by (done || by rewrite Hfaults).
    rewrite (IH _ Hser) by (simpl; by rewrite Hfaults).
    cbn [state calls faults length executions].
    rewrite after_readings_S, <- app_assoc.
    replace (ticks (after_readings 1 (state w))) with (S (ticks (state w)))
      by (unfold after_readings; simpl; lia).
    reflexivity.
Qed.

Lemma dispatch_quiet arn anomalies (w : world) :
  Forall (fun da => serializable da.1 da.2 = true) anomalies ->
  faults w = [] ->
  dispatch arn anomalies w =
    (Ok tt, {| state := after_readings (length anomalies) (state w); faults := [];
               calls := calls w ++
                        executions arn (clock (state w)) (ticks (state w)) anomalies |}).
Proof.
  revert w. induction anomalies as [|[dt anomaly] anomalies IH]; intros w Hser Hfaults.
  - simpl. rewrite app_nil_r, after_readings_0. destruct w. simpl in *. by subst.
  - apply Forall_cons in Hser as [Hrow Hser].
    rewrite dispatch_turn by (done || by rewrite Hfaults).
    rewrite (IH _ Hser) by (simpl; by rewrite Hfaults).
    cbn [state calls faults length executions].
    rewrite after_readings_S, <- app_assoc.
    replace (ticks (after_readings 1 (state w))) with (S (ticks (state w)))
      by (unfold after_readings; simpl; lia).
    reflexivity.
Qed.

Lemma after_readings_add n m sv :
  after_readings n (after_readings m sv) = after_readings (m + n) sv.
Proof. unfold after_readings. simpl. f_equal. lia. Qed.

Lemma executions_app arn clock t xs ys :
  executions arn clock t (xs ++ ys) =
    executions arn clock t xs ++ executions arn clock (t + length xs) ys.
Proof.
  revert t. induction xs as [|[dt a] xs IH]; intros t; simpl.
  - by rewrite Nat.add_0_r.
  - rewrite IH. do 3 f_equal. lia.
Qed.

(** One turn of the loop on a row that is serialised, the start being
    refused. *)
Lemma dispatch_turn_refused arn dt anomaly after (w : world) e rest :
  serializable dt anomaly = true ->
  faults w = Some e :: rest ->
  dispatch arn ((dt, anomaly) :: after) w =
    (Raise e,
     {| state := after_readings 1 (state w); faults := rest;
        calls := calls w ++
                 [StartExecution arn
                    (input_for anomaly (clock (state w) (ticks (state w))))] |}).
Proof.
  intros Hser Hf. cbn [dispatch]. unfold bind at 1. unfold timestamp_now at 1.
  cbv beta iota. unfold bind at 1. unfold lift at 1, json_dumps at 1. rewrite Hser.
  cbv beta iota. unfold bind at 1. unfold start_execution.
  erewrite aws_fault by exact Hf. reflexivity.
Qed.

(** One turn of the loop on a row that [json.dumps] refuses: the clock
    has been read, nothing is started. *)
Lemma dispatch_turn_unserializable arn dt anomaly after (w : world) :
  serializable dt anomaly = false ->
  dispatch arn ((dt, anomaly) :: after) w =
    (Raise (PyError "TypeError" "Object of type int64 is not JSON serializable"),
     {| state := after_readings 1 (state w); faults := faults w; calls := calls w |}).
Proof.
  intros Hser. cbn [dispatch]. unfold bind at 1. unfold timestamp_now at 1.
  cbv beta iota. unfold bind at 1. unfold lift at 1, json_dumps at 1. rewrite Hser.
  reflexivity.
Qed.

(** A start that fails ends the loop.  The rows before it having been
    serialised and started, and the row itself serialised, the
    executions started before stay started, the failed start is the last
    call, no later row is dispatched, and the error of the start leaves
    the loop. *)
Theorem dispatch_stops_at_first_failure
    arn before dt anomaly after (w : world) e rest :
  Forall (fun da => serializable da.1 da.2 = true) before ->
  serializable dt anomaly = true ->
  faults w = replicate (length before) None ++ Some e :: rest ->
  dispatch arn (before ++ (dt, anomaly) :: after) w =
    (Raise e,
     {| state := after_readings (S (length before)) (state w); faults := rest;
        calls := calls w ++
                 executions arn (clock (state w)) (ticks (state w))
                   (before ++ [(dt, anomaly)]) |}).
Proof.
  intros Hbefore Hrow Hfaults.
  rewrite (dispatch_started arn before _ w (Some e :: rest)) by done.
  erewrite (dispatch_turn_refused arn dt anomaly after _ e rest Hrow) by reflexivity.
  cbn [state calls faults]. rewrite after_readings_add, Nat.add_1_r.
  rewrite executions_app, <- app_assoc. reflexivity.
Qed.

Lemma dispatch_stops_at_first_failure_witness :
  Forall (fun da => serializable da.1 da.2 = true)
         [(float64, [("is_anomaly", CFloat (QArith_base.Qmake 1 1))])]
  /\ serializable float64 [("is_anomaly", CFloat (QArith_base.Qmake 1 1))] = true
  /\ faults (Scenarios.with_features [None; Some Scenarios.throttled; None]) =
       replicate (length [(float64, [("is_anomaly", CFloat (QArith_base.Qmake 1 1))])]) None
       ++ Some Scenarios.throttled :: [None]
  /\ (dispatch "arn"
        ([(float64, [("is_anomaly", CFloat (QArith_base.Qmake 1 1))])]
         ++ (float64, [("is_anomaly", CFloat (QArith_base.Qmake 1 1))]) :: [(object, [])])
        (Scenarios.with_features [None; Some Scenarios.throttled; None])).1
     = Raise Scenarios.throttled
  /\ length (calls (dispatch "arn"
                      ([(float64, [("is_anomaly", CFloat (QArith_base.Qmake 1 1))])]
                       ++ (float64, [("is_anomaly", CFloat (QArith_base.Qmake 1 1))])
                          :: [(object, [])])
                      (Scenarios.with_features [None; Some Scenarios.throttled; None])).2)
     = 2%nat.
Proof.
  assert (Forall (fun da => serializable da.1 da.2 = true)
                 [(float64, [("is_anomaly", CFloat (QArith_base.Qmake 1 1))])]) as Hbefore
    by (repeat constructor).
  split; [exact Hbefore|]. split; [reflexivity|]. split; [reflexivity|].
  pose proof (dispatch_stops_at_first_failure "arn"
                [(float64, [("is_anomaly", CFloat (QArith_base.Qmake 1 1))])]
                float64 [("is_anomaly", CFloat (QArith_base.Qmake 1 1))] [(object, [])]
                (Scenarios.with_features [None; Some Scenarios.throttled; None])
                Scenarios.throttled [None] Hbefore eq_refl eq_refl) as Hstop.
  split.
  - exact (f_equal fst Hstop).
  - exact (f_equal (fun r => length (calls r.2)) Hstop).
Defined.

Lemma fetch_served g bucket (w : world) keys df :
  io_bound g = true ->
  hd None (faults w) = None ->
  objects (state w) !! bucket = Some keys ->
  keys !! latest_data_key = Some (Parquet df) ->
  fetch_latest_features g bucket w =
    (Ok (inr df), {| state := state w; faults := tail (faults w);
                     calls := calls w ++ [S3GetObject bucket latest_data_key] |}).
Proof.
  intros Hio Hf Hbucket Hkey.
  unfold fetch_latest_features, try_except_ClientError, bind, s3_get_object.
  rewrite aws_served by done. simpl. rewrite Hbucket, Hkey. simpl.
  unfold lift, read_parquet. rewrite Hio. reflexivity.
Qed.

Lemma invoke_served name payload (w : world) serve :
  hd None (faults w) = None ->
  endpoints (state w) !! name = Some serve ->
  invoke_endpoint name payload w =
    (Ok (serve payload),
     {| state := state w; faults := tail (faults w);
        calls := calls w ++ [InvokeEndpoint name "application/json" "application/json" payload] |}).
Proof.
  intros Hf Hserve. unfold invoke_endpoint. rewrite aws_served by done.
  simpl. by rewrite Hserve.
Qed.

(** The cycle up to the reply of the endpoint, without faults. *)
Lemma cycle_reaches_the_reply g (w : world) keys df serve payload rs :
  io_bound g = true ->
  faults w = [] ->
  objects (state w) !! default "" (PROCESSED_DATA_BUCKET g) = Some keys ->
  keys !! latest_data_key = Some (Parquet df) ->
  endpoints (state w) !! default "" (SAGEMAKER_ENDPOINT_NAME g) = Some serve ->
  to_json (double_precision (state w)) df = Ok payload ->
  serve payload = JsonRecords rs ->
  detection_cycle g w =
    (anomalies <- lift (anomalies_of (from_records rs)) ;;
     dispatch (default "" (STEP_FUNCTION_ARN g)) (iterrows anomalies) ;;;
     ret {| statusCode := 200; body := [Lit "Anomaly detection process completed."] |})
      {| state := state w; faults := [];
         calls := calls w
                  ++ [S3GetObject (default "" (PROCESSED_DATA_BUCKET g)) latest_data_key;
                      InvokeEndpoint (default "" (SAGEMAKER_ENDPOINT_NAME g))
                        "application/json" "application/json" payload] |}.
Proof.
  intros Hio Hfaults Hbucket Hkey Hserve Hpayload Hreply.
  unfold detection_cycle. unfold bind at 1.
  rewrite (fetch_served g _ w keys df) by (done || by rewrite Hfaults).
  unfold bind at 1. unfold inference_payload_of at 1. cbv beta iota. cbn [state].
  rewrite Hpayload. unfold bind at 1.
  rewrite (invoke_served _ _ _ serve) by (simpl; done || by rewrite Hfaults).
  rewrite Hreply. unfold bind at 1. unfold lift at 1. cbn [json_loads]. cbv beta iota.
  cbn [state faults calls]. rewrite Hfaults. cbn [tail]. by rewrite <- app_assoc.
Qed.

(** A cycle without faults.  The endpoint is invoked once with the
    features as [to_json] writes them.  The reply is a list of JSON
    objects whose integers fit [int64]; the anomalies are its rows whose
    [is_anomaly] is 1, and [json.dumps] takes the input of each.  Then
    one execution is started for each of those rows, in the order of the
    reply, with the row as [iterrows] yields it (its integers upcast to
    floats when a column of the reply holds floats) and the clock read
    once per row; no execution is started for another row, nothing is
    published, and the answer is 200. *)
Theorem flagged_rows_are_dispatched
    g context (w : world) keys df serve payload rs anomalies :
  configured g = true ->
  io_bound g = true ->
  faults w = [] ->
  objects (state w) !! default "" (PROCESSED_DATA_BUCKET g) = Some keys ->
  keys !! latest_data_key = Some (Parquet df) ->
  endpoints (state w) !! default "" (SAGEMAKER_ENDPOINT_NAME g) = Some serve ->
  to_json (double_precision (state w)) df = Ok payload ->
  serve payload = JsonRecords rs ->
  Forall (fun r => NoDup r.*1 /\ Forall (fun kv => fits_int64 kv.2 = true) r) rs ->
  anomalies_of (from_records rs) = Ok anomalies ->
  Forall (fun da => serializable da.1 da.2 = true) (iterrows anomalies) ->
  rows anomalies =
    List.filter (fun row => is_one (default CNull
                                       (field "is_anomaly" (zip (names (from_records rs)) row))))
                (rows (from_records rs))
  /\ lambda_handler g context w =
       (Ok {| statusCode := 200; body := [Lit "Anomaly detection process completed."] |},
        {| state := after_readings (length (rows anomalies)) (state w); faults := [];
           calls := calls w
                    ++ [S3GetObject (default "" (PROCESSED_DATA_BUCKET g)) latest_data_key;
                        InvokeEndpoint (default "" (SAGEMAKER_ENDPOINT_NAME g))
                          "application/json" "application/json" payload]
                    ++ executions (default "" (STEP_FUNCTION_ARN g))
                         (clock (state w)) (ticks (state w)) (iterrows anomalies) |}).
Proof.
  intros Hcfg Hio Hfaults Hbucket Hkey Hserve Hpayload Hreply _ Hanomalies Hser. split.
  { unfold anomalies_of in Hanomalies.
    destruct (bool_decide ("is_anomaly" ∈ names (from_records rs))); [|done].
    by injection Hanomalies as <-. }
  unfold lambda_handler. rewrite Hcfg. cbn [negb]. unfold try_except.
  rewrite (cycle_reaches_the_reply g w keys df serve payload rs) by done.
  unfold bind at 1. unfold lift at 1. rewrite Hanomalies. cbv beta iota.
  unfold bind at 1. rewrite dispatch_quiet by done.
  cbn [state faults calls]. unfold ret.
  replace (length (iterrows anomalies)) with (length (rows anomalies))
    by (unfold iterrows; by rewrite length_map).
  by rewrite <- !app_assoc.
Qed.

Lemma flagged_rows_are_dispatched_witness :
  exists payload rs anomalies,
    configured Scenarios.globals_with_io = true
    /\ io_bound Scenarios.globals_with_io = true
    /\ faults (Scenarios.served_by Scenarios.flag_costly) = []
    /\ objects (state (Scenarios.served_by Scenarios.flag_costly))
         !! default "" (PROCESSED_DATA_BUCKET Scenarios.globals_with_io)
       = Some {[ latest_data_key := Parquet Scenarios.latest_features ]}
    /\ ({[ latest_data_key := Parquet Scenarios.latest_features ]} : gmap string s3_object)
         !! latest_data_key = Some (Parquet Scenarios.latest_features)
    /\ endpoints (state (Scenarios.served_by Scenarios.flag_costly))
         !! default "" (SAGEMAKER_ENDPOINT_NAME Scenarios.globals_with_io)
       = Some Scenarios.flag_costly
    /\ to_json (double_precision (state (Scenarios.served_by Scenarios.flag_costly)))
         Scenarios.latest_features = Ok payload
    /\ Scenarios.flag_costly payload = JsonRecords rs
    /\ Forall (fun r => NoDup r.*1 /\ Forall (fun kv => fits_int64 kv.2 = true) r) rs
    /\ anomalies_of (from_records rs) = Ok anomalies
    /\ Forall (fun da => serializable da.1 da.2 = true) (iterrows anomalies)
    /\ (lambda_handler Scenarios.globals_with_io Scenarios.trigger_context
          (Scenarios.served_by Scenarios.flag_costly)).1 =
       Ok {| statusCode := 200; body := [Lit "Anomaly detection process completed."] |}
    /\ length (calls (lambda_handler Scenarios.globals_with_io Scenarios.trigger_context
                        (Scenarios.served_by Scenarios.flag_costly)).2) = 3%nat.
Proof.
  eexists _, _, _.
  match goal with
  | |- ?c /\ ?i /\ ?f /\ ?b /\ ?k /\ ?e /\ ?p /\ ?r /\ _ =>
      assert c as Hc by reflexivity; assert i as Hi by reflexivity;
      assert f as Hf by reflexivity; assert b as Hb by reflexivity;
      assert k as Hk by reflexivity; assert e as He by reflexivity;
      assert p as Hp by (vm_compute; reflexivity);
      assert r as Hr by (vm_compute; reflexivity)
  end.
  do 8 (split; [assumption|]).
  match goal with
  | |- ?n /\ ?a /\ ?s /\ _ =>
      assert n as Hn
        by (repeat constructor; apply (bool_decide_unpack _); vm_compute; exact I);
      assert a as Ha by (vm_compute; reflexivity);
      assert s as Hs by (repeat constructor)
  end.
  do 3 (split; [assumption|]).
  destruct (flagged_rows_are_dispatched Scenarios.globals_with_io Scenarios.trigger_context
              _ _ _ _ _ _ _ Hc Hi Hf Hb Hk He Hp Hr Hn Ha Hs) as [_ Hrun].
  rewrite Hrun. split; reflexivity.
Defined.

(** A reply of integers only.  When the first flagged row of the reply
    is a row of integers that has one of the columns the loop reads with
    [anomaly.get] (a reply [[{"is_anomaly": 1, "anomaly_score": 0}]] is
    one), [json.dumps] raises [TypeError] on its input: no execution is
    started, the alert is published and the answer is 500. *)
Theorem integer_reply_is_not_dispatched
    g context (w : world) keys df serve payload rs anomalies dt anomaly more :
  configured g = true ->
  io_bound g = true ->
  faults w = [] ->
  objects (state w) !! default "" (PROCESSED_DATA_BUCKET g) = Some keys ->
  keys !! latest_data_key = Some (Parquet df) ->
  endpoints (state w) !! default "" (SAGEMAKER_ENDPOINT_NAME g) = Some serve ->
  to_json (double_precision (state w)) df = Ok payload ->
  serve payload = JsonRecords rs ->
  Forall (fun r => NoDup r.*1 /\ Forall (fun kv => fits_int64 kv.2 = true) r) rs ->
  anomalies_of (from_records rs) = Ok anomalies ->
  iterrows anomalies = (dt, anomaly) :: more ->
  serializable dt anomaly = false ->
  exists alert,
    lambda_handler g context w =
      (Ok {| statusCode := 500;
             body := [Lit "Internal Server Error: ";
                      FmtExn (PyError "TypeError"
                                "Object of type int64 is not JSON serializable")] |},
       {| state := after_readings 1 (state w); faults := [];
          calls := calls w
                   ++ [S3GetObject (default "" (PROCESSED_DATA_BUCKET g)) latest_data_key;
                       InvokeEndpoint (default "" (SAGEMAKER_ENDPOINT_NAME g))
                         "application/json" "application/json" payload;
                       SnsPublish (default "" (SNS_ANOMALY_TOPIC_ARN g))
                         (failure_subject context) alert] |}).
Proof.
  intros Hcfg Hio Hfaults Hbucket Hkey Hserve Hpayload Hreply _ Hanomalies Hrows Hser.
  unfold lambda_handler. rewrite Hcfg. cbn [negb]. unfold try_except.
  rewrite (cycle_reaches_the_reply g w keys df serve payload rs) by done.
  unfold bind at 1. unfold lift at 1. rewrite Hanomalies. cbv beta iota.
  unfold bind at 1. rewrite Hrows, dispatch_turn_unserializable by done.
  cbv beta iota. unfold on_error, bind, sns_publish.
  rewrite aws_served by reflexivity.
  cbn [state faults calls fst snd tail]. eexists. by rewrite <- !app_assoc.
Qed.

Lemma integer_reply_is_not_dispatched_witness :
  exists payload rs anomalies dt anomaly more,
    configured Scenarios.globals_with_io = true
    /\ io_bound Scenarios.globals_with_io = true
    /\ faults (Scenarios.served_by Scenarios.integer_reply) = []
    /\ objects (state (Scenarios.served_by Scenarios.integer_reply))
         !! default "" (PROCESSED_DATA_BUCKET Scenarios.globals_with_io)
       = Some {[ latest_data_key := Parquet Scenarios.latest_features ]}
    /\ ({[ latest_data_key := Parquet Scenarios.latest_features ]} : gmap string s3_object)
         !! latest_data_key = Some (Parquet Scenarios.latest_features)
    /\ endpoints (state (Scenarios.served_by Scenarios.integer_reply))
         !! default "" (SAGEMAKER_ENDPOINT_NAME Scenarios.globals_with_io)
       = Some Scenarios.integer_reply
    /\ to_json (double_precision (state (Scenarios.served_by Scenarios.integer_reply)))
         Scenarios.latest_features = Ok payload
    /\ Scenarios.integer_reply payload = JsonRecords rs
    /\ Forall (fun r => NoDup r.*1 /\ Forall (fun kv => fits_int64 kv.2 = true) r) rs
    /\ anomalies_of (from_records rs) = Ok anomalies
    /\ iterrows anomalies = (dt, anomaly) :: more
    /\ serializable dt anomaly = false
    /\ (lambda_handler Scenarios.globals_with_io Scenarios.trigger_context
          (Scenarios.served_by Scenarios.integer_reply)).1 =
       Ok {| statusCode := 500;
             body := [Lit "Internal Server Error: ";
                      FmtExn (PyError "TypeError"
                                "Object of type int64 is not JSON serializable")] |}
    /\ length (calls (lambda_handler Scenarios.globals_with_io Scenarios.trigger_context
                        (Scenarios.served_by Scenarios.integer_reply)).2) = 3%nat.
Proof.
  eexists _, _, _, _, _, _.
  match goal with
  | |- ?c /\ ?i /\ ?f /\ ?b /\ ?k /\ ?e /\ ?p /\ ?r /\ _ =>
      assert c as Hc by reflexivity; assert i as Hi by reflexivity;
      assert f as Hf by reflexivity; assert b as Hb by reflexivity;
      assert k as Hk by reflexivity; assert e as He by reflexivity;
      assert p as Hp by (vm_compute; reflexivity);
      assert r as Hr by reflexivity
  end.
  do 8 (split; [assumption|]).
  match goal with
  | |- ?n /\ ?a /\ ?s /\ ?u /\ _ =>
      assert n as Hn
        by (repeat constructor; apply (bool_decide_unpack _); vm_compute; exact I);
      assert a as Ha by (vm_compute; reflexivity);
      assert s as Hs by (vm_compute; reflexivity);
      assert u as Hu by reflexivity
  end.
  do 4 (split; [assumption|]).
  destruct (integer_reply_is_not_dispatched Scenarios.globals_with_io
              Scenarios.trigger_context _ _ _ _ _ _ _ _ _ _
              Hc Hi Hf Hb Hk He Hp Hr Hn Ha Hs Hu) as (alert & Hrun).
  rewrite Hrun. split; reflexivity.
Defined.

(** A reply without an [is_anomaly] column, the empty reply [[]] among
    them, is an error and not "no anomalies": after the fetch and the
    invocation the cycle raises [KeyError], no execution is started, the
    alert is published and the answer is 500. *)
Theorem reply_without_flag_fails g context (w : world) keys df serve payload rs :
  configured g = true ->
  io_bound g = true ->
  faults w = [] ->
  objects (state w) !! default "" (PROCESSED_DATA_BUCKET g) = Some keys ->
  keys !! latest_data_key = Some (Parquet df) ->
  endpoints (state w) !! default "" (SAGEMAKER_ENDPOINT_NAME g) = Some serve ->
  to_json (double_precision (state w)) df = Ok payload ->
  serve payload = JsonRecords rs ->
  "is_anomaly" ∉ names (from_records rs) ->
  exists alert,
    lambda_handler g context w =
      (Ok {| statusCode := 500;
             body := [Lit "Internal Server Error: "; FmtExn (KeyError "'is_anomaly'")] |},
       {| state := state w; faults := [];
          calls := calls w
                   ++ [S3GetObject (default "" (PROCESSED_DATA_BUCKET g)) latest_data_key;
                       InvokeEndpoint (default "" (SAGEMAKER_ENDPOINT_NAME g))
                         "application/json" "application/json" payload;
                       SnsPublish (default "" (SNS_ANOMALY_TOPIC_ARN g))
                         (failure_subject context) alert] |}).
Proof.
  intros Hcfg Hio Hfaults Hbucket Hkey Hserve Hpayload Hreply Hcolumn.
  unfold lambda_handler. rewrite Hcfg. cbn [negb]. unfold try_except.
  rewrite (cycle_reaches_the_reply g w keys df serve payload rs) by done.
  unfold bind at 1. unfold lift at 1. unfold anomalies_of.
  rewrite bool_decide_eq_false_2 by done.
  unfold on_error, KeyError, bind, sns_publish.
  rewrite aws_served by reflexivity.
  cbn [state faults calls fst snd tail]. eexists. by rewrite <- !app_assoc.
Qed.

Lemma reply_without_flag_fails_witness :
  exists w,
    w = {| state := {| objects :=
                         {[ "egress-processed" :=
                              {[ latest_data_key := Parquet Scenarios.latest_features ]} ]};
                       endpoints :=
                         {[ "egress-anomaly-endpoint" :=
                              fun _ : list record => JsonRecords [] ]};
                       double_precision := Scenarios.ten_decimals;
                       clock := fun _ => "2024-05-01 00:00:00";
                       ticks := 0 |};
           faults := []; calls := [] |}
    /\ configured Scenarios.globals_with_io = true
    /\ io_bound Scenarios.globals_with_io = true
    /\ faults w = []
    /\ objects (state w) !! default "" (PROCESSED_DATA_BUCKET Scenarios.globals_with_io)
       = Some {[ latest_data_key := Parquet Scenarios.latest_features ]}
    /\ ({[ latest_data_key := Parquet Scenarios.latest_features ]} : gmap string s3_object)
         !! latest_data_key = Some (Parquet Scenarios.latest_features)
    /\ endpoints (state w) !! default "" (SAGEMAKER_ENDPOINT_NAME Scenarios.globals_with_io)
       = Some (fun _ : list record => JsonRecords [])
    /\ (exists payload,
          to_json (double_precision (state w)) Scenarios.latest_features = Ok payload)
    /\ ("is_anomaly" ∉ names (from_records []))
    /\ (lambda_handler Scenarios.globals_with_io Scenarios.trigger_context w).1 =
       Ok {| statusCode := 500;
             body := [Lit "Internal Server Error: "; FmtExn (KeyError "'is_anomaly'")] |}.
Proof.
  eexists. split; [reflexivity|].
  assert ("is_anomaly" ∉ names (from_records [])) as Hcol by apply not_elem_of_nil.
  match goal with
  | |- ?c /\ ?i /\ ?f /\ ?b /\ ?k /\ ?e /\ ?p /\ _ =>
      assert c as Hc by reflexivity; assert i as Hi by reflexivity;
      assert f as Hf by reflexivity; assert b as Hb by reflexivity;
      assert k as Hk by reflexivity; assert e as He by reflexivity;
      assert p as Hp by (eexists; vm_compute; reflexivity)
  end.
  do 7 (split; [assumption|]). split; [exact Hcol|].
  destruct Hp as [payload Hp].
  destruct (reply_without_flag_fails Scenarios.globals_with_io Scenarios.trigger_context
              _ _ _ _ payload [] Hc Hi Hf Hb Hk He Hp eq_refl Hcol)
    as (alert & ->).
  reflexivity.
Defined.

(** The module as it is in the repository, without [import io]: whenever
    the latest features are fetched, the cycle fails with [NameError]
    before the endpoint is invoked; with the sink accepting, the handler
    publishes the alert and answers 500. *)
Theorem fetched_features_answer_500 g context (w w1 : world) obj :
  configured g = true ->
  io_bound g = false ->
  s3_get_object (default "" (PROCESSED_DATA_BUCKET g)) latest_data_key w = (Ok obj, w1) ->
  hd None (faults w1) = None ->
  exists alert,
    lambda_handler g context w =
      (Ok {| statusCode := 500;
             body := [Lit "Internal Server Error: ";
                      FmtExn (NameError "name 'io' is not defined")] |},
       {| state := state w1; faults := tail (faults w1);
          calls := calls w
                   ++ [S3GetObject (default "" (PROCESSED_DATA_BUCKET g)) latest_data_key;
                       SnsPublish (default "" (SNS_ANOMALY_TOPIC_ARN g))
                         (failure_subject context) alert] |}).
Proof.
  intros Hcfg Hio Hget Hsink. unfold lambda_handler. rewrite Hcfg. simpl.
  unfold try_except.
  rewrite (TriggerFacts.fetched_features_hit_NameError g w w1 obj Hio Hget).
  unfold on_error, NameError, bind, sns_publish. rewrite aws_served by done.
  unfold s3_get_object in Hget. apply aws_ok in Hget as (_ & _ & _ & ->).
  simpl. eexists. by rewrite <- app_assoc.
Qed.

Lemma fetched_features_answer_500_witness :
  configured Scenarios.source_globals = true
  /\ io_bound Scenarios.source_globals = false
  /\ s3_get_object (default "" (PROCESSED_DATA_BUCKET Scenarios.source_globals))
       latest_data_key (Scenarios.with_features []) =
       (Ok (Parquet Scenarios.latest_features),
        (s3_get_object (default "" (PROCESSED_DATA_BUCKET Scenarios.source_globals))
           latest_data_key (Scenarios.with_features [])).2)
  /\ (lambda_handler Scenarios.source_globals Scenarios.trigger_context
        (Scenarios.with_features [])).1 =
     Ok {| statusCode := 500;
           body := [Lit "Internal Server Error: ";
                    FmtExn (NameError "name 'io' is not defined")] |}.
Proof.
  assert (s3_get_object (default "" (PROCESSED_DATA_BUCKET Scenarios.source_globals))
            latest_data_key (Scenarios.with_features []) =
          (Ok (Parquet Scenarios.latest_features),
           (s3_get_object (default "" (PROCESSED_DATA_BUCKET Scenarios.source_globals))
              latest_data_key (Scenarios.with_features [])).2)) as Hget
    by (vm_compute; reflexivity).
  split; [reflexivity|]. split; [reflexivity|]. split; [exact Hget|].
  destruct (fetched_features_answer_500 Scenarios.source_globals Scenarios.trigger_context
              (Scenarios.with_features []) _ _ eq_refl eq_refl Hget eq_refl)
    as (alert & ->).
  reflexivity.
Defined.

End TriggerPaths.

(** ** Bedrock analyzer: what an answer tells *)
Module AnalyzerOutcomes.
Import Analyzer.

Lemma load_prompt_template_calls bucket key (w : world) :
  calls (load_prompt_template bucket key w).2 = calls w ++ [S3GetObject bucket key].
Proof.
  unfold load_prompt_template, try_except, s3_get_object, raise.
  pose proof (aws_calls (S3GetObject bucket key)
                (fun sv =>
                   match templates sv !! bucket ≫= (fun keys => keys !! key) with
                   | Some template => (Ok template, sv)
                   | None => (Raise (ClientError "NoSuchKey"
                                       "The specified key does not exist."), sv)
                   end) w) as Hcalls.
  destruct (aws _ _ w) as [[template|e] w1]; exact Hcalls.
Qed.

Lemma param_time_frame t (w : world) : (param_time t w).2 = w.
Proof.
  unfold param_time. destruct t as [v|seconds]; [|done].
  by destruct (timestamp_param (state w) v).
Qed.

Lemma config_evidence_calls resource_id anomaly_details (w : world) :
  exists cs,
    calls (config_evidence resource_id anomaly_details w).2 = calls w ++ cs
    /\ Forall (fun c => exists rid later, c = GetResourceConfigHistory rid later) cs.
Proof.
  unfold config_evidence, try_except_ClientError, bind, lift, ret.
  destruct (details_get anomaly_details "timestamp") as [ts|e];
    [|destruct e; exists []; simpl; by rewrite app_nil_r].
  destruct (param_str resource_id) as [rid|e];
    [|destruct e; exists []; simpl; by rewrite app_nil_r].
  pose proof (param_time_frame match ts with
                               | Some v => Given v
                               | None => At (now (state w) - day)
                               end w) as Hframe.
  destruct (param_time _ w) as [[later|e] w0]; simpl in Hframe; subst w0;
    [|destruct e; exists []; simpl; by rewrite app_nil_r].
  unfold get_resource_config_history.
  match goal with |- context [aws ?c ?svc ?w0] =>
    pose proof (aws_calls c svc w0) as Hcalls; destruct (aws c svc w0) as [[items|e] w1]
  end; simpl in *.
  - destruct (traverse config_line items) as [lines|[code message|cls detail]]; simpl;
      (eexists; split; [exact Hcalls|]; repeat constructor; eauto).
  - destruct e; simpl; (eexists; split; [exact Hcalls|]; repeat constructor; eauto).
Qed.

(** A resource id with fewer than seven parts between slashes (every
    S3 and security-group ARN, and ['unknown']) never reaches the
    model: whatever the services hold and whichever calls fail, the
    handler calls S3 for the template and AWS Config, publishes nothing
    but the failure alert, and if it returns, it answers 500. *)
Theorem short_id_never_reaches_the_model g (event : gmap string pyval) id (w : world) :
  configured g = true ->
  event !! "resourceId" = Some (PyStr id) ->
  (length (split "/" id) <= 6)%nat ->
  (exists cs,
      calls (lambda_handler g event w).2 = calls w ++ cs
      /\ Forall (fun c =>
                   match c with
                   | S3GetObject _ _ | GetResourceConfigHistory _ _ => True
                   | SnsPublish _ subject _ => subject = failure_subject (PyStr id)
                   | _ => False
                   end) cs)
  /\ (forall resp w', lambda_handler g event w = (Ok resp, w') -> statusCode resp = 500).
Proof.
  intros Hcfg Hid Hshort. split; [|intros resp w'; by apply AnalyzerFacts.short_id_never_enriched with id].
  assert (exists e w1 cs,
             analysis g event w = (Raise e, w1)
             /\ calls w1 = calls w ++ cs
             /\ Forall (fun c =>
                          match c with
                          | S3GetObject _ _ | GetResourceConfigHistory _ _ => True
                          | SnsPublish _ subject _ => subject = failure_subject (PyStr id)
                          | _ => False
                          end) cs) as (e & w1 & cs & Hrun & Hcalls & Hcs).
  { unfold analysis, dict_get_default. rewrite Hid. simpl. unfold bind at 1.
    pose proof (load_prompt_template_calls (default "" (PROCESSED_DATA_BUCKET g))
                  PROMPT_TEMPLATE_KEY w) as Hload.
    destruct (load_prompt_template _ _ w) as [[[|piece template]|e] w1]; simpl in Hload.
    - do 3 eexists. split; [reflexivity|]. split; [exact Hload|]. by repeat constructor.
    - unfold get_contextual_data. unfold bind at 1. unfold bind at 1.
      destruct (config_evidence_calls (PyStr id)
                  (match event !! "details" with Some v => v | None => PyDict [] end) w1)
        as (cs & Hconfig & Hcs).
      destruct (config_evidence _ _ w1) as [[lines|e] w2]; simpl in Hconfig.
      + unfold bind at 1. rewrite AnalyzerFacts.trail_evidence_short_id by done.
        do 3 eexists. split; [reflexivity|]. split.
        * rewrite Hconfig, Hload, <- app_assoc. reflexivity.
        * constructor; [done|]. eapply Forall_impl; [exact Hcs|].
          by intros c (rid & later & ->).
      + do 3 eexists. split; [reflexivity|]. split.
        * rewrite Hconfig, Hload, <- app_assoc. reflexivity.
        * constructor; [done|]. eapply Forall_impl; [exact Hcs|].
          by intros c (rid & later & ->).
    - do 3 eexists. split; [reflexivity|]. split; [exact Hload|]. by repeat constructor. }
  unfold lambda_handler. rewrite Hcfg. simpl. unfold try_except at 1. rewrite Hrun.
  unfold dict_get_default. rewrite Hid. unfold bind, publish_enriched_alert, try_except.
  unfold sns_publish.
  match goal with |- context [aws ?c ?svc w1] =>
    pose proof (aws_calls c svc w1) as Hpub; destruct (aws c svc w1) as [[[]|e'] w2]
  end; simpl in *.
  - exists (cs ++ [SnsPublish (default "" (SNS_ANOMALY_TOPIC_ARN g))
                     (failure_subject (PyStr id)) (failure_message event e)]).
    split.
    + unfold ret. simpl. rewrite Hpub, Hcalls, <- app_assoc.
      unfold failure_message, dict_get_default. by rewrite Hid.
    + apply Forall_app. split; [done|]. by repeat constructor.
  - exists (cs ++ [SnsPublish (default "" (SNS_ANOMALY_TOPIC_ARN g))
                     (failure_subject (PyStr id)) (failure_message event e)]).
    split.
    + unfold raise. simpl. rewrite Hpub, Hcalls, <- app_assoc.
      unfold failure_message, dict_get_default. by rewrite Hid.
    + apply Forall_app. split; [done|]. by repeat constructor.
Qed.

Lemma short_id_never_reaches_the_model_witness :
  configured Scenarios.analyzer_globals = true
  /\ Scenarios.instance_event !! "resourceId" =
       Some (PyStr "arn:aws:ec2:eu-west-1:111122223333:instance/i-0abc")
  /\ (length (split "/" "arn:aws:ec2:eu-west-1:111122223333:instance/i-0abc") <= 6)%nat
  /\ forall resp w',
       lambda_handler Scenarios.analyzer_globals Scenarios.instance_event
         Scenarios.no_evidence = (Ok resp, w') ->
       statusCode resp = 500.
Proof.
  assert ((length (split "/" "arn:aws:ec2:eu-west-1:111122223333:instance/i-0abc") <= 6)%nat)
    as Hshort by (vm_compute; lia).
  split; [reflexivity|]. split; [reflexivity|]. split; [exact Hshort|].
  exact (proj2 (short_id_never_reaches_the_model Scenarios.analyzer_globals
                  Scenarios.instance_event
                  "arn:aws:ec2:eu-west-1:111122223333:instance/i-0abc"
                  Scenarios.no_evidence eq_refl eq_refl Hshort)).
Defined.

(** What an answer 200 tells.  The model was invoked with the prompt in
    its Human/Assistant frame and gave a completion; that completion is
    [llm_analysis]; and the last call is the publication of the enriched
    alert that carries it, preceded by the invocation. *)
Theorem answer_200_carries_the_completion g (event : gmap string pyval) (w w' : world) resp :
  lambda_handler g event w = (Ok resp, w') ->
  statusCode resp = 200 ->
  exists generate prompt text before,
    models (state w') !! default "" (BEDROCK_MODEL_ID g) = Some generate
    /\ generate ([Lit (nl +:+ nl +:+ "Human: ")] ++ prompt ++ [Lit (nl +:+ nl +:+ "Assistant:")])
       = Some text
    /\ llm_analysis resp = Some text
    /\ calls w' =
         before ++
         [InvokeModel (default "" (BEDROCK_MODEL_ID g))
            ([Lit (nl +:+ nl +:+ "Human: ")] ++ prompt ++ [Lit (nl +:+ nl +:+ "Assistant:")]);
          SnsPublish (default "" (SNS_ANOMALY_TOPIC_ARN g))
            (alert_subject (dict_get_default event "anomalyType" (PyStr "EgressCostSpike"))
                           (dict_get_default event "resourceId" (PyStr "N/A")))
            (alert_message (dict_get_default event "anomalyType" (PyStr "EgressCostSpike"))
                           (dict_get_default event "resourceId" (PyStr "N/A"))
                           (dict_get_default event "costImpact" (PyStr "N/A"))
                           (dict_get_default event "details" (PyDict []))
                           text)].
Proof.
  unfold lambda_handler. destruct (configured g); simpl; [|by intros [= <- _]].
  unfold try_except at 1.
  destruct (analysis g event w) as [[resp0|e] w0] eqn:Hrun.
  2:{ unfold bind. destruct (publish_enriched_alert _ _ _ w0) as [[[]|e'] w1]; [|done].
      by intros [= <- _]. }
  intros [= -> ->] _. revert Hrun. unfold analysis. unfold bind at 1.
  destruct (load_prompt_template _ _ w) as [[[|piece template]|e] w1]; [done| |done].
  unfold bind at 1.
  destruct (get_contextual_data _ _ w1) as [[context_data|e] w2]; [|done].
  unfold bind at 1. unfold lift at 1.
  destruct (format _ _) as [full_prompt|e]; [|done].
  unfold bind at 1. unfold invoke_bedrock_llm, try_except at 1.
  destruct (invoke_model _ _ w2) as [[completion|e] w3] eqn:Hinvoke; [|done].
  destruct completion as [text|]; [|done].
  unfold bind at 1. unfold publish_enriched_alert, try_except at 1.
  destruct (sns_publish _ _ _ w3) as [[[]|e] w4] eqn:Hpublish; [|done].
  intros [= <- <-].
  unfold invoke_model in Hinvoke. apply aws_ok in Hinvoke as (_ & Hmodel & _ & Hcalls3).
  unfold sns_publish in Hpublish. apply aws_ok in Hpublish as (_ & Hstate & _ & Hcalls4).
  injection Hstate as Hstate.
  destruct (models (state w2) !! default "" (BEDROCK_MODEL_ID g)) as [generate|] eqn:Hlookup;
    [|done].
  injection Hmodel as Htext Hstate3.
  exists generate, full_prompt, text, (calls w2).
  split; [by rewrite <- Hstate, <- Hstate3|]. split; [done|]. split; [done|].
  simpl in *. by rewrite Hcalls4, Hcalls3, <- app_assoc.
Qed.

Lemma answer_200_carries_the_completion_witness :
  lambda_handler Scenarios.analyzer_globals Scenarios.deep_event Scenarios.no_evidence =
    (Ok {| statusCode := 200;
           body := [Lit "Bedrock analysis completed and alert sent."];
           llm_analysis := Some "Likely cause: a public bucket." |},
     (lambda_handler Scenarios.analyzer_globals Scenarios.deep_event Scenarios.no_evidence).2)
  /\ statusCode {| statusCode := 200;
                   body := [Lit "Bedrock analysis completed and alert sent."];
                   llm_analysis := Some "Likely cause: a public bucket." |} = 200
  /\ exists before subject message,
       calls (lambda_handler Scenarios.analyzer_globals Scenarios.deep_event
                Scenarios.no_evidence).2
       = before ++ [SnsPublish Scenarios.topic_arn subject message].
Proof.
  assert (lambda_handler Scenarios.analyzer_globals Scenarios.deep_event Scenarios.no_evidence =
          (Ok {| statusCode := 200;
                 body := [Lit "Bedrock analysis completed and alert sent."];
                 llm_analysis := Some "Likely cause: a public bucket." |},
           (lambda_handler Scenarios.analyzer_globals Scenarios.deep_event
              Scenarios.no_evidence).2)) as Hrun by (vm_compute; reflexivity).
  split; [exact Hrun|]. split; [reflexivity|].
  destruct (answer_200_carries_the_completion _ _ _ _ _ Hrun eq_refl)
    as (generate & prompt & text & before & _ & _ & _ & Hcalls).
  exists (before ++ [InvokeModel (default "" (BEDROCK_MODEL_ID Scenarios.analyzer_globals))
                       ([Lit (nl +:+ nl +:+ "Human: ")] ++ prompt
                        ++ [Lit (nl +:+ nl +:+ "Assistant:")])]).
  do 2 eexists. rewrite <- app_assoc. exact Hcalls.
Defined.

(** An empty prompt template is a failure of its own: with no call
    failing, the handler reads the template, makes no lookup and no
    invocation, publishes the failure alert and answers 500. *)
Theorem empty_template_stops_the_analysis g (event : gmap string pyval) (w : world) keys :
  configured g = true ->
  faults w = [] ->
  templates (state w) !! default "" (PROCESSED_DATA_BUCKET g) = Some keys ->
  keys !! PROMPT_TEMPLATE_KEY = Some [] ->
  lambda_handler g event w =
    (Ok {| statusCode := 500;
           body := [Lit "Internal Server Error: ";
                    FmtExn (PyError "Exception" "Failed to load Bedrock prompt template.")];
           llm_analysis := None |},
     {| state := state w; faults := [];
        calls := calls w ++
                 [S3GetObject (default "" (PROCESSED_DATA_BUCKET g)) PROMPT_TEMPLATE_KEY;
                  SnsPublish (default "" (SNS_ANOMALY_TOPIC_ARN g))
                    (failure_subject (dict_get_default event "resourceId" (PyStr "N/A")))
                    (failure_message event
                       (PyError "Exception" "Failed to load Bedrock prompt template."))] |}).
Proof.
  intros Hcfg Hfaults Hbucket Hkey. unfold lambda_handler. rewrite Hcfg. simpl.
  unfold try_except at 1. unfold analysis. unfold bind at 1.
  unfold load_prompt_template, try_except at 1. unfold s3_get_object.
  rewrite aws_served by (by rewrite Hfaults). simpl. rewrite Hbucket. simpl. rewrite Hkey.
  simpl. unfold raise, bind, publish_enriched_alert, try_except, sns_publish.
  rewrite aws_served by (simpl; by rewrite Hfaults). simpl. rewrite Hfaults. simpl.
  by rewrite <- app_assoc.
Qed.

Lemma empty_template_stops_the_analysis_witness :
  exists w : world,
    w = {| state := {| templates := {[ "egress-processed" := {[ PROMPT_TEMPLATE_KEY := [] ]} ]};
                       config_history := fun _ => [];
                       trail_events := fun _ _ => [];
                       cost_results := [];
                       models := ∅;
                       parse_timestamp := fun _ => None;
                       timestamp_param := fun _ => true;
                       now := 0 |};
           faults := []; calls := [] |}
    /\ configured Scenarios.analyzer_globals = true
    /\ faults w = []
    /\ templates (state w) !! default "" (PROCESSED_DATA_BUCKET Scenarios.analyzer_globals)
       = Some {[ PROMPT_TEMPLATE_KEY := [] ]}
    /\ ({[ PROMPT_TEMPLATE_KEY := [] ]} : gmap string (list tpiece)) !! PROMPT_TEMPLATE_KEY
       = Some []
    /\ length (calls (lambda_handler Scenarios.analyzer_globals Scenarios.deep_event w).2)
       = 2%nat.
Proof.
  eexists. split; [reflexivity|].
  match goal with
  | |- ?c /\ ?f /\ ?b /\ ?k /\ _ =>
      assert c as Hc by reflexivity; assert f as Hf by reflexivity;
      assert b as Hb by reflexivity; assert k as Hk by reflexivity
  end.
  do 4 (split; [assumption|]).
  rewrite (empty_template_stops_the_analysis Scenarios.analyzer_globals Scenarios.deep_event
             _ _ Hc Hf Hb Hk).
  reflexivity.
Defined.

Lemma anomaly_time_now entries (w : world) :
  details_get (PyDict entries) "timestamp" = Ok None ->
  anomaly_time (PyDict entries) w = (Ok (now (state w)), w).
Proof. intros Hts. unfold anomaly_time, bind, lift. by rewrite Hts. Qed.

Lemma bind_lift_ok {W A B} (a : A) (k : A -> Comp W B) (w : W) :
  bind (lift (Ok a)) k w = k a w.
Proof. reflexivity. Qed.

Lemma bind_run {W A B} (m : Comp W A) (k : A -> Comp W B) (w w' : W) a :
  m w = (Ok a, w') -> bind m k w = k a w'.
Proof. intros H. unfold bind. by rewrite H. Qed.

Lemma traverse_all_ok {A B} (f : A -> result B) xs :
  Forall (fun x => exists y, f x = Ok y) xs -> exists ys, traverse f xs = Ok ys.
Proof.
  induction 1 as [|x xs [y Hy] _ [ys IH]]; simpl; [by eauto|].
  rewrite Hy, IH. simpl. eauto.
Qed.

(** One lookup under faults that are all [ClientError]s, the answer of
    the service being one the lambda can read: the call is logged, the
    step returns or raises a [ClientError], and the services are as
    before. *)
Lemma lookup_step {A} c (service : services -> result A * services)
    (k : A -> result (list string)) (h : list string -> list string) (w : world) :
  (forall sv, (service sv).2 = sv) ->
  (exists a lines, (service (state w)).1 = Ok a /\ k a = Ok lines) ->
  Forall (fun f => forall e, f = Some e -> exists code message, e = ClientError code message)
         (faults w) ->
  exists r w',
    bind (aws c service) (fun x => bind (lift (k x)) (fun lines => ret (h lines))) w = (r, w')
    /\ (forall e, r = Raise e -> exists code message, e = ClientError code message)
    /\ state w' = state w
    /\ Forall (fun f => forall e, f = Some e -> exists code message, e = ClientError code message)
              (faults w')
    /\ calls w' = calls w ++ [c].
Proof.
  intros Hframe (a & lines & Ha & Hlines) Hfaults. unfold bind, ret, lift.
  destruct (aws_cases c service w) as [(e & rest & Hw & ->) | [Hhd ->]].
  - rewrite Hw in Hfaults. apply Forall_cons in Hfaults as [He Hrest].
    do 2 eexists. split; [reflexivity|]. split; [|done].
    intros e' [= <-]. by apply He.
  - specialize (Hframe (state w)). rewrite Ha, Hlines.
    do 2 eexists. split; [reflexivity|]. split; [done|]. split; [done|].
    split; [|done]. simpl.
    destruct (faults w); [done|]. by apply Forall_cons in Hfaults as [_ ?].
Qed.

(** The degradation the lookups are written for.  Let the resource id
    have a seventh part and that part and the last one not be empty, the
    details be a dict without a timestamp, and the services answer what
    the lambda can read: AWS Config nothing for the resource, CloudTrail
    events with a [Username], Cost Explorer results with a total.  Then,
    with no failure other than [ClientError]s, the context is gathered
    whichever of the three lookups fail, and each lookup is made once,
    in order. *)
Theorem deep_id_lookups_degrade id entries resource_type (w : world) :
  split "/" id !! 6%nat = Some resource_type ->
  resource_type <> "" ->
  last_part (split "/" id) <> "" ->
  details_get (PyDict entries) "timestamp" = Ok None ->
  config_history (state w) id = [] ->
  Forall (fun event => Username event <> None)
         (take 5 (trail_events (state w) (last_part (split "/" id)) resource_type)) ->
  Forall (fun entry => blended_cost entry <> None) (cost_results (state w)) ->
  Forall (fun f => forall e, f = Some e -> exists code message, e = ClientError code message)
         (faults w) ->
  exists context w' later start finish from_day to_day,
    get_contextual_data (PyStr id) (PyDict entries) w = (Ok context, w')
    /\ calls w' = calls w ++
                  [GetResourceConfigHistory id (At later);
                   LookupEvents (last_part (split "/" id)) resource_type start finish;
                   GetCostAndUsage from_day to_day].
Proof.
  intros Hsix Htype Hname Hts Hconfig Hevents Hcosts Hfaults.
  assert (id <> "") as Hid by (intros ->; discriminate Hsix).
  unfold get_contextual_data.
  (* AWS Config *)
  assert (exists lines w1,
             config_evidence (PyStr id) (PyDict entries) w = (Ok lines, w1)
             /\ state w1 = state w
             /\ Forall (fun f => forall e, f = Some e ->
                                   exists code message, e = ClientError code message)
                       (faults w1)
             /\ calls w1 = calls w ++ [GetResourceConfigHistory id (At (now (state w) - day))])
    as (lines1 & w1 & Hrun1 & Hstate1 & Hfaults1 & Hcalls1).
  { unfold config_evidence, try_except_ClientError, get_resource_config_history.
    rewrite Hts, bind_lift_ok.
    rewrite (bind_run _ _ w w (At (now (state w) - day))) by reflexivity.
    unfold param_str, param_nonempty.
    destruct (String.eqb_spec id "") as [->|_]; [done|]. rewrite bind_lift_ok.
    rewrite (bind_run _ _ w w (At (now (state w) - day))) by reflexivity.
    match goal with
    | |- context [bind (aws ?c ?svc) (fun x => bind (lift (@?k x)) (fun l => ret (@?h l))) w] =>
        destruct (lookup_step c svc k h w) as (r & w1 & -> & He & Hst & Hf & Hc);
          [done| |done|]
    end.
    { exists [], []. simpl. by rewrite Hconfig. }
    destruct r as [lines|e].
    - by eauto 10.
    - destruct (He e eq_refl) as (code & message & ->). unfold ret. by eauto 10. }
  rewrite (bind_run _ _ _ _ _ Hrun1).
  (* CloudTrail *)
  assert (exists lines w2,
             trail_evidence (PyStr id) (PyDict entries) w1 = (Ok lines, w2)
             /\ state w2 = state w
             /\ Forall (fun f => forall e, f = Some e ->
                                   exists code message, e = ClientError code message)
                       (faults w2)
             /\ calls w2 = calls w1 ++
                           [LookupEvents (last_part (split "/" id)) resource_type
                              (now (state w) - day) (now (state w))])
    as (lines2 & w2 & Hrun2 & Hstate2 & Hfaults2 & Hcalls2).
  { unfold trail_evidence, try_except_ClientError, lookup_events.
    change (split_slash (PyStr id)) with (Ok (split "/" id) : result (list string)).
    rewrite bind_lift_ok. unfold index. rewrite Hsix, bind_lift_ok.
    rewrite (bind_run _ _ _ _ _ (anomaly_time_now entries w1 Hts)).
    rewrite (bind_run _ _ _ _ _ (anomaly_time_now entries w1 Hts)).
    unfold param_nonempty.
    destruct (String.eqb_spec (last_part (split "/" id)) "") as [Hempty|_]; [done|].
    rewrite bind_lift_ok.
    destruct (String.eqb_spec resource_type "") as [Hempty|_]; [done|].
    rewrite bind_lift_ok. rewrite Hstate1.
    match goal with
    | |- context [bind (aws ?c ?svc) (fun x => bind (lift (@?k x)) (fun l => ret (@?h l))) w1] =>
        destruct (lookup_step c svc k h w1) as (r & w2 & -> & He & Hst & Hf & Hc);
          [done| |done|]
    end.
    { destruct (traverse_all_ok trail_line
                  (take 5 (trail_events (state w) (last_part (split "/" id)) resource_type)))
        as [lines Hlines].
      - eapply Forall_impl; [exact Hevents|]. intros event Huser. unfold trail_line.
        simpl in Huser. destruct (Username event); [by eauto | by destruct Huser].
      - eexists _, lines. simpl. rewrite Hstate1. split; [reflexivity | exact Hlines]. }
    rewrite Hstate1 in Hst.
    destruct r as [lines|e].
    - by eauto 10.
    - destruct (He e eq_refl) as (code & message & ->). unfold ret. by eauto 10. }
  rewrite (bind_run _ _ _ _ _ Hrun2).
  (* Cost Explorer *)
  assert (exists lines w3,
             cost_evidence (PyDict entries) w2 = (Ok lines, w3)
             /\ calls w3 = calls w2 ++
                           [GetCostAndUsage (now (state w) - 2 * day) (now (state w) + day)])
    as (lines3 & w3 & Hrun3 & Hcalls3).
  { unfold cost_evidence, try_except_ClientError, get_cost_and_usage.
    change (details_get (PyDict entries) "service_code")
      with (Ok (snd <$> List.find (fun kv => String.eqb kv.1 "service_code") entries)
            : result (option pyval)).
    rewrite bind_lift_ok.
    rewrite (bind_run _ _ _ _ _ (anomaly_time_now entries w2 Hts)).
    rewrite (bind_run _ _ _ _ _ (anomaly_time_now entries w2 Hts)).
    rewrite Hstate2.
    match goal with
    | |- context [bind (aws ?c ?svc) (fun x => bind (lift (@?k x)) (fun l => ret (@?h l))) w2] =>
        destruct (lookup_step c svc k h w2) as (r & w3 & -> & He & Hst & Hf & Hc);
          [done| |done|]
    end.
    { destruct (traverse_all_ok cost_line (cost_results (state w))) as [lines Hlines].
      - eapply Forall_impl; [exact Hcosts|]. intros entry Htotal. unfold cost_line.
        simpl in Htotal.
        destruct (blended_cost entry) as [[amount unit_]|]; [by eauto | by destruct Htotal].
      - eexists _, lines. simpl. rewrite Hstate2. split; [reflexivity | exact Hlines]. }
    destruct r as [lines|e].
    - by eauto 10.
    - destruct (He e eq_refl) as (code & message & ->). unfold ret. by eauto 10. }
  rewrite (bind_run _ _ _ _ _ Hrun3).
  unfold ret. do 7 eexists. split; [reflexivity|].
  rewrite Hcalls3, Hcalls2, Hcalls1, <- !app_assoc. reflexivity.
Qed.

Lemma deep_id_lookups_degrade_witness :
  exists w : world,
    w = {| state := Scenarios.analyzer_services;
           faults := [Some Scenarios.throttled; None; Some Scenarios.throttled];
           calls := [] |}
    /\ split "/" "a/b/c/d/e/f/AWS::EC2::Instance/i-0abc" !! 6%nat = Some "AWS::EC2::Instance"
    /\ "AWS::EC2::Instance" <> ""
    /\ last_part (split "/" "a/b/c/d/e/f/AWS::EC2::Instance/i-0abc") <> ""
    /\ details_get (PyDict []) "timestamp" = Ok None
    /\ Forall (fun f => forall e, f = Some e ->
                          exists code message, e = ClientError code message) (faults w)
    /\ exists context w',
         get_contextual_data (PyStr "a/b/c/d/e/f/AWS::EC2::Instance/i-0abc") (PyDict []) w
         = (Ok context, w')
         /\ length (calls w') = 3%nat.
Proof.
  eexists. split; [reflexivity|].
  assert (split "/" "a/b/c/d/e/f/AWS::EC2::Instance/i-0abc" !! 6%nat
          = Some "AWS::EC2::Instance") as Hsix by (vm_compute; reflexivity).
  assert ("AWS::EC2::Instance" <> "") as Htype by discriminate.
  assert (last_part (split "/" "a/b/c/d/e/f/AWS::EC2::Instance/i-0abc") <> "") as Hname
    by (vm_compute; discriminate).
  assert (Forall (fun f => forall e, f = Some e ->
                             exists code message, e = ClientError code message)
                 [Some Scenarios.throttled; None; Some Scenarios.throttled]) as Hfaults.
  { repeat constructor; intros e [= <-] || intros e [=]; by do 2 eexists. }
  split; [exact Hsix|]. split; [exact Htype|]. split; [exact Hname|].
  split; [reflexivity|]. split; [exact Hfaults|].
  destruct (deep_id_lookups_degrade "a/b/c/d/e/f/AWS::EC2::Instance/i-0abc" []
              "AWS::EC2::Instance"
              {| state := Scenarios.analyzer_services;
                 faults := [Some Scenarios.throttled; None; Some Scenarios.throttled];
                 calls := [] |} Hsix Htype Hname eq_refl eq_refl)
    as (context & w' & later & start & finish & from_day & to_day & Hrun & Hcalls);
    [constructor | constructor | exact Hfaults |].
  exists context, w'. split; [exact Hrun|]. by rewrite Hcalls.
Defined.

(** An answer of AWS Config is never read.  When the lookup is served
    and finds at least one configuration item, building the line of the
    first item raises [KeyError]: the items have no [changeType].  The
    [except ClientError] does not catch it, so [get_contextual_data]
    raises after that one call and no other lookup is made. *)
Theorem config_items_break_the_context resource_id rid anomaly_details ts (w : world) :
  details_get anomaly_details "timestamp" = Ok ts ->
  (forall v, ts = Some v -> timestamp_param (state w) v = true) ->
  param_str resource_id = Ok rid ->
  hd None (faults w) = None ->
  config_history (state w) rid <> [] ->
  get_contextual_data resource_id anomaly_details w =
    (Raise (KeyError "'changeType'"),
     {| state := state w; faults := tail (faults w);
        calls := calls w ++
                 [GetResourceConfigHistory rid
                    (match ts with
                     | Some v => Given v
                     | None => At (now (state w) - day)
                     end)] |}).
Proof.
  intros Hts Htime Hrid Hserved Hitems.
  unfold get_contextual_data. unfold bind at 1.
  unfold config_evidence, try_except_ClientError, get_resource_config_history.
  rewrite Hts, bind_lift_ok.
  rewrite (bind_run _ _ w w (match ts with
                             | Some v => Given v
                             | None => At (now (state w) - day)
                             end)) by reflexivity.
  rewrite Hrid, bind_lift_ok.
  rewrite (bind_run _ _ w w (match ts with
                             | Some v => Given v
                             | None => At (now (state w) - day)
                             end));
    [|unfold param_time; destruct ts as [v|]; [by rewrite (Htime v eq_refl) | done]].
  unfold bind at 1. rewrite aws_served by done.
  cbn [fst snd]. unfold bind at 1, lift at 1.
  destruct (config_history (state w) rid) as [|item items]; [done|].
  reflexivity.
Qed.

Lemma config_items_break_the_context_witness :
  exists w : world,
    w = {| state := {| templates := ∅;
                       config_history := fun _ =>
                         [{| configurationItemCaptureTime := "2024-05-01T10:00:00Z";
                             configurationItemStatus := "OK" |}];
                       trail_events := fun _ _ => [];
                       cost_results := [];
                       models := ∅;
                       parse_timestamp := fun _ => None;
                       timestamp_param := fun _ => true;
                       now := 1714608000 |};
           faults := []; calls := [] |}
    /\ details_get (PyDict [("timestamp", PyStr "2024-05-01")]) "timestamp"
       = Ok (Some (PyStr "2024-05-01"))
    /\ (forall v, Some (PyStr "2024-05-01") = Some v -> timestamp_param (state w) v = true)
    /\ param_str (PyStr "i-0abc") = Ok "i-0abc"
    /\ hd None (faults w) = None
    /\ config_history (state w) "i-0abc" <> []
    /\ (get_contextual_data (PyStr "i-0abc")
          (PyDict [("timestamp", PyStr "2024-05-01")]) w).1
       = Raise (KeyError "'changeType'")
    /\ length (calls (get_contextual_data (PyStr "i-0abc")
                        (PyDict [("timestamp", PyStr "2024-05-01")]) w).2) = 1%nat.
Proof.
  eexists. split; [reflexivity|].
  match goal with
  | |- ?a /\ ?t /\ ?b /\ ?c /\ ?d /\ _ =>
      assert a as Ha by reflexivity; assert t as Ht by reflexivity;
      assert b as Hb by reflexivity;
      assert c as Hc by reflexivity; assert d as Hd by discriminate
  end.
  do 5 (split; [assumption|]).
  rewrite (config_items_break_the_context _ _ _ _ _ Ha Ht Hb Hc Hd). split; reflexivity.
Defined.

End AnalyzerOutcomes.

(** ** Frames *)

Lemma position_lookup name cols i :
  position name cols = Some i -> cols.*1 !! i = Some name.
Proof.
  revert i. induction cols as [|[n dt] cols IH]; intros i; [done|]. simpl.
  destruct (String.eqb_spec n name) as [->|_]; [by intros [= <-]|].
  destruct (position name cols) as [j|]; [|done]. intros [= <-]. simpl. by apply IH.
Qed.

Lemma position_elem_of name cols :
  position name cols = None -> name ∉ cols.*1.
Proof.
  induction cols as [|[n dt] cols IH]; [intros _; apply not_elem_of_nil|]. simpl.
  destruct (String.eqb_spec n name) as [->|Hne]; [done|].
  destruct (position name cols); [done|]. intros _.
  apply not_elem_of_cons. split; [congruence|]. by apply IH.
Qed.

(** An assignment that returns keeps the rows in number and shape; the
    names are those of the frame and the assigned one. *)
Lemma assign_ok df name dt values out :
  assign df name dt values = Ok out ->
  length values = len df
  /\ len out = len df
  /\ (forall n, n ∈ names out <-> n ∈ names df \/ n = name)
  /\ (NoDup (names df) -> NoDup (names out))
  /\ (rectangular df -> rectangular out).
Proof.
  unfold assign. destruct (length values =? len df)%nat eqn:Hlen; simpl; [|done].
  apply Nat.eqb_eq in Hlen.
  destruct (position name (columns df)) as [i|] eqn:Hpos; intros [= <-]; (split; [done|]).
  - pose proof (position_lookup _ _ _ Hpos) as Hi.
    assert (names {| columns := <[i := (name, dt)]> (columns df);
                     rows := zip_with (fun row v => <[i := v]> row) (rows df) values |}
            = names df) as Hnames.
    { unfold names. simpl. rewrite list_fmap_insert. simpl. by apply list_insert_id. }
    split; [unfold len in *; simpl; rewrite length_zip_with; lia|].
    split; [intros n; rewrite Hnames; split; [by left|intros [?| ->]; [done|]];
            by eapply list_elem_of_lookup_2|].
    split; [by rewrite Hnames|].
    unfold rectangular. simpl. rewrite length_insert. intros Hrect.
    apply Forall_lookup_2. intros j row Hrow.
    apply lookup_zip_with_Some in Hrow as (row0 & v & -> & Hrow0 & _).
    rewrite length_insert. by eapply (Forall_lookup_1 _ _ _ _ Hrect).
  - pose proof (position_elem_of _ _ Hpos) as Hnew.
    assert (names {| columns := columns df ++ [(name, dt)];
                     rows := zip_with (fun row v => row ++ [v]) (rows df) values |}
            = names df ++ [name]) as Hnames.
    { unfold names. simpl. by rewrite fmap_app. }
    split; [unfold len in *; simpl; rewrite length_zip_with; lia|].
    split; [intros n; rewrite Hnames, elem_of_app, list_elem_of_singleton; done|].
    split.
    + intros Hnodup. rewrite Hnames. apply NoDup_app. split; [done|].
      split; [|apply NoDup_singleton].
      intros n Hn. rewrite list_elem_of_singleton. intros ->. by apply Hnew.
    + unfold rectangular. simpl. rewrite length_app. simpl. intros Hrect.
      apply Forall_lookup_2. intros j row Hrow.
      apply lookup_zip_with_Some in Hrow as (row0 & v & -> & Hrow0 & _).
      rewrite length_app. simpl. by rewrite (Forall_lookup_1 _ _ _ _ Hrect Hrow0).
Qed.

Lemma keep_all_false {A} (xs : list A) (mask : list bool) :
  Forall (fun b => b = false) mask -> keep mask xs = [].
Proof.
  intros Hmask. revert xs. induction Hmask as [|b mask -> _ IH]; intros [|x xs]; try done.
  simpl. apply IH.
Qed.

(** ** Inference script: what [predict_fn] keeps and refuses *)
Module InferenceContract.
Import Inference.

(** Whatever the model and the columns of the request, a frame that
    [predict_fn] returns has the rows of the request in number, the
    names of the request and the two added ones and no other, distinct
    if they were, and a cell per column in every row if the request had;
    and the model answered both calls with one value per row. *)
Theorem predict_fn_keeps_the_frame input_data model out :
  predict_fn input_data model = Ok out ->
  len out = len input_data
  /\ (forall name, name ∈ names out <->
                   name ∈ names input_data \/ name = "is_anomaly" \/ name = "anomaly_score")
  /\ (NoDup (names input_data) -> NoDup (names out))
  /\ (rectangular input_data -> rectangular out)
  /\ exists predictions scores,
       predict model (select_dtypes_number input_data) = Ok predictions
       /\ decision_function model (select_dtypes_number input_data) = Ok scores
       /\ length predictions = len input_data
       /\ length scores = len input_data.
Proof.
  unfold predict_fn. destruct (empty (select_dtypes_number input_data)); [done|].
  destruct (predict model _) as [predictions|] eqn:Hpredict; simpl; [|done].
  destruct (assign input_data "is_anomaly" Numeric _) as [with_flag|] eqn:Hflag;
    simpl; [|done].
  destruct (decision_function model _) as [scores|] eqn:Hscores; simpl; [|done].
  intros Hscore.
  apply assign_ok in Hflag as (Hlen1 & Hrows1 & Hnames1 & Hnodup1 & Hrect1).
  apply assign_ok in Hscore as (Hlen2 & Hrows2 & Hnames2 & Hnodup2 & Hrect2).
  rewrite length_map in Hlen1, Hlen2.
  split; [congruence|]. split.
  { intros name. rewrite Hnames2, Hnames1. tauto. }
  split; [tauto|]. split; [tauto|].
  exists predictions, scores. repeat split; congruence.
Qed.

Lemma predict_fn_keeps_the_frame_witness :
  exists out,
    predict_fn Scenarios.labelled_features Scenarios.threshold_model = Ok out
    /\ len out = len Scenarios.labelled_features
    /\ rectangular out.
Proof.
  eexists. split; [reflexivity|].
  match goal with |- len ?out = _ /\ _ =>
    pose proof (predict_fn_keeps_the_frame Scenarios.labelled_features
                  Scenarios.threshold_model out eq_refl) as (Hlen & _ & _ & Hrect & _)
  end.
  split; [exact Hlen|]. apply Hrect. repeat constructor.
Defined.

(** A request without rows, or without a numeric column, is refused
    with [ValueError] before the model is asked. *)
Theorem predict_fn_refuses_without_numbers input_data model :
  len input_data = 0%nat \/ Forall (fun c => c.2 = Object) (columns input_data) ->
  predict_fn input_data model =
    Raise (ValueError
             "No numerical features found in input data for prediction. Check input schema.").
Proof.
  intros Hnone. unfold predict_fn.
  assert (empty (select_dtypes_number input_data) = true) as ->; [|done].
  destruct Hnone as [Hrows|Hcols].
  - apply empty_no_rows, select_no_rows. by apply length_zero_iff_nil.
  - unfold empty, select_dtypes_number. simpl. rewrite keep_all_false; [done|].
    apply Forall_map. eapply Forall_impl; [exact Hcols|]. simpl.
    intros c ->. by apply bool_decide_eq_false_2.
Qed.

Lemma predict_fn_refuses_without_numbers_witness :
  (len Scenarios.no_rows = 0%nat
   \/ Forall (fun c => c.2 = Object) (columns Scenarios.no_rows))
  /\ exists detail, predict_fn Scenarios.no_rows Scenarios.threshold_model
                    = Raise (ValueError detail).
Proof.
  assert (len Scenarios.no_rows = 0%nat
          \/ Forall (fun c => c.2 = Object) (columns Scenarios.no_rows)) as Hnone
    by (left; reflexivity).
  split; [exact Hnone|]. eexists.
  exact (predict_fn_refuses_without_numbers Scenarios.no_rows Scenarios.threshold_model Hnone).
Defined.

End InferenceContract.

Lemma keep_filter {A} (f : A -> bool) (xs : list A) :
  keep (List.map f xs) xs = List.filter f xs.
Proof.
  induction xs as [|x xs IH]; [done|]. simpl. destruct (f x); by rewrite IH.
Qed.

Lemma select_dtypes_number_len df : len (select_dtypes_number df) = len df.
Proof. unfold len, select_dtypes_number. simpl. by rewrite length_map. Qed.

Lemma select_dtypes_number_numeric df :
  Forall (fun c => c.2 = Numeric) (columns (select_dtypes_number df)).
Proof.
  unfold select_dtypes_number. simpl.
  rewrite (keep_filter (fun c => bool_decide (c.2 = Numeric))).
  apply Forall_forall. intros c Hc. apply list_elem_of_In, filter_In in Hc as [_ Hc].
  by apply bool_decide_eq_true in Hc.
Qed.

Lemma concat_len frames : len (concat frames) = sum_list (len <$> frames).
Proof.
  unfold len at 1, concat. simpl. generalize (concat_columns frames). intros cols.
  induction frames as [|df frames IH]; [done|]. simpl.
  rewrite length_app, IH. f_equal. unfold to_records, len. by rewrite !length_map.
Qed.

(** ** Training script: what the model is fitted on *)
Module TrainingFacts.
Import Training.

(** A run that returns has read every file of the channel; the model is
    the one fitted, with the given hyperparameters, on the numeric
    columns of their concatenation, which has a row for every row of
    every file; and [num_features] is the number of those columns, at
    least one. *)
Theorem model_is_fitted_on_every_row {Model : Type}
    (IsolationForest_fit : hyperparameters -> DataFrame -> result Model)
    args input_files model m :
  main IsolationForest_fit args input_files = Ok (model, m) ->
  exists frames,
    traverse snd input_files = Ok frames
    /\ length frames = length input_files
    /\ IsolationForest_fit args (select_dtypes_number (concat frames)) = Ok model
    /\ len (select_dtypes_number (concat frames)) = sum_list (len <$> frames)
    /\ Forall (fun c => c.2 = Numeric) (columns (select_dtypes_number (concat frames)))
    /\ num_features m = length (columns (select_dtypes_number (concat frames)))
    /\ (0 < num_features m)%nat
    /\ training_status m = "success".
Proof.
  intros Hrun. unfold main in Hrun. destruct input_files as [|file files]; [done|].
  destruct (traverse snd (file :: files)) as [frames|] eqn:Hread; simpl in Hrun; [|done].
  destruct (empty (select_dtypes_number (concat frames))) eqn:Hempty; [done|].
  destruct (IsolationForest_fit args _) as [fitted|] eqn:Hfit; simpl in Hrun; [|done].
  injection Hrun as <- <-. exists frames. cbn [num_features training_status].
  split; [done|]. split; [by apply traverse_length in Hread|]. split; [done|].
  split; [by rewrite select_dtypes_number_len, concat_len|].
  split; [apply select_dtypes_number_numeric|]. split; [done|]. split; [|done].
  change (0 < length (columns (select_dtypes_number (concat frames))))%nat.
  unfold empty in Hempty.
  destruct (columns (select_dtypes_number (concat frames))); [done|simpl; lia].
Qed.

Lemma model_is_fitted_on_every_row_witness :
  exists model m,
    main Scenarios.fit_width defaults
      [("part-0.parquet", Ok Scenarios.labelled_features);
       ("part-1.parquet", Ok Scenarios.latest_features)] = Ok (model, m)
    /\ num_features m = 2%nat
    /\ exists frames,
         len (select_dtypes_number (concat frames)) = sum_list (len <$> frames)
         /\ length frames = 2%nat.
Proof.
  do 2 eexists. split; [vm_compute; reflexivity|]. split; [reflexivity|].
  destruct (model_is_fitted_on_every_row Scenarios.fit_width defaults
              [("part-0.parquet", Ok Scenarios.labelled_features);
               ("part-1.parquet", Ok Scenarios.latest_features)]
              2%nat {| training_status := "success"; num_features := 2 |} eq_refl)
    as (frames & _ & Hfiles & _ & Hrows & _).
  exists frames. split; [exact Hrows | exact Hfiles].
Defined.

(** One file that cannot be read fails the run with the error of the
    first such file; nothing is fitted. *)
Theorem unreadable_file_fails_the_run {Model : Type}
    (IsolationForest_fit : hyperparameters -> DataFrame -> result Model)
    args before name e after frames :
  traverse snd before = Ok frames ->
  main IsolationForest_fit args (before ++ (name, Raise e) :: after) = Raise e.
Proof.
  intros Hbefore. unfold main.
  assert (traverse snd (before ++ (name, Raise e) :: after) = (Raise e : result (list DataFrame)))
    as Hread.
  { clear IsolationForest_fit. revert frames Hbefore.
    induction before as [|[n r] before IH]; intros frames Hbefore; [done|].
    simpl in *. destruct r as [df|e']; simpl in *; [|done].
    destruct (traverse snd before) as [fs|] eqn:Hfs; simpl in *; [|done].
    by rewrite (IH fs). }
  destruct (before ++ (name, Raise e) :: after) eqn:Hfiles.
  - by destruct before.
  - by rewrite Hread.
Qed.

Lemma unreadable_file_fails_the_run_witness :
  traverse snd [("part-0.parquet", Ok Scenarios.latest_features)]
    = Ok [Scenarios.latest_features]
  /\ main Scenarios.fit_width defaults
       ([("part-0.parquet", Ok Scenarios.latest_features)]
        ++ ("_SUCCESS", Raise (PyError "ArrowInvalid" "Parquet file size is 0 bytes")) :: [])
     = Raise (PyError "ArrowInvalid" "Parquet file size is 0 bytes").
Proof.
  split; [reflexivity|].
  exact (unreadable_file_fails_the_run Scenarios.fit_width defaults
           [("part-0.parquet", Ok Scenarios.latest_features)] "_SUCCESS"
           (PyError "ArrowInvalid" "Parquet file size is 0 bytes") []
           [Scenarios.latest_features] eq_refl).
Defined.

End TrainingFacts.

(** ** Feature engineering script: the shape of what is written *)
Module FeatureEngineeringShape.
Import FeatureEngineering.

Lemma onehot_length categories v : length (onehot categories v) = length categories.
Proof. unfold onehot. by rewrite length_map. Qed.

Lemma blocks_width (features : list string) (categories : list (list cell)) values :
  length values = length categories ->
  length features = length categories ->
  length (List.concat (List.map (fun cv => onehot cv.1 cv.2) (zip categories values))) =
  length (List.concat (zip_with (fun f cats => List.map (OneHot f) cats) features categories)).
Proof.
  revert features values.
  induction categories as [|cats categories IH]; intros [|f features] [|v values];
    try done.
  simpl. intros Hvalues Hfeatures. rewrite !length_app, onehot_length, length_map.
  f_equal. apply IH; lia.
Qed.

Lemma fit_scaler_width stats df scaler :
  fit_scaler stats df = Ok scaler ->
  length (mean_ scaler) = length numerical_features
  /\ length (scale_ scaler) = length numerical_features.
Proof.
  unfold fit_scaler.
  destruct (traverse (feature_column df) numerical_features) as [cols|] eqn:Hcols;
    simpl; [|done].
  destruct (traverse (traverse to_float) cols) as [floats|] eqn:Hfloats; simpl; [|done].
  destruct (rows df); [done|]. intros [= <-]. simpl.
  apply traverse_length in Hcols, Hfloats.
  rewrite ?length_fmap, ?length_map. simpl in *. lia.
Qed.

(** Every row the preprocessor fitted by the script transforms is as
    wide as the list of feature names the script builds. *)
Lemma transform_width stats df ct (row : record) cells :
  fit stats df = Ok ct ->
  transform ct row = Ok cells ->
  length cells = length (feature_names ct).
Proof.
  intros Hfit. pose proof (FeatureEngineeringFacts.fit_inv _ _ _ Hfit) as [Hpolicy Hcats].
  assert (length (mean_ (num ct)) = length numerical_features
          /\ length (scale_ (num ct)) = length numerical_features) as [Hmean Hscale].
  { unfold fit in Hfit. destruct (fit_scaler stats df) as [scaler|] eqn:Hscaler;
      simpl in Hfit; [|done].
    destruct (fit_encoder ignore df); simpl in Hfit; [|done].
    injection Hfit as <-. simpl. by apply fit_scaler_width in Hscaler. }
  intros Hrun. unfold transform, scale_row, encode_row in Hrun.
  destruct (select numerical_features row) as [numbers|] eqn:Hnumbers; [|done].
  cbn [result_bind] in Hrun.
  destruct (traverse to_float numbers) as [floats|] eqn:Hfloats; [|done].
  cbn [result_bind] in Hrun.
  destruct (select categorical_features row) as [values|] eqn:Hvalues; [|done].
  cbn [result_bind] in Hrun.
  rewrite Hpolicy, FeatureEngineeringFacts.encode_all_ignore in Hrun.
  cbn [result_bind] in Hrun. injection Hrun as <-.
  unfold select in *. apply traverse_length in Hnumbers, Hfloats, Hvalues.
  unfold feature_names. rewrite !length_app, length_map, length_zip_with, length_zip_with.
  rewrite (blocks_width categorical_features) by lia. lia.
Qed.

(** The two outputs of the script agree.  Whenever it returns, every
    row of [transformed_data] has one cell per name of
    [all_feature_names], so the frame built from them is well formed;
    there is one transformed row for every row of every input file; and
    the names begin with the two numerical features. *)
Theorem processed_rows_match_names
    (column_stats : list Q -> Q * Q) (to_datetime : cell -> result date_parts)
    input_files p :
  main column_stats to_datetime input_files = Ok p ->
  Forall (fun row => length row = length (all_feature_names p)) (transformed_data p)
  /\ (exists frames,
        traverse snd input_files = Ok frames
        /\ length (transformed_data p) = sum_list (len <$> frames))
  /\ take 2 (all_feature_names p) =
       [Plain "daily_egress_cost_usd"; Plain "daily_egress_usage_amount"].
Proof.
  intros Hrun. unfold main in Hrun. destruct input_files as [|file files]; [done|].
  destruct (traverse snd (file :: files)) as [frames|] eqn:Hread; simpl in Hrun; [|done].
  destruct (add_time_features to_datetime (concat frames)) as [df|] eqn:Htime;
    simpl in Hrun; [|done].
  unfold fit_transform in Hrun.
  destruct (fit column_stats df) as [ct|] eqn:Hfit; simpl in Hrun; [|done].
  destruct (traverse (transform ct) (to_records df)) as [matrix|] eqn:Hmatrix;
    simpl in Hrun; [|done].
  injection Hrun as <-. cbn [all_feature_names transformed_data].
  split; [|split; [|done]].
  - clear Hread Htime. revert matrix Hmatrix.
    induction (to_records df) as [|row records IH]; intros matrix; simpl.
    + intros [= <-]. constructor.
    + destruct (transform ct row) as [cells|] eqn:Hcells; simpl; [|done].
      destruct (traverse (transform ct) records) as [others|]; simpl; [|done].
      intros [= <-]. constructor; [|by apply IH].
      by eapply transform_width.
  - exists frames. split; [done|].
    apply traverse_length in Hmatrix. rewrite Hmatrix.
    unfold to_records. rewrite length_map. fold (len df).
    rewrite <- concat_len.
    unfold add_time_features in Htime.
    destruct (column (concat frames) "usage_date") as [dates|]; simpl in Htime; [|done].
    destruct (traverse to_datetime dates) as [parts|]; simpl in Htime; [|done].
    repeat match type of Htime with
           | context [assign ?d ?n ?t ?v] =>
               let H := fresh "Hassign" in
               destruct (assign d n t v) as [?df|] eqn:H; simpl in Htime;
               [apply assign_ok in H as (_ & H & _)|done]
           end.
    injection Htime as <-. congruence.
Qed.

Lemma processed_rows_match_names_witness :
  exists p,
    main Scenarios.unit_stats Scenarios.first_of_may
      [("part-0.parquet", Ok Scenarios.usage_rows)] = Ok p
    /\ Forall (fun row => length row = length (all_feature_names p)) (transformed_data p)
    /\ length (transformed_data p) = 2%nat.
Proof.
  destruct (main Scenarios.unit_stats Scenarios.first_of_may
              [("part-0.parquet", Ok Scenarios.usage_rows)]) as [p|e] eqn:Hrun.
  2: { exfalso. vm_compute in Hrun. discriminate Hrun. }
  exists p. split; [reflexivity|].
  destruct (processed_rows_match_names _ _ _ _ Hrun) as (Hwidth & (frames & Hread & Hlen) & _).
  split; [exact Hwidth|].
  rewrite Hlen. injection Hread as <-. reflexivity.
Defined.

End FeatureEngineeringShape.

